(** * Agent-lineage reconstruction and workflow-graph engine

  A shallow embedding of the Python sources

    - [analysis/agent_tracker.py]      (conversation fingerprints, agent
                                        instances, tool tracking, agent DAG)
    - [analysis/entity_deduplicator.py] (entity deduplication)
    - [proxy/workflow_graph.py]         (sessions, edge detectors, request graph)

  together with the properties the specification states about them.

  Conventions of the embedding.

  - Log entries, request bodies, messages and content blocks are JSON
    documents ([json]); the Python code reads them with [dict.get], tests
    them with [isinstance] and iterates over them, and every such operation
    is embedded with the exception it raises on a value of the wrong type.
    JSON numbers are integers here.
  - A Python [str] is a [string] of bytes (its UTF-8 encoding), so that
    [text.encode()] is the identity.  Slices that count characters
    ([s[:200]]) count UTF-8 code points.
  - A function that can raise returns a [result]; the methods of the two
    stateful classes run in a state-and-exception monad whose state survives
    an exception, as the attributes of a Python object do.
  - [hashlib.sha256] is embedded as SHA-256 itself.  [datetime] parsing and
    the floating point durations derived from it are library behaviour that
    differs between interpreter versions: the development is parametric in
    them (section variables). *)

From Stdlib Require Import ZArith List String Ascii Bool Lia QArith.
From stdpp Require Import base option list gmap strings pretty fin_maps.

Set Warnings "-register-all".

Open Scope string_scope.
Open Scope list_scope.
Open Scope Z_scope.

(* ===================================================================== *)
(** * Python values and exceptions *)
(* ===================================================================== *)

Inductive json : Type :=
| JNull
| JBool (b : bool)
| JNum (n : Z)
| JStr (s : string)
| JList (items : list json)
| JDict (fields : list (string * json)).

(** The built-in exceptions the embedded code can raise. *)
Inductive exn : Type :=
| AttributeError
| TypeError
| ValueError
| KeyError
| IndexError.

Inductive result (A : Type) : Type :=
| Ok (a : A)
| Raise (e : exn).

Arguments Ok {A} a.
Arguments Raise {A} e.

Definition rbind {A B} (m : result A) (k : A -> result B) : result B :=
  match m with
  | Ok a => k a
  | Raise e => Raise e
  end.

Declare Scope result_scope.
Delimit Scope result_scope with result.
Notation "'let?' x ':=' m 'in' k" := (rbind m (fun x => k))
  (at level 10, x pattern, m at level 100, k at level 200) : result_scope.
Open Scope result_scope.

(** [for x in xs: acc = f(acc, x)] with a body that may raise. *)
Fixpoint rfold {A B} (f : A -> B -> result A) (xs : list B) (acc : A)
  : result A :=
  match xs with
  | [] => Ok acc
  | x :: xs' => let? acc' := f acc x in rfold f xs' acc'
  end.

Fixpoint rmap {A B} (f : A -> result B) (xs : list A) : result (list B) :=
  match xs with
  | [] => Ok []
  | x :: xs' =>
      let? y := f x in
      let? ys := rmap f xs' in
      Ok (y :: ys)
  end.

(* ===================================================================== *)
(** * Strings *)
(* ===================================================================== *)

Module Str.

Definition to_list (s : string) : list ascii := list_ascii_of_string s.
Definition of_list (l : list ascii) : string := string_of_list_ascii l.

Definition code (c : ascii) : Z := Z.of_N (N_of_ascii c).
Definition chr (z : Z) : ascii := ascii_of_N (Z.to_N z).

Fixpoint concat (l : list string) : string :=
  match l with
  | [] => ""
  | s :: l' => s +:+ concat l'
  end.

(** [sep.join(parts)] *)
Fixpoint join (sep : string) (parts : list string) : string :=
  match parts with
  | [] => ""
  | [p] => p
  | p :: rest => p +:+ sep +:+ join sep rest
  end.

(** A byte that starts a UTF-8 code point (anything but 10xxxxxx). *)
Definition starts_char (c : ascii) : bool :=
  negb ((128 <=? code c) && (code c <? 192)).

(** [len(s)]: the number of code points. *)
Definition len (s : string) : nat :=
  List.length (List.filter starts_char (to_list s)).

(** The bytes of the first [n] code points. *)
Fixpoint take_chars (n : nat) (l : list ascii) : list ascii :=
  match l with
  | [] => []
  | c :: l' =>
      if starts_char c then
        match n with
        | O => []
        | S n' => c :: take_chars n' l'
        end
      else c :: take_chars n l'
  end.

(** [s[:n]] *)
Definition prefix (n : nat) (s : string) : string :=
  of_list (take_chars n (to_list s)).

Definition eqb (a b : string) : bool := bool_decide (a = b).

Fixpoint list_starts_with (l p : list ascii) : bool :=
  match p, l with
  | [], _ => true
  | _ :: _, [] => false
  | a :: p', b :: l' => bool_decide (a = b) && list_starts_with l' p'
  end.

(** [s.startswith(p)] *)
Definition startswith (s p : string) : bool :=
  list_starts_with (to_list s) (to_list p).

(** [s.endswith(p)] *)
Definition endswith (s p : string) : bool :=
  list_starts_with (rev (to_list s)) (rev (to_list p)).

(** [str.isspace] on the ASCII range: TAB, LF, VT, FF, CR, FS, GS, RS, US
    and SPACE. *)
Definition is_space (c : ascii) : bool :=
  let n := code c in
  ((9 <=? n) && (n <=? 13)) || ((28 <=? n) && (n <=? 32)).

Definition is_digit (c : ascii) : bool :=
  let n := code c in (48 <=? n) && (n <=? 57).
Definition is_upper (c : ascii) : bool :=
  let n := code c in (65 <=? n) && (n <=? 90).
Definition is_lower (c : ascii) : bool :=
  let n := code c in (97 <=? n) && (n <=? 122).
Definition is_alnum (c : ascii) : bool :=
  is_digit c || is_upper c || is_lower c.

Definition lower_char (c : ascii) : ascii :=
  if is_upper c then chr (code c + 32) else c.

(** [s.lower()] on the ASCII range. *)
Definition lower (s : string) : string :=
  of_list (List.map lower_char (to_list s)).

(** [s.split()]: maximal runs of non-space characters. *)
Fixpoint split_ws_aux (l : list ascii) (cur : list ascii)
  : list (list ascii) :=
  match l with
  | [] => match cur with [] => [] | _ => [rev cur] end
  | c :: l' =>
      if is_space c then
        match cur with
        | [] => split_ws_aux l' []
        | _ => rev cur :: split_ws_aux l' []
        end
      else split_ws_aux l' (c :: cur)
  end.

Definition split_ws (s : string) : list string :=
  List.map of_list (split_ws_aux (to_list s) []).

(** [' '.join(s.split())] *)
Definition normalize_ws (s : string) : string := join " " (split_ws s).

(** [s.strip()] *)
Fixpoint lstrip_list (l : list ascii) : list ascii :=
  match l with
  | c :: l' => if is_space c then lstrip_list l' else l
  | [] => []
  end.

Definition strip (s : string) : string :=
  of_list (rev (lstrip_list (rev (lstrip_list (to_list s))))).

(** [s.replace(a, b)] for a one-character [a]. *)
Definition replace_char (a : ascii) (b : string) (s : string) : string :=
  concat (List.map (fun c => if bool_decide (c = a) then b
                             else String c "") (to_list s)).

(** [str(n)] for an integer: its decimal numeral. *)
Definition of_Z (n : Z) : string := pretty n.

End Str.

(* ===================================================================== *)
(** * SHA-256 ([hashlib.sha256(...).hexdigest()]) *)
(* ===================================================================== *)

Module Sha256.

Definition w32 (x : Z) : Z := x mod 4294967296.
Definition add32 (x y : Z) : Z := w32 (x + y).
Definition rotr (n x : Z) : Z :=
  w32 (Z.lor (Z.shiftr x n) (Z.shiftl x (32 - n))).
Definition shr (n x : Z) : Z := Z.shiftr x n.
Definition not32 (x : Z) : Z := 4294967295 - x.

Definition ch (x y z : Z) : Z :=
  Z.lxor (Z.land x y) (Z.land (not32 x) z).
Definition maj (x y z : Z) : Z :=
  Z.lxor (Z.lxor (Z.land x y) (Z.land x z)) (Z.land y z).
Definition bsig0 (x : Z) : Z :=
  Z.lxor (Z.lxor (rotr 2 x) (rotr 13 x)) (rotr 22 x).
Definition bsig1 (x : Z) : Z :=
  Z.lxor (Z.lxor (rotr 6 x) (rotr 11 x)) (rotr 25 x).
Definition ssig0 (x : Z) : Z :=
  Z.lxor (Z.lxor (rotr 7 x) (rotr 18 x)) (shr 3 x).
Definition ssig1 (x : Z) : Z :=
  Z.lxor (Z.lxor (rotr 17 x) (rotr 19 x)) (shr 10 x).

(** The constants are not tabulated but derived as the standard defines
    them: the round constants are the first 32 bits of the fractional
    parts of the cube roots of the first 64 primes, the initial state
    those of the square roots of the first 8. *)
Definition is_prime (n : Z) : bool :=
  forallb (fun d => negb (n mod Z.of_nat d =? 0))
          (seq 2 (Z.to_nat n - 2)).

Definition primes (count : nat) : list Z :=
  firstn count (List.filter is_prime (List.map Z.of_nat (seq 2 310))).

Fixpoint cube_root_from (bit : nat) (n root : Z) : Z :=
  let candidate := root + Z.shiftl 1 (Z.of_nat bit) in
  let root' := if candidate * candidate * candidate <=? n
               then candidate else root in
  match bit with
  | O => root'
  | S bit' => cube_root_from bit' n root'
  end.

Definition cube_root (n : Z) : Z := cube_root_from 40 n 0.

Definition K : list Z :=
  Eval vm_compute in
    List.map (fun p => w32 (cube_root (Z.shiftl p 96))) (primes 64).

Definition H0 : list Z :=
  Eval vm_compute in
    List.map (fun p => w32 (Z.sqrt (Z.shiftl p 64))) (primes 8).

(** Message padding: a 1 bit, zeros up to 56 mod 64, the bit length on
    64 bits. *)
Definition be_bytes (width : nat) (x : Z) : list Z :=
  List.map (fun i => Z.shiftr x (8 * Z.of_nat i) mod 256)
           (rev (seq 0 width)).

Definition pad (msg : list Z) : list Z :=
  let n := Z.of_nat (List.length msg) in
  let zeros := Z.to_nat ((55 - n) mod 64) in
  msg ++ [128] ++ List.repeat 0 zeros ++ be_bytes 8 (8 * n).

Fixpoint words (bytes : list Z) : list Z :=
  match bytes with
  | a :: b :: c :: d :: rest =>
      (Z.shiftl a 24 + Z.shiftl b 16 + Z.shiftl c 8 + d) :: words rest
  | _ => []
  end.

Fixpoint chunks (fuel : nat) (ws : list Z) : list (list Z) :=
  match fuel, ws with
  | S fuel', _ :: _ => firstn 16 ws :: chunks fuel' (skipn 16 ws)
  | _, _ => []
  end.

(** The message schedule, most recent word first. *)
Fixpoint schedule (n : nat) (rev_w : list Z) : list Z :=
  match n with
  | O => rev_w
  | S n' =>
      let w := add32 (add32 (ssig1 (nth 1 rev_w 0)) (nth 6 rev_w 0))
                     (add32 (ssig0 (nth 14 rev_w 0)) (nth 15 rev_w 0)) in
      schedule n' (w :: rev_w)
  end.

Definition round (st : list Z) (kw : Z * Z) : list Z :=
  match st with
  | [a; b; c; d; e; f; g; h] =>
      let t1 := add32 (add32 (add32 h (bsig1 e)) (add32 (ch e f g) (fst kw)))
                      (snd kw) in
      let t2 := add32 (bsig0 a) (maj a b c) in
      [add32 t1 t2; a; b; c; add32 d t1; e; f; g]
  | _ => st
  end.

Definition zip_with {A B C} (f : A -> B -> C) :=
  fix go (xs : list A) (ys : list B) : list C :=
    match xs, ys with
    | x :: xs', y :: ys' => f x y :: go xs' ys'
    | _, _ => []
    end.

Definition compress (h : list Z) (chunk : list Z) : list Z :=
  let w := rev (schedule 48 (rev chunk)) in
  let st := List.fold_left round (zip_with pair K w) h in
  zip_with add32 h st.

Definition digest_words (msg : list Z) : list Z :=
  let ws := words (pad msg) in
  List.fold_left compress (chunks (List.length ws) ws) H0.

Definition hex_digit (n : Z) : ascii :=
  if n <? 10 then Str.chr (48 + n) else Str.chr (87 + n).

Definition hex_word (w : Z) : list ascii :=
  List.map (fun i => hex_digit (Z.shiftr w (4 * Z.of_nat i) mod 16))
           (rev (seq 0 8)).

Definition hexdigest (s : string) : string :=
  Str.of_list
    (List.concat (List.map hex_word
       (digest_words (List.map Str.code (Str.to_list s))))).

End Sha256.

(* ===================================================================== *)
(** * Python operations on JSON values *)
(* ===================================================================== *)

Module Py.

Fixpoint assoc (k : string) (d : list (string * json)) : option json :=
  match d with
  | [] => None
  | (k', v) :: d' => if bool_decide (k' = k) then Some v else assoc k d'
  end.

(** [d.get(k, dflt)] on a value already known to be a dict. *)
Definition dict_get (d : list (string * json)) (k : string) (dflt : json)
  : json :=
  match assoc k d with
  | Some v => v
  | None => dflt
  end.

(** [o.get(k, dflt)]: only a dict has the attribute [get]. *)
Definition get (o : json) (k : string) (dflt : json) : result json :=
  match o with
  | JDict d => Ok (dict_get d k dflt)
  | _ => Raise AttributeError
  end.

(** [k in d] for a dict. *)
Definition has_key (d : list (string * json)) (k : string) : bool :=
  match assoc k d with
  | Some _ => true
  | None => false
  end.

(** Truth value of an object ([if x:], [not x]). *)
Definition truthy (j : json) : bool :=
  match j with
  | JNull => false
  | JBool b => b
  | JNum n => negb (n =? 0)
  | JStr s => negb (bool_decide (s = ""))
  | JList l => match l with [] => false | _ => true end
  | JDict d => match d with [] => false | _ => true end
  end.

(** [x == lit] for a string literal [lit]. *)
Definition is_str (j : json) (lit : string) : bool :=
  match j with
  | JStr s => bool_decide (s = lit)
  | _ => false
  end.

(** The characters of a string, one code point each. *)
Fixpoint chars_aux (l : list ascii) (cur : list ascii) : list string :=
  match l with
  | [] => match cur with [] => [] | _ => [Str.of_list (rev cur)] end
  | c :: l' =>
      if Str.starts_char c then
        match cur with
        | [] => chars_aux l' [c]
        | _ => Str.of_list (rev cur) :: chars_aux l' [c]
        end
      else chars_aux l' (c :: cur)
  end.

(** [for x in o]: the items of a list, the characters of a string, the
    keys of a dict; nothing else is iterable. *)
Definition iter (o : json) : result (list json) :=
  match o with
  | JList l => Ok l
  | JStr s => Ok (List.map JStr (chars_aux (Str.to_list s) []))
  | JDict d => Ok (List.map (fun kv => JStr (fst kv)) d)
  | _ => Raise TypeError
  end.

(** [len(o)] *)
Definition len (o : json) : result nat :=
  match o with
  | JList l => Ok (List.length l)
  | JStr s => Ok (Str.len s)
  | JDict d => Ok (List.length d)
  | _ => Raise TypeError
  end.

Definition dquote : ascii := Str.chr 34.
Definition squote : ascii := Str.chr 39.
Definition backslash : ascii := Str.chr 92.

Definition repr_char (q c : ascii) : string :=
  let n := Str.code c in
  if bool_decide (c = backslash) then String backslash (String backslash "")
  else if bool_decide (c = q) then String backslash (String q "")
  else if n =? 10 then String backslash "n"
  else if n =? 13 then String backslash "r"
  else if n =? 9 then String backslash "t"
  else if (n <? 32) || (n =? 127) then
    String backslash
      (String "x" (String (Sha256.hex_digit (n / 16))
                     (String (Sha256.hex_digit (n mod 16)) "")))
  else String c "".

Definition has_char (c : ascii) (s : string) : bool :=
  existsb (fun x => bool_decide (x = c)) (Str.to_list s).

(** [repr(s)] of a string: single quotes unless the text holds a single
    quote and no double quote.  Bytes above the ASCII range are kept. *)
Definition repr_str (s : string) : string :=
  let q := if has_char squote s && negb (has_char dquote s)
           then dquote else squote in
  String q (Str.concat (List.map (repr_char q) (Str.to_list s)))
  +:+ String q "".

(** [repr(o)] *)
Fixpoint repr (j : json) : string :=
  match j with
  | JNull => "None"
  | JBool true => "True"
  | JBool false => "False"
  | JNum n => Str.of_Z n
  | JStr s => repr_str s
  | JList l => "[" +:+ Str.join ", " (List.map repr l) +:+ "]"
  | JDict d =>
      "{" +:+ Str.join ", "
                (List.map (fun kv => repr_str (fst kv) +:+ ": "
                                     +:+ repr (snd kv)) d)
      +:+ "}"
  end.

(** [str(o)], also what an f-string field [{o}] formats to. *)
Definition str (j : json) : string :=
  match j with
  | JStr s => s
  | _ => repr j
  end.

(** [sep.join(items)]: every item has to be a string. *)
Fixpoint join_items (items : list json) : result (list string) :=
  match items with
  | [] => Ok []
  | JStr s :: rest => let? ss := join_items rest in Ok (s :: ss)
  | _ :: _ => Raise TypeError
  end.

Definition join (sep : string) (items : list json) : result string :=
  let? ss := join_items items in Ok (Str.join sep ss).

End Py.

(* ===================================================================== *)
(** * ContentFingerprinter ([agent_tracker.py], module level) *)
(* ===================================================================== *)

(** [hashlib.sha256(text.encode()).hexdigest()[:length]]: only a string has
  [encode]. *)
Definition compute_hash (text : json) (length : nat) : result string :=
  match text with
  | JStr s => Ok (Str.prefix length (Sha256.hexdigest s))
  | _ => Raise AttributeError
  end.

(** The signature of one content block, [None] for a block that adds
  nothing to [block_signature]. *)
Definition block_signature (block : json) : result (option string) :=
  match block with
  | JDict d =>
      let block_type := Py.dict_get d "type" (JStr "unknown") in
      if Py.is_str block_type "text" then
        let text := Py.dict_get d "text" (JStr "") in
        let? text_hash := compute_hash text 8 in
        Ok (Some ("text:" +:+ text_hash))
      else if Py.is_str block_type "tool_use" then
        let tool_name := Py.dict_get d "name" (JStr "") in
        let tool_input := Py.dict_get d "input" (JDict []) in
        let? input_hash := compute_hash (JStr (Py.str tool_input)) 8 in
        Ok (Some ("tool_use:" +:+ Py.str tool_name +:+ ":" +:+ input_hash))
      else if Py.is_str block_type "tool_result" then
        let result_content := Py.dict_get d "content" (JStr "") in
        let? result_hash := compute_hash (JStr (Py.str result_content)) 8 in
        Ok (Some ("tool_result:" +:+ result_hash))
      else Ok None
  | _ => Ok None
  end.

Fixpoint block_signatures (blocks : list json) : result (list string) :=
  match blocks with
  | [] => Ok []
  | b :: rest =>
      let? s := block_signature b in
      let? ss := block_signatures rest in
      Ok (match s with Some x => x :: ss | None => ss end)
  end.

(** The content of a message as a list of blocks. *)
Definition normalize_content (content : json) : list json :=
  match content with
  | JStr _ => [JDict [("type", JStr "text"); ("text", content)]]
  | JList l => l
  | _ => []
  end.

(** One entry of [fingerprint_parts]. *)
Definition message_signature (msg : json) : result string :=
  let? role := Py.get msg "role" (JStr "") in
  let? content := Py.get msg "content" (JList []) in
  let? sigs := block_signatures (normalize_content content) in
  Ok (Py.str role +:+ ":[" +:+ Str.join "," sigs +:+ "]").

Definition compute_conversation_fingerprint (messages : json)
  : result string :=
  if negb (Py.truthy messages) then compute_hash (JStr "empty") 16
  else
    let? msgs := Py.iter messages in
    let? fingerprint_parts := rmap message_signature msgs in
    compute_hash (JStr (Str.join "|||" fingerprint_parts)) 16.

(* ===================================================================== *)
(** * Regular expressions ([re.search], [re.match]) *)
(* ===================================================================== *)

(** The fragment of Python's backtracking matcher that the patterns of
  [extract_command_from_message] use: character classes, sequence, ordered
  alternation, greedy and lazy repetition, one capture group and [$]. *)
Module Re.

Inductive regex : Type :=
| Chr (p : ascii -> bool)
| Eps
| Seq (r1 r2 : regex)
| Alt (r1 r2 : regex)
| Star (r : regex)
| LazyStar (r : regex)
| Group (r : regex)
| Eos.

Definition Opt (r : regex) : regex := Alt r Eps.

Fixpoint Lit (l : list ascii) : regex :=
  match l with
  | [] => Eps
  | c :: l' => Seq (Chr (fun x => bool_decide (x = c))) (Lit l')
  end.

Definition newline : ascii := Str.chr 10.

(** What was consumed between the suffixes [s] and [s']. *)
Definition consumed (s s' : list ascii) : list ascii :=
  firstn (List.length s - List.length s') s.

Section Matcher.
Context {R : Type}.

(** [run r s g k]: match [r] at the head of [s], with [g] the text of
    the capture group so far, and hand the rest of the input to the
    continuation [k]; the first success in backtracking order wins. *)
Fixpoint run (r : regex) (s : list ascii) (g : option (list ascii))
  (k : list ascii -> option (list ascii) -> option R) : option R :=
  match r with
  | Chr p =>
      match s with
      | c :: s' => if p c then k s' g else None
      | [] => None
      end
  | Eps => k s g
  | Seq r1 r2 => run r1 s g (fun s1 g1 => run r2 s1 g1 k)
  | Alt r1 r2 =>
      match run r1 s g k with
      | Some x => Some x
      | None => run r2 s g k
      end
  | Star r1 =>
      (fix loop (fuel : nat) (s0 : list ascii) (g0 : option (list ascii))
         : option R :=
         match fuel with
         | O => k s0 g0
         | S fuel' =>
             match run r1 s0 g0
                     (fun s1 g1 =>
                        if (List.length s1 <? List.length s0)%nat
                        then loop fuel' s1 g1 else None) with
             | Some x => Some x
             | None => k s0 g0
             end
         end) (S (List.length s)) s g
  | LazyStar r1 =>
      (fix loop (fuel : nat) (s0 : list ascii) (g0 : option (list ascii))
         : option R :=
         match k s0 g0 with
         | Some x => Some x
         | None =>
             match fuel with
             | O => None
             | S fuel' =>
                 run r1 s0 g0
                   (fun s1 g1 =>
                      if (List.length s1 <? List.length s0)%nat
                      then loop fuel' s1 g1 else None)
             end
         end) (S (List.length s)) s g
  | Group r1 => run r1 s g (fun s1 _ => k s1 (Some (consumed s s1)))
  | Eos =>
      match s with
      | [] => k s g
      | [c] => if bool_decide (c = newline) then k s g else None
      | _ => None
      end
  end.
End Matcher.

(** The outcome of a successful match: what precedes it, what follows it,
    and the text of the group. *)
Record found : Type := Found {
  before : list ascii;
  after : list ascii;
  group1 : option (list ascii)
}.

(** [re.match(r, s)] *)
Definition match_ (r : regex) (s : list ascii) : option found :=
  run r s None (fun s' g => Some (Found [] s' g)).

(** [re.search(r, s)]: the leftmost start that matches. *)
Fixpoint search_from (r : regex) (pre : list ascii) (s : list ascii)
  : option found :=
  match run r s None (fun s' g => Some (Found (rev pre) s' g)) with
  | Some f => Some f
  | None =>
      match s with
      | [] => None
      | c :: s' => search_from r (c :: pre) s'
      end
  end.

Definition search (r : regex) (s : list ascii) : option found :=
  search_from r [] s.

(** [m.end()] as a number of bytes of the searched text. *)
Definition end_of (s : list ascii) (f : found) : nat :=
  (List.length s - List.length (after f))%nat.

End Re.

(* ===================================================================== *)
(** * Module-level helpers of [agent_tracker.py] *)
(* ===================================================================== *)

(** [messages[0]] *)
Definition first_item (o : json) : result json :=
  match o with
  | JList (x :: _) => Ok x
  | JList [] => Raise IndexError
  | JStr s =>
      match Py.chars_aux (Str.to_list s) [] with
      | c :: _ => Ok (JStr c)
      | [] => Raise IndexError
      end
  | JDict _ => Raise KeyError
  | _ => Raise TypeError
  end.

(** The text of the first block of type [text], if any. *)
Fixpoint first_text_block (blocks : list json) : option json :=
  match blocks with
  | [] => None
  | JDict d :: rest =>
      if Py.is_str (Py.dict_get d "type" JNull) "text"
      then Some (Py.dict_get d "text" (JStr ""))
      else first_text_block rest
  | _ :: rest => first_text_block rest
  end.

Definition extract_first_user_message (messages : json) : result json :=
  if negb (Py.truthy messages) then Ok (JStr "")
  else
    let? first_msg := first_item messages in
    let? role := Py.get first_msg "role" JNull in
    if negb (Py.is_str role "user") then Ok (JStr "")
    else
      let? content := Py.get first_msg "content" (JStr "") in
      match content with
      | JStr _ => Ok content
      | JList blocks =>
          match first_text_block blocks with
          | Some text => Ok text
          | None => Ok (JStr "")
          end
      | _ => Ok (JStr "")
      end.

(** [re.sub(r'[^a-zA-Z0-9]', '', command).lower()] *)
Definition normalize_command (command : json) : result string :=
  if negb (Py.truthy command) then Ok ""
  else
    match command with
    | JStr s =>
        Ok (Str.lower (Str.of_list (List.filter Str.is_alnum (Str.to_list s))))
    | _ => Raise TypeError
    end.

(** [AgentInstanceTracker.compute_system_prompt_hash] (it does not read the
  tracker). *)
Fixpoint system_texts (prompts : list json) : list json :=
  match prompts with
  | [] => []
  | JDict d :: rest =>
      let text := Py.dict_get d "text" (JStr "") in
      if Py.truthy text then text :: system_texts rest else system_texts rest
  | _ :: rest => system_texts rest
  end.

Definition compute_system_prompt_hash (system : json) : result string :=
  let? prompts := Py.iter system in
  let texts := system_texts prompts in
  match texts with
  | [] => Ok "no_system"
  | _ :: _ =>
      let? combined := Py.join "|||" texts in
      compute_hash (JStr combined) 16
  end.

(** ** [extract_command_from_message] *)

Module CommandPattern.
Import Re.

Definition ws : regex := Chr Str.is_space.
Definition quote : regex :=
  Chr (fun c => bool_decide (c = Py.squote) || bool_decide (c = Py.dquote)).
Definition ident_start : regex :=
  Chr (fun c => Str.is_upper c || Str.is_lower c
                || bool_decide (c = "_"%char)).
Definition ident_char : regex :=
  Chr (fun c => Str.is_alnum c || bool_decide (c = "_"%char)).
Definition dot : regex := Chr (fun c => negb (bool_decide (c = newline))).
Definition rparen : regex := Chr (fun c => bool_decide (c = ")"%char)).
Definition dq : regex := Chr (fun c => bool_decide (c = Py.dquote)).

(** The text Command: followed by spaces. *)
Definition command_marker : regex :=
  Seq (Lit (Str.to_list "Command:")) (Star ws).

(** Two less-than signs, an optional quote, the marker name (the group:
    a letter or underscore, then letters, digits and underscores), an
    optional quote. *)
Definition heredoc : regex :=
  Seq (Lit (Str.to_list "<<"))
    (Seq (Opt quote)
       (Seq (Group (Seq ident_start (Star ident_char))) (Opt quote))).

(** A line break, the marker, optionally (spaces, an optional closing
    parenthesis, an optional double quote, an optional closing
    parenthesis), spaces, then a line break or the end of the text. *)
Definition closing (marker : list ascii) : regex :=
  Seq (Lit (newline :: marker))
    (Seq (Opt (Seq (Star ws) (Seq (Opt rparen) (Seq (Opt dq) (Opt rparen)))))
       (Seq (Star ws) (Alt (Lit [newline]) Eos))).

(** The group (one or more characters other than a line break, as few as
    possible), then a line break or the end of the text. *)
Definition first_line : regex :=
  Seq (Group (Seq dot (LazyStar dot))) (Alt (Lit [newline]) Eos).

(** The text before the first line break. *)
Fixpoint until_newline (l : list ascii) : list ascii :=
  match l with
  | [] => []
  | c :: l' => if bool_decide (c = newline) then [] else c :: until_newline l'
  end.
End CommandPattern.

Definition extract_command_from_message (message : json)
  : result (option string) :=
  if negb (Py.truthy message) then Ok None
  else
    match message with
    | JStr text =>
        match Re.search CommandPattern.command_marker (Str.to_list text) with
        | None => Ok None
        | Some cmd_match =>
            let remaining := Re.after cmd_match in
            match remaining with
            | [] => Ok None
            | _ :: _ =>
                match Re.search CommandPattern.heredoc remaining with
                | Some heredoc_match =>
                    let marker := default [] (Re.group1 heredoc_match) in
                    match Re.search (CommandPattern.closing marker)
                            remaining with
                    | Some close_match =>
                        Ok (Some
                              (Str.strip
                                 (Str.of_list
                                    (firstn (Re.end_of remaining close_match)
                                       remaining))))
                    | None =>
                        let first_line :=
                          Str.strip
                            (Str.of_list
                               (CommandPattern.until_newline remaining)) in
                        if bool_decide (first_line = "") then Ok None
                        else Ok (Some first_line)
                    end
                | None =>
                    match Re.match_ CommandPattern.first_line remaining with
                    | Some m =>
                        Ok (Some (Str.strip
                                    (Str.of_list (default [] (Re.group1 m)))))
                    | None => Ok None
                    end
                end
            end
        end
    | _ => Raise TypeError
    end.

(* ===================================================================== *)
(** * Objects with mutable attributes: state and exceptions *)
(* ===================================================================== *)

(** A method of an object with attributes [S]: it returns or raises, and
    the attributes it has assigned before raising stay assigned. *)
Definition PyM (S A : Type) : Type := S -> S * result A.

Definition ret {S A} (a : A) : PyM S A := fun s => (s, Ok a).

Definition bind {S A B} (m : PyM S A) (k : A -> PyM S B) : PyM S B :=
  fun s =>
    match m s with
    | (s', Ok a) => k a s'
    | (s', Raise e) => (s', Raise e)
    end.

(** An expression that may raise and assigns nothing. *)
Definition lift {S A} (r : result A) : PyM S A := fun s => (s, r).

(** Reading the attributes. *)
Definition gets {S A} (f : S -> A) : PyM S A := fun s => (s, Ok (f s)).

(** Reading the attributes with an expression that may raise. *)
Definition reads {S A} (f : S -> result A) : PyM S A := fun s => (s, f s).

(** Assigning attributes. *)
Definition modify {S} (f : S -> S) : PyM S unit := fun s => (f s, Ok tt).

Declare Scope pym_scope.
Delimit Scope pym_scope with pym.
Notation "'let!' x ':=' m 'in' k" := (bind m (fun x => k))
  (at level 10, x pattern, m at level 100, k at level 200) : pym_scope.
Notation "'run!' m 'in' k" := (bind m (fun _ => k))
  (at level 10, m at level 100, k at level 200) : pym_scope.
Open Scope pym_scope.

(** [for x in xs: body(x)] *)
Fixpoint for_each {S A} (body : A -> PyM S unit) (xs : list A) : PyM S unit :=
  match xs with
  | [] => ret tt
  | x :: xs' => run! body x in for_each body xs'
  end.

(** ** Dictionaries in insertion order *)

Fixpoint alist_get {V} (k : string) (l : list (string * V)) : option V :=
  match l with
  | [] => None
  | (k', v) :: l' => if bool_decide (k' = k) then Some v else alist_get k l'
  end.

(** [d[k] = v]: the key keeps its place, a new key goes last. *)
Fixpoint alist_set {V} (k : string) (v : V) (l : list (string * V))
  : list (string * V) :=
  match l with
  | [] => [(k, v)]
  | (k', v') :: l' =>
      if bool_decide (k' = k) then (k, v) :: l'
      else (k', v') :: alist_set k v l'
  end.

(** An attribute update of the object stored under [k]. *)
Fixpoint alist_update {V} (k : string) (f : V -> V) (l : list (string * V))
  : list (string * V) :=
  match l with
  | [] => []
  | (k', v) :: l' =>
      if bool_decide (k' = k) then (k', f v) :: l'
      else (k', v) :: alist_update k f l'
  end.

(** ** Hashable keys *)

(** What a JSON value hashes to as a dictionary key: [True] and [False] are
    the integers 1 and 0, lists and dicts are unhashable. *)
Inductive pykey : Type :=
| KNone
| KInt (n : Z)
| KStr (s : string).

#[global] Instance pykey_eq_dec : EqDecision pykey.
Proof. solve_decision. Defined.

#[global] Instance pykey_countable : Countable pykey.
Proof.
  refine (inj_countable'
            (fun k => match k with
                      | KNone => inl ()
                      | KInt n => inr (inl n)
                      | KStr s => inr (inr s)
                      end)
            (fun x => match x with
                      | inl _ => KNone
                      | inr (inl n) => KInt n
                      | inr (inr s) => KStr s
                      end) _).
  intros []; reflexivity.
Defined.

Definition hash_key (j : json) : result pykey :=
  match j with
  | JNull => Ok KNone
  | JBool b => Ok (KInt (if b then 1 else 0))
  | JNum n => Ok (KInt n)
  | JStr s => Ok (KStr s)
  | JList _ | JDict _ => Raise TypeError
  end.

(* ===================================================================== *)
(** * The [datetime] interface *)
(* ===================================================================== *)

(** What the code uses of [datetime]: [fromisoformat] (which raises
    [ValueError] on a text it cannot parse), the difference of two instants
    in seconds (which raises [TypeError] when one carries a time zone and the
    other does not) and the conversion of seconds to whole milliseconds.
    The seconds are the exact value of the float. *)
Record datetime_lib : Type := DatetimeLib {
  datetime : Type;
  fromisoformat : string -> option datetime;
  total_seconds : datetime -> datetime -> option Q;
  ms_of_seconds : Q -> Z
}.

(** [datetime.fromisoformat(ts.replace('Z', '+00:00'))]: only a string has
    [replace]. *)
Definition parse_timestamp (lib : datetime_lib) (ts : json)
  : result (datetime lib) :=
  match ts with
  | JStr s =>
      match fromisoformat lib (Str.replace_char "Z"%char "+00:00" s) with
      | Some d => Ok d
      | None => Raise ValueError
      end
  | _ => Raise AttributeError
  end.

(** [(later - earlier).total_seconds()] *)
Definition seconds_between (lib : datetime_lib)
  (later earlier : datetime lib) : result Q :=
  match total_seconds lib later earlier with
  | Some secs => Ok secs
  | None => Raise TypeError
  end.

(* ===================================================================== *)
(** * AgentLineageTracker ([class AgentInstanceTracker]) *)
(* ===================================================================== *)

Module Tracker.

(** An entry of [AgentInstance.tool_uses]. *)
Record tool_use_entry : Type := ToolUseEntry {
  tu_tool_use_id : json;
  tu_tool_name : json;
  tu_request_id : Z;
  tu_timestamp : json
}.

(** An entry of [AgentInstance.tool_results]. *)
Record tool_result_entry : Type := ToolResultEntry {
  tr_tool_use_id : json;
  tr_request_id : Z;
  tr_timestamp : json;
  tr_is_error : json
}.

(** [@dataclass class AgentInstance].  [None] is [JNull] in the fields that
    hold a tool identifier. *)
Record AgentInstance : Type := mkAgent {
  agent_id : string;
  system_prompt_hash : string;
  conversation_fingerprint : string;
  requests : list Z;
  first_request_id : option Z;
  last_request_id : option Z;
  message_count_history : list nat;
  spawned_by_task_id : json;
  parent_agent_id : option string;
  first_user_message : json;
  child_agent_ids : list string;
  tool_uses : list tool_use_entry;
  tool_results : list tool_result_entry;
  timestamps : list json
}.

Definition set_requests (v : list Z) (a : AgentInstance) : AgentInstance :=
  mkAgent (agent_id a) (system_prompt_hash a) (conversation_fingerprint a)
    v (first_request_id a) (last_request_id a) (message_count_history a)
    (spawned_by_task_id a) (parent_agent_id a) (first_user_message a)
    (child_agent_ids a) (tool_uses a) (tool_results a) (timestamps a).

Definition set_last_request_id (v : option Z) (a : AgentInstance)
  : AgentInstance :=
  mkAgent (agent_id a) (system_prompt_hash a) (conversation_fingerprint a)
    (requests a) (first_request_id a) v (message_count_history a)
    (spawned_by_task_id a) (parent_agent_id a) (first_user_message a)
    (child_agent_ids a) (tool_uses a) (tool_results a) (timestamps a).

Definition set_conversation_fingerprint (v : string) (a : AgentInstance)
  : AgentInstance :=
  mkAgent (agent_id a) (system_prompt_hash a) v
    (requests a) (first_request_id a) (last_request_id a)
    (message_count_history a)
    (spawned_by_task_id a) (parent_agent_id a) (first_user_message a)
    (child_agent_ids a) (tool_uses a) (tool_results a) (timestamps a).

Definition set_message_count_history (v : list nat) (a : AgentInstance)
  : AgentInstance :=
  mkAgent (agent_id a) (system_prompt_hash a) (conversation_fingerprint a)
    (requests a) (first_request_id a) (last_request_id a) v
    (spawned_by_task_id a) (parent_agent_id a) (first_user_message a)
    (child_agent_ids a) (tool_uses a) (tool_results a) (timestamps a).

Definition set_spawn (task : json) (parent : option string)
  (a : AgentInstance) : AgentInstance :=
  mkAgent (agent_id a) (system_prompt_hash a) (conversation_fingerprint a)
    (requests a) (first_request_id a) (last_request_id a)
    (message_count_history a)
    task parent (first_user_message a)
    (child_agent_ids a) (tool_uses a) (tool_results a) (timestamps a).

Definition set_child_agent_ids (v : list string) (a : AgentInstance)
  : AgentInstance :=
  mkAgent (agent_id a) (system_prompt_hash a) (conversation_fingerprint a)
    (requests a) (first_request_id a) (last_request_id a)
    (message_count_history a)
    (spawned_by_task_id a) (parent_agent_id a) (first_user_message a)
    v (tool_uses a) (tool_results a) (timestamps a).

Definition set_tool_uses (v : list tool_use_entry) (a : AgentInstance)
  : AgentInstance :=
  mkAgent (agent_id a) (system_prompt_hash a) (conversation_fingerprint a)
    (requests a) (first_request_id a) (last_request_id a)
    (message_count_history a)
    (spawned_by_task_id a) (parent_agent_id a) (first_user_message a)
    (child_agent_ids a) v (tool_results a) (timestamps a).

Definition set_tool_results (v : list tool_result_entry) (a : AgentInstance)
  : AgentInstance :=
  mkAgent (agent_id a) (system_prompt_hash a) (conversation_fingerprint a)
    (requests a) (first_request_id a) (last_request_id a)
    (message_count_history a)
    (spawned_by_task_id a) (parent_agent_id a) (first_user_message a)
    (child_agent_ids a) (tool_uses a) v (timestamps a).

Definition set_timestamps (v : list json) (a : AgentInstance)
  : AgentInstance :=
  mkAgent (agent_id a) (system_prompt_hash a) (conversation_fingerprint a)
    (requests a) (first_request_id a) (last_request_id a)
    (message_count_history a)
    (spawned_by_task_id a) (parent_agent_id a) (first_user_message a)
    (child_agent_ids a) (tool_uses a) (tool_results a) v.

(** A value of [task_prompts]: the two keys [register_task_prompt] writes,
    and the three more ([request_id], [subagent_type], [prompt]) that
    [track_tool_use] writes. *)
Record task_prompt : Type := TaskPrompt {
  tp_task_id : json;
  tp_parent_agent_id : string;
  tp_detail : option (Z * json * string)
}.

(** A value of [tool_use_index]. *)
Record tool_use_info : Type := ToolUseInfo {
  tui_tool_use_id : json;
  tui_tool_name : json;
  tui_agent_id : string;
  tui_request_id : Z;
  tui_timestamp : json;
  tui_input : json
}.

(** A value of [tool_result_index]. *)
Record tool_result_info : Type := ToolResultInfo {
  tri_tool_use_id : json;
  tri_agent_id : string;
  tri_request_id : Z;
  tri_timestamp : json;
  tri_is_error : json
}.

(** An entry of a list of [response_content_index]. *)
Record source_info : Type := SourceInfo {
  si_agent_id : string;
  si_request_id : Z;
  si_timestamp : json;
  si_content_hash : string
}.

(** A value of [tool_command_index]. *)
Record command_info : Type := CommandInfo {
  ci_tool_use_id : json;
  ci_parent_agent_id : string;
  ci_request_id : Z;
  ci_tool_name : json;
  ci_command : json;
  ci_normalized_command : string
}.

(** The keys of an edge dict that depend on its type. *)
Inductive edge_extra : Type :=
| XToolResult (tool_use_id tool_name is_error : json)
| XContentReuse (content_hash : string)
| XRequestSequence (time_gap_ms : option Z)
| XSpawn (spawn_method : string) (spawned_by_task_id : json)
    (spawned_by_tool_use_id : json) (tool_name : option json)
    (command_hash : option string).

(** An edge of the agent DAG. *)
Record workflow_edge : Type := Edge {
  e_type : string;
  e_source_agent_id : string;
  e_target_agent_id : string;
  e_source_request_id : option Z;
  e_target_request_id : option Z;
  e_confidence : Q;
  e_extra : edge_extra
}.

(** The attributes of an [AgentInstanceTracker].  [instances] and
    [tool_command_index] are iterated over, so they keep insertion order. *)
Record AgentInstanceTracker : Type := mkTracker {
  instances : list (string * AgentInstance);
  fingerprint_to_agent : gmap string string;
  request_to_agent : gmap Z string;
  task_prompts : gmap string task_prompt;
  agent_counter : nat;
  tool_use_index : gmap pykey tool_use_info;
  tool_result_index : gmap pykey tool_result_info;
  workflow_edges : list workflow_edge;
  response_content_index : gmap string (list source_info);
  tool_command_index : list (string * command_info)
}.

(** [AgentInstanceTracker()] *)
Definition init : AgentInstanceTracker :=
  mkTracker [] ∅ ∅ ∅ 0 ∅ ∅ [] ∅ [].

Definition set_instances (v : list (string * AgentInstance))
  (t : AgentInstanceTracker) : AgentInstanceTracker :=
  mkTracker v (fingerprint_to_agent t) (request_to_agent t) (task_prompts t)
    (agent_counter t) (tool_use_index t) (tool_result_index t)
    (workflow_edges t) (response_content_index t) (tool_command_index t).

Definition set_fingerprint_to_agent (v : gmap string string)
  (t : AgentInstanceTracker) : AgentInstanceTracker :=
  mkTracker (instances t) v (request_to_agent t) (task_prompts t)
    (agent_counter t) (tool_use_index t) (tool_result_index t)
    (workflow_edges t) (response_content_index t) (tool_command_index t).

Definition set_request_to_agent (v : gmap Z string)
  (t : AgentInstanceTracker) : AgentInstanceTracker :=
  mkTracker (instances t) (fingerprint_to_agent t) v (task_prompts t)
    (agent_counter t) (tool_use_index t) (tool_result_index t)
    (workflow_edges t) (response_content_index t) (tool_command_index t).

Definition set_task_prompts (v : gmap string task_prompt)
  (t : AgentInstanceTracker) : AgentInstanceTracker :=
  mkTracker (instances t) (fingerprint_to_agent t) (request_to_agent t) v
    (agent_counter t) (tool_use_index t) (tool_result_index t)
    (workflow_edges t) (response_content_index t) (tool_command_index t).

Definition set_agent_counter (v : nat)
  (t : AgentInstanceTracker) : AgentInstanceTracker :=
  mkTracker (instances t) (fingerprint_to_agent t) (request_to_agent t)
    (task_prompts t) v (tool_use_index t) (tool_result_index t)
    (workflow_edges t) (response_content_index t) (tool_command_index t).

Definition set_tool_use_index (v : gmap pykey tool_use_info)
  (t : AgentInstanceTracker) : AgentInstanceTracker :=
  mkTracker (instances t) (fingerprint_to_agent t) (request_to_agent t)
    (task_prompts t) (agent_counter t) v (tool_result_index t)
    (workflow_edges t) (response_content_index t) (tool_command_index t).

Definition set_tool_result_index (v : gmap pykey tool_result_info)
  (t : AgentInstanceTracker) : AgentInstanceTracker :=
  mkTracker (instances t) (fingerprint_to_agent t) (request_to_agent t)
    (task_prompts t) (agent_counter t) (tool_use_index t) v
    (workflow_edges t) (response_content_index t) (tool_command_index t).

Definition set_workflow_edges (v : list workflow_edge)
  (t : AgentInstanceTracker) : AgentInstanceTracker :=
  mkTracker (instances t) (fingerprint_to_agent t) (request_to_agent t)
    (task_prompts t) (agent_counter t) (tool_use_index t)
    (tool_result_index t) v (response_content_index t)
    (tool_command_index t).

Definition set_response_content_index (v : gmap string (list source_info))
  (t : AgentInstanceTracker) : AgentInstanceTracker :=
  mkTracker (instances t) (fingerprint_to_agent t) (request_to_agent t)
    (task_prompts t) (agent_counter t) (tool_use_index t)
    (tool_result_index t) (workflow_edges t) v (tool_command_index t).

Definition set_tool_command_index (v : list (string * command_info))
  (t : AgentInstanceTracker) : AgentInstanceTracker :=
  mkTracker (instances t) (fingerprint_to_agent t) (request_to_agent t)
    (task_prompts t) (agent_counter t) (tool_use_index t)
    (tool_result_index t) (workflow_edges t) (response_content_index t) v.

Abbreviation M := (PyM AgentInstanceTracker).

(** [self.instances[agent_id]] *)
Definition get_instance (agent_id : string) : M AgentInstance :=
  reads (fun t => match alist_get agent_id (instances t) with
                  | Some a => Ok a
                  | None => Raise KeyError
                  end).

(** Attribute assignments on the agent object stored under [key]. *)
Definition update_instance (key : string) (f : AgentInstance -> AgentInstance)
  : M unit :=
  modify (fun t => set_instances (alist_update key f (instances t)) t).

(** [messages[:-k]] *)
Definition drop_last (k : nat) (o : json) : result json :=
  match o with
  | JList l => Ok (JList (firstn (List.length l - k) l))
  | JStr s => Ok (JStr (Str.prefix (Str.len s - k) s))
  | _ => Raise TypeError
  end.

(** The body of the backtracking loop of [find_parent_conversation], over
    the remaining depths.  The result is the key of [instances] under which
    the parent agent is stored. *)
Fixpoint find_parent_loop (t : AgentInstanceTracker) (messages : json)
  (system_prompt_hash : string) (backtracks : list nat)
  : result (option string) :=
  match backtracks with
  | [] => Ok None
  | backtrack :: rest =>
      let? prefix := drop_last backtrack messages in
      let? parent_fingerprint := compute_conversation_fingerprint prefix in
      match fingerprint_to_agent t !! parent_fingerprint with
      | Some agent_id =>
          match alist_get agent_id (instances t) with
          | None => Raise KeyError
          | Some agent =>
              if bool_decide (Tracker.system_prompt_hash agent
                              = system_prompt_hash)
              then Ok (Some agent_id)
              else find_parent_loop t messages system_prompt_hash rest
          end
      | None => find_parent_loop t messages system_prompt_hash rest
      end
  end.

Definition find_parent_conversation (t : AgentInstanceTracker)
  (messages : json) (system_prompt_hash : string) : result (option string) :=
  let? n := Py.len messages in
  if (n <=? 1)%nat then Ok None
  else
    let max_backtrack := Nat.min (n - 1) 5 in
    find_parent_loop t messages system_prompt_hash (seq 1 max_backtrack).

Definition detect_task_spawn (t : AgentInstanceTracker)
  (first_user_message : json) : result (option task_prompt) :=
  if negb (Py.truthy first_user_message) then Ok None
  else
    let? msg_hash := compute_hash first_user_message 16 in
    Ok (task_prompts t !! msg_hash).

(** The scan of [tool_command_index] in [detect_tool_spawn]. *)
Fixpoint match_command_prefix (normalized_command : string)
  (index : list (string * command_info)) : option command_info :=
  match index with
  | [] => None
  | (_, cmd_info) :: rest =>
      let parent_normalized := ci_normalized_command cmd_info in
      if (Str.len parent_normalized <? 15)%nat
      then match_command_prefix normalized_command rest
      else if Str.startswith parent_normalized normalized_command
      then Some cmd_info
      else if Str.startswith normalized_command parent_normalized
      then Some cmd_info
      else if Str.endswith parent_normalized normalized_command
      then Some cmd_info
      else match_command_prefix normalized_command rest
  end.

Definition detect_tool_spawn (t : AgentInstanceTracker)
  (first_user_message : json) : result (option command_info) :=
  if negb (Py.truthy first_user_message) then Ok None
  else
    let? command := extract_command_from_message first_user_message in
    match command with
    | None => Ok None
    | Some cmd =>
        if bool_decide (cmd = "") then Ok None
        else
          let? normalized_command := normalize_command (JStr cmd) in
          let? command_hash := compute_hash (JStr normalized_command) 16 in
          match alist_get command_hash (tool_command_index t) with
          | Some info => Ok (Some info)
          | None =>
              if (15 <=? Str.len normalized_command)%nat
              then Ok (match_command_prefix normalized_command
                         (tool_command_index t))
              else Ok None
          end
    end.

Definition register_task_prompt (task_id prompt : json) (agent_id : string)
  : M unit :=
  if Py.truthy prompt then
    let! prompt_hash := lift (compute_hash prompt 16) in
    modify (fun t =>
              set_task_prompts
                (<[prompt_hash := TaskPrompt task_id agent_id None]>
                   (task_prompts t)) t)
  else ret tt.

(** The block that both spawn branches of [identify_or_create_agent] run
    once [agent.parent_agent_id] is assigned: add the new agent to its
    parent's child list. *)
Definition link_child (parent_id : string) (agent_id : string) : M unit :=
  let! known := gets (fun t => alist_get parent_id (instances t)) in
  match known with
  | Some parent =>
      if negb (bool_decide (parent_id = ""))
         && negb (bool_decide (agent_id ∈ child_agent_ids parent))
      then update_instance parent_id
             (fun p => set_child_agent_ids (child_agent_ids p ++ [agent_id]) p)
      else ret tt
  | None => ret tt
  end.

(** The assignments of the replay branch and of the continuation branch
    after the agent object is found. *)
Definition append_request (key : string) (request_id : Z)
  (fingerprint : option string) (messages timestamp : json) : M unit :=
  run! update_instance key
         (fun a =>
            let a' := set_last_request_id (Some request_id)
                        (set_requests (requests a ++ [request_id]) a) in
            match fingerprint with
            | Some fp => set_conversation_fingerprint fp a'
            | None => a'
            end) in
  let! n := lift (Py.len messages) in
  update_instance key
    (fun a => set_timestamps (timestamps a ++ [timestamp])
                (set_message_count_history
                   (message_count_history a ++ [n]) a)).

(** The two spawn checks of the new-agent branch: the Task prompt first,
    then the tool command. *)
Definition attach_parent (agent_id : string) (first_user_msg : json)
  (agent : AgentInstance) : M AgentInstance :=
  let! spawning_info := reads (fun t => detect_task_spawn t first_user_msg) in
  match spawning_info with
  | Some info =>
      run! link_child (tp_parent_agent_id info) agent_id in
      ret (set_spawn (tp_task_id info) (Some (tp_parent_agent_id info)) agent)
  | None =>
      let! tool_spawn_info :=
        reads (fun t => detect_tool_spawn t first_user_msg) in
      match tool_spawn_info with
      | Some info =>
          run! link_child (ci_parent_agent_id info) agent_id in
          ret (set_spawn (ci_tool_use_id info)
                 (Some (ci_parent_agent_id info)) agent)
      | None => ret agent
      end
  end.

(** The new-agent branch of [identify_or_create_agent]. *)
Definition create_agent (request_id : Z) (messages timestamp : json)
  (system_prompt_hash conversation_fingerprint : string) : M string :=
  let! counter := gets agent_counter in
  let agent_id := "agent_" +:+ Str.of_Z (Z.of_nat counter) in
  run! modify (set_agent_counter (S counter)) in
  let! first_user_msg := lift (extract_first_user_message messages) in
  let! n := lift (Py.len messages) in
  let agent :=
    mkAgent agent_id system_prompt_hash conversation_fingerprint
      [request_id] (Some request_id) (Some request_id) [n]
      JNull None first_user_msg [] [] [] [timestamp] in
  let! agent' := attach_parent agent_id first_user_msg agent in
  run! modify (fun t =>
                 set_request_to_agent
                   (<[request_id := agent_id]> (request_to_agent t))
                   (set_fingerprint_to_agent
                      (<[conversation_fingerprint := agent_id]>
                         (fingerprint_to_agent t))
                      (set_instances
                         (alist_set agent_id agent' (instances t)) t))) in
  ret agent_id.

(** [identify_or_create_agent]; the agent it returns is given by the key of
    [instances] under which the object is stored. *)
Definition identify_or_create_agent (request_id : Z) (body : json)
  (timestamp : json) : M string :=
  let! messages := lift (Py.get body "messages" (JList [])) in
  let! system_prompt := lift (Py.get body "system" (JList [])) in
  let! system_prompt_hash :=
    lift (compute_system_prompt_hash system_prompt) in
  let! conversation_fingerprint :=
    lift (compute_conversation_fingerprint messages) in
  let! known :=
    gets (fun t => fingerprint_to_agent t !! conversation_fingerprint) in
  match known with
  | Some agent_id =>
      (* exact match: the same conversation state, a replay *)
      run! get_instance agent_id in
      run! append_request agent_id request_id None messages timestamp in
      run! modify (fun t =>
                     set_request_to_agent
                       (<[request_id := agent_id]> (request_to_agent t)) t) in
      ret agent_id
  | None =>
      let! parent_agent :=
        reads (fun t => find_parent_conversation t messages
                          system_prompt_hash) in
      match parent_agent with
      | Some key =>
          (* continuation: the conversation of this agent grew *)
          let! agent := get_instance key in
          let agent_id := Tracker.agent_id agent in
          run! append_request key request_id (Some conversation_fingerprint)
                 messages timestamp in
          run! modify (fun t =>
                         set_request_to_agent
                           (<[request_id := agent_id]> (request_to_agent t))
                           (set_fingerprint_to_agent
                              (<[conversation_fingerprint := agent_id]>
                                 (fingerprint_to_agent t)) t)) in
          ret agent_id
      | None =>
          create_agent request_id messages timestamp system_prompt_hash
            conversation_fingerprint
      end
  end.

(** [self.request_to_agent.get(request_id)], with [None] for an agent
    identifier that is not truthy. *)
Definition owner_of (t : AgentInstanceTracker) (request_id : Z)
  : option string :=
  match request_to_agent t !! request_id with
  | Some agent_id => if bool_decide (agent_id = "") then None else Some agent_id
  | None => None
  end.

(** [prompt[:200]] *)
Definition first_200 (prompt : json) : string :=
  match prompt with
  | JStr p => Str.prefix 200 p
  | _ => ""
  end.

Definition track_tool_use (request_id : Z) (tool_use_block : json)
  (timestamp : json) : M unit :=
  let! tool_use_id := lift (Py.get tool_use_block "id" JNull) in
  let! tool_name := lift (Py.get tool_use_block "name" JNull) in
  if negb (Py.truthy tool_use_id) then ret tt
  else
    let! owner := gets (fun t => owner_of t request_id) in
    match owner with
    | None => ret tt
    | Some agent_id =>
        let! key := lift (hash_key tool_use_id) in
        let! seen := gets (fun t => tool_use_index t !! key) in
        run! match seen with
             | Some _ => ret tt
             | None =>
                 (* first occurrence of this tool_use_id *)
                 let! input := lift (Py.get tool_use_block "input" (JDict [])) in
                 run! modify (fun t =>
                                set_tool_use_index
                                  (<[key := ToolUseInfo tool_use_id tool_name
                                              agent_id request_id timestamp
                                              input]>
                                     (tool_use_index t)) t) in
                 run! get_instance agent_id in
                 update_instance agent_id
                   (fun a => set_tool_uses
                               (tool_uses a
                                ++ [ToolUseEntry tool_use_id tool_name
                                      request_id timestamp]) a)
             end in
        if Py.is_str tool_name "Task" then
          let! task_input := lift (Py.get tool_use_block "input" (JDict [])) in
          let! prompt := lift (Py.get task_input "prompt" (JStr "")) in
          let! subagent_type :=
            lift (Py.get task_input "subagent_type" (JStr "")) in
          if Py.truthy prompt then
            let! prompt_hash := lift (compute_hash prompt 16) in
            let! known := gets (fun t => task_prompts t !! prompt_hash) in
            match known with
            | Some _ => ret tt
            | None =>
                modify (fun t =>
                          set_task_prompts
                            (<[prompt_hash :=
                                 TaskPrompt tool_use_id agent_id
                                   (Some (request_id, subagent_type,
                                          first_200 prompt))]>
                               (task_prompts t)) t)
            end
          else ret tt
        else if Py.is_str tool_name "Bash" then
          let! tool_input := lift (Py.get tool_use_block "input" (JDict [])) in
          let! command := lift (Py.get tool_input "command" (JStr "")) in
          if Py.truthy command then
            let! normalized_command := lift (normalize_command command) in
            let! command_hash :=
              lift (compute_hash (JStr normalized_command) 16) in
            let! known :=
              gets (fun t => alist_get command_hash (tool_command_index t)) in
            match known with
            | Some _ => ret tt
            | None =>
                modify (fun t =>
                          set_tool_command_index
                            (alist_set command_hash
                               (CommandInfo tool_use_id agent_id request_id
                                  tool_name command normalized_command)
                               (tool_command_index t)) t)
            end
          else ret tt
        else ret tt
    end.

Definition track_tool_result (request_id : Z) (tool_result_block : json)
  (timestamp : json) : M unit :=
  let! tool_use_id := lift (Py.get tool_result_block "tool_use_id" JNull) in
  let! is_error :=
    lift (Py.get tool_result_block "is_error" (JBool false)) in
  if negb (Py.truthy tool_use_id) then ret tt
  else
    let! owner := gets (fun t => owner_of t request_id) in
    match owner with
    | None => ret tt
    | Some agent_id =>
        (* store in index *)
        let! key := lift (hash_key tool_use_id) in
        run! modify (fun t =>
                       set_tool_result_index
                         (<[key := ToolResultInfo tool_use_id agent_id
                                     request_id timestamp is_error]>
                            (tool_result_index t)) t) in
        (* add to the agent's tool_results *)
        run! get_instance agent_id in
        run! update_instance agent_id
               (fun a => set_tool_results
                           (tool_results a
                            ++ [ToolResultEntry tool_use_id request_id
                                  timestamp is_error]) a) in
        (* workflow edge: tool_use -> tool_result *)
        let! used := gets (fun t => tool_use_index t !! key) in
        match used with
        | Some tool_use_info =>
            modify (fun t =>
                      set_workflow_edges
                        (workflow_edges t
                         ++ [Edge "tool_result"
                               (tui_agent_id tool_use_info) agent_id
                               (Some (tui_request_id tool_use_info))
                               (Some request_id) 1
                               (XToolResult tool_use_id
                                  (tui_tool_name tool_use_info) is_error)])
                        t)
        | None => ret tt
        end
    end.

(** The text blocks of a response that have a truthy text. *)
Fixpoint text_parts (blocks : list json) : list json :=
  match blocks with
  | [] => []
  | JDict d :: rest =>
      if Py.is_str (Py.dict_get d "type" JNull) "text" then
        let text := Py.dict_get d "text" (JStr "") in
        if Py.truthy text then text :: text_parts rest else text_parts rest
      else text_parts rest
  | _ :: rest => text_parts rest
  end.

(** The line break as a separator. *)
Definition nl : string := String Re.newline "".

Definition track_response_content (request_id : Z) (content_blocks : json)
  (timestamp : json) : M unit :=
  let! owner := gets (fun t => owner_of t request_id) in
  match owner with
  | None => ret tt
  | Some agent_id =>
      let! blocks := lift (Py.iter content_blocks) in
      match text_parts blocks with
      | [] => ret tt
      | parts =>
          let! combined_text := lift (Py.join nl parts) in
          let normalized := Str.prefix 200 (Str.normalize_ws combined_text) in
          let! content_hash := lift (compute_hash (JStr normalized) 16) in
          modify (fun t =>
                    set_response_content_index
                      (<[content_hash :=
                           default [] (response_content_index t !! content_hash)
                           ++ [SourceInfo agent_id request_id timestamp
                                 content_hash]]>
                         (response_content_index t)) t)
      end
  end.

(** [text.split()] needs a string. *)
Definition normalized_200 (text : json) : result string :=
  match text with
  | JStr s => Ok (Str.prefix 200 (Str.normalize_ws s))
  | _ => Raise AttributeError
  end.

(** The edges one piece of user text gives rise to: one for every earlier
    response of another agent with the same content hash. *)
Definition reuse_edges (sources : list source_info) (agent_id : string)
  (request_id : Z) (content_hash : string) : list workflow_edge :=
  List.map
    (fun source =>
       Edge "content_reuse" (si_agent_id source) agent_id
         (Some (si_request_id source)) (Some request_id) (85 # 100)
         (XContentReuse content_hash))
    (List.filter
       (fun source =>
          (si_request_id source <? request_id)
          && negb (bool_decide (si_agent_id source = agent_id)))
       sources).

Definition match_text (agent_id : string) (request_id : Z) (text : json)
  : M unit :=
  let! normalized := lift (normalized_200 text) in
  let! content_hash := lift (compute_hash (JStr normalized) 16) in
  let! sources := gets (fun t => response_content_index t !! content_hash) in
  match sources with
  | Some infos =>
      modify (fun t =>
                set_workflow_edges
                  (workflow_edges t
                   ++ reuse_edges infos agent_id request_id content_hash) t)
  | None => ret tt
  end.

Definition track_request_content (request_id : Z) (messages : json)
  (timestamp : json) : M unit :=
  let! owner := gets (fun t => owner_of t request_id) in
  match owner with
  | None => ret tt
  | Some agent_id =>
      let! msgs := lift (Py.iter messages) in
      for_each
        (fun message =>
           match message with
           | JDict d =>
               if negb (Py.is_str (Py.dict_get d "role" JNull) "user")
               then ret tt
               else
                 match Py.dict_get d "content" (JStr "") with
                 | JStr s => match_text agent_id request_id (JStr s)
                 | JList blocks =>
                     for_each
                       (fun block =>
                          match block with
                          | JDict b =>
                              if Py.is_str (Py.dict_get b "type" JNull) "text"
                              then
                                let text := Py.dict_get b "text" (JStr "") in
                                if Py.truthy text
                                then match_text agent_id request_id text
                                else ret tt
                              else ret tt
                          | _ => ret tt
                          end)
                       blocks
                 | _ => ret tt
                 end
           | _ => ret tt
           end)
        msgs
  end.

(** ** The agent DAG *)

(** A node of the agent DAG. *)
Record dag_node : Type := DagNode {
  n_id : string;
  n_agent_id : string;
  n_agent_type : string;
  n_parent_agent_id : option string;
  n_child_agent_ids : list string;
  n_spawned_by_task_id : json;
  n_request_count : nat;
  n_tool_use_count : nat;
  n_tool_result_count : nat;
  n_first_timestamp : json;
  n_last_timestamp : json;
  n_is_root : bool;
  n_is_leaf : bool
}.

Record dag_metrics : Type := DagMetrics {
  m_total_agents : nat;
  m_root_agents : nat;
  m_leaf_agents : nat;
  m_total_edges : nat;
  m_spawn_edges : nat;
  m_tool_result_edges : nat;
  m_content_reuse_edges : nat;
  m_request_sequence_edges : nat
}.

(** The dictionary [build_workflow_dag] returns. *)
Record workflow_dag : Type := WorkflowDag {
  dag_nodes : list dag_node;
  dag_edges : list workflow_edge;
  dag_metrics_of : dag_metrics;
  dag_root_agent_ids : list string
}.

Definition node_of (agent_id : string) (agent : AgentInstance) : dag_node :=
  DagNode agent_id agent_id (system_prompt_hash agent)
    (parent_agent_id agent) (child_agent_ids agent)
    (spawned_by_task_id agent)
    (List.length (requests agent)) (List.length (tool_uses agent))
    (List.length (tool_results agent))
    (List.hd JNull (timestamps agent)) (List.last (timestamps agent) JNull)
    (bool_decide (parent_agent_id agent = None))
    (bool_decide (child_agent_ids agent = [])).

(** The first command hash whose entry was indexed for this tool use (both
    identifiers are hashable, and two such values are equal when they are
    the same key). *)
Fixpoint command_hash_of (key : pykey) (index : list (string * command_info))
  : option string :=
  match index with
  | [] => None
  | (cmd_hash, cmd_info) :: rest =>
      match hash_key (ci_tool_use_id cmd_info) with
      | Ok key' =>
          if bool_decide (key' = key) then Some cmd_hash
          else command_hash_of key rest
      | Raise _ => command_hash_of key rest
      end
  end.

(** The spawn edge of one agent, if it has a parent. *)
Definition spawn_edge (t : AgentInstanceTracker) (agent_id : string)
  (agent : AgentInstance) : result (option workflow_edge) :=
  match parent_agent_id agent with
  | None => Ok None
  | Some parent =>
      if bool_decide (parent = "") then Ok None
      else
        let spawned_by_tool_use_id := spawned_by_task_id agent in
        let? tool_info :=
          if Py.truthy spawned_by_tool_use_id then
            let? key := hash_key spawned_by_tool_use_id in
            Ok (match tool_use_index t !! key with
                | Some info => Some (key, info)
                | None => None
                end)
          else Ok None in
        let tool_name :=
          match tool_info with
          | Some (_, info) => Some (tui_tool_name info)
          | None => None
          end in
        let source_request_id :=
          match tool_info with
          | Some (_, info) => Some (tui_request_id info)
          | None => None
          end in
        let by_tool_call :=
          match tool_info with
          | Some (_, info) => negb (Py.is_str (tui_tool_name info) "Task")
          | None => false
          end in
        let command_hash :=
          match tool_info with
          | Some (key, _) =>
              if by_tool_call then command_hash_of key (tool_command_index t)
              else None
          | None => None
          end in
        Ok (Some
              (Edge "subagent_spawn" parent agent_id source_request_id None
                 (95 # 100)
                 (XSpawn (if by_tool_call then "tool_call" else "task")
                    (if by_tool_call then JNull else spawned_by_task_id agent)
                    spawned_by_tool_use_id
                    (match tool_name with
                     | Some name => if Py.truthy name then Some name else None
                     | None => None
                     end)
                    command_hash)))
  end.

Fixpoint spawn_edges (t : AgentInstanceTracker)
  (agents : list (string * AgentInstance)) : result (list workflow_edge) :=
  match agents with
  | [] => Ok []
  | (agent_id, agent) :: rest =>
      let? e := spawn_edge t agent_id agent in
      let? es := spawn_edges t rest in
      Ok (match e with Some x => x :: es | None => es end)
  end.

Definition count_type (ty : string) (edges : list workflow_edge) : nat :=
  List.length (List.filter (fun e => bool_decide (e_type e = ty)) edges).

Section Timed.

Variable lib : datetime_lib.

(** The body of the [try] in [build_request_sequence_edges]: [ValueError]
    and [AttributeError] are caught and leave the gap at [None]. *)
Definition time_gap_ms (source_time target_time : json) : result (option Z) :=
  if Py.truthy source_time && Py.truthy target_time then
    match parse_timestamp lib source_time with
    | Raise _ => Ok None
    | Ok source_dt =>
        match parse_timestamp lib target_time with
        | Raise _ => Ok None
        | Ok target_dt =>
            let? secs := seconds_between lib target_dt source_dt in
            Ok (Some (ms_of_seconds lib secs))
        end
    end
  else Ok None.

(** [request_times]: each request with its timestamp, [None] when the list
    of timestamps is shorter. *)
Fixpoint request_times (reqs : list Z) (stamps : list json)
  : list (Z * json) :=
  match reqs with
  | [] => []
  | r :: reqs' =>
      match stamps with
      | [] => (r, JNull) :: request_times reqs' []
      | ts :: stamps' => (r, ts) :: request_times reqs' stamps'
      end
  end.

(** One edge per consecutive pair of [request_times]. *)
Fixpoint sequence_edges (agent_id : string) (times : list (Z * json))
  : M unit :=
  match times with
  | (source_req_id, source_time) :: (((target_req_id, target_time) :: _) as rest) =>
      let! gap := lift (time_gap_ms source_time target_time) in
      run! modify (fun t =>
                     set_workflow_edges
                       (workflow_edges t
                        ++ [Edge "request_sequence" agent_id agent_id
                              (Some source_req_id) (Some target_req_id) 1
                              (XRequestSequence gap)]) t) in
      sequence_edges agent_id rest
  | _ => ret tt
  end.

Definition build_request_sequence_edges : M unit :=
  let! agents := gets instances in
  for_each
    (fun entry : string * AgentInstance =>
       let (agent_id, agent) := entry in
       if (List.length (requests agent) <? 2)%nat then ret tt
       else sequence_edges agent_id
              (request_times (requests agent) (timestamps agent)))
    agents.

Definition build_workflow_dag : M workflow_dag :=
  let! agents := gets instances in
  let nodes := List.map (fun entry => node_of (fst entry) (snd entry)) agents in
  let! edges := reads (fun t => spawn_edges t agents) in
  run! build_request_sequence_edges in
  let! tracked := gets workflow_edges in
  let edges := edges ++ tracked in
  let root_agents := List.filter n_is_root nodes in
  let leaf_agents := List.filter n_is_leaf nodes in
  ret (WorkflowDag nodes edges
         (DagMetrics (List.length nodes) (List.length root_agents)
            (List.length leaf_agents) (List.length edges)
            (count_type "subagent_spawn" edges)
            (count_type "tool_result" edges)
            (count_type "content_reuse" edges)
            (count_type "request_sequence" edges))
         (List.map n_id root_agents)).

(** ** Streams of calls *)

(** A call of a method of the tracker, as the extraction pass makes them
    while it reads the log, and the final export. *)
Inductive call : Type :=
| Identify (request_id : Z) (body timestamp : json)
| TrackToolUse (request_id : Z) (tool_use_block timestamp : json)
| TrackToolResult (request_id : Z) (tool_result_block timestamp : json)
| TrackResponseContent (request_id : Z) (content_blocks timestamp : json)
| TrackRequestContent (request_id : Z) (messages timestamp : json)
| RegisterTaskPrompt (task_id prompt : json) (agent_id : string)
| BuildWorkflowDag.

(** The tracker after a call.  The pass catches what a call raises and
    goes on with the next log line, with the attributes as the call left
    them. *)
Definition step (t : AgentInstanceTracker) (c : call) : AgentInstanceTracker :=
  match c with
  | Identify request_id body timestamp =>
      fst (identify_or_create_agent request_id body timestamp t)
  | TrackToolUse request_id block timestamp =>
      fst (track_tool_use request_id block timestamp t)
  | TrackToolResult request_id block timestamp =>
      fst (track_tool_result request_id block timestamp t)
  | TrackResponseContent request_id blocks timestamp =>
      fst (track_response_content request_id blocks timestamp t)
  | TrackRequestContent request_id messages timestamp =>
      fst (track_request_content request_id messages timestamp t)
  | RegisterTaskPrompt task_id prompt agent_id =>
      fst (register_task_prompt task_id prompt agent_id t)
  | BuildWorkflowDag => fst (build_workflow_dag t)
  end.

Definition run (calls : list call) (t : AgentInstanceTracker)
  : AgentInstanceTracker :=
  List.fold_left step calls t.

End Timed.

End Tracker.

(* ===================================================================== *)
(** * EntityDeduplicator ([class EntityDeduplicator]) *)
(* ===================================================================== *)

Module Dedup.

(** A value of [unique_entities]: the dict built at the first occurrence.
    The keys of the entity itself are kept apart from the six keys the
    deduplicator adds (which override entity keys of the same name). *)
Record UniqueEntity : Type := mkUnique {
  entity : list (string * json);
  entity_type : string;
  first_seen_request : Z;
  first_seen_agent : option string;
  occurrence_count : Z;
  seen_in_requests : list Z;
  seen_in_agents : list string
}.

(** What [deduplicate_entity] returns. *)
Inductive enriched : Type :=
| NoId (entity : json) (entity_type : string)
| FirstSeen (canonical : UniqueEntity)
| Duplicate (entity : list (string * json)) (entity_type : string)
    (duplicate_of : json) (first_seen_request : Z)
    (first_seen_agent : option string) (occurrence_count : Z).

Definition is_duplicate (e : enriched) : bool :=
  match e with
  | Duplicate _ _ _ _ _ _ => true
  | _ => false
  end.

(** The attributes of an [EntityDeduplicator]; [agent_tracker] is a
    reference to the tracker, whose [request_to_agent] is read at each
    call.  The two counters are [defaultdict(int)]. *)
Record EntityDeduplicator : Type := mkDedup {
  unique_entities : gmap pykey UniqueEntity;
  entity_type_counts : list (string * Z);
  entity_type_duplicates : list (string * Z)
}.

Definition init : EntityDeduplicator := mkDedup ∅ [] [].

(** [counts[k] += 1] on a [defaultdict(int)] *)
Definition increment (k : string) (counts : list (string * Z))
  : list (string * Z) :=
  alist_set k (default 0 (alist_get k counts) + 1) counts.

Abbreviation M := (PyM EntityDeduplicator).

Definition deduplicate_entity (request_to_agent : gmap Z string)
  (entity : json) (entity_type : string) (request_id : Z) : M enriched :=
  let! entity_id := lift (Py.get entity "id" JNull) in
  if negb (Py.truthy entity_id) then
    (* no ID, cannot deduplicate: treated as unique *)
    ret (NoId entity entity_type)
  else
    let agent_id := request_to_agent !! request_id in
    let! key := lift (hash_key entity_id) in
    let! known := gets (fun d => unique_entities d !! key) in
    let fields := match entity with JDict d => d | _ => [] end in
    match known with
    | None =>
        (* first occurrence *)
        let enriched_entity :=
          mkUnique fields entity_type request_id agent_id 1 [request_id]
            (match agent_id with
             | Some a => if bool_decide (a = "") then [] else [a]
             | None => []
             end) in
        run! modify (fun d =>
                       mkDedup (<[key := enriched_entity]> (unique_entities d))
                         (increment entity_type (entity_type_counts d))
                         (entity_type_duplicates d)) in
        ret (FirstSeen enriched_entity)
    | Some unique_entity =>
        (* duplicate occurrence *)
        let seen_agents :=
          match agent_id with
          | Some a =>
              if negb (bool_decide (a = ""))
                 && negb (bool_decide (a ∈ seen_in_agents unique_entity))
              then seen_in_agents unique_entity ++ [a]
              else seen_in_agents unique_entity
          | None => seen_in_agents unique_entity
          end in
        let updated :=
          mkUnique (Dedup.entity unique_entity)
            (Dedup.entity_type unique_entity)
            (first_seen_request unique_entity)
            (first_seen_agent unique_entity)
            (occurrence_count unique_entity + 1)
            (seen_in_requests unique_entity ++ [request_id])
            seen_agents in
        run! modify (fun d =>
                       mkDedup (<[key := updated]> (unique_entities d))
                         (entity_type_counts d)
                         (increment entity_type (entity_type_duplicates d))) in
        ret (Duplicate fields entity_type entity_id
               (first_seen_request updated) (first_seen_agent updated)
               (occurrence_count updated))
    end.

(** The per-type entry of [by_entity_type]. *)
Record type_stats : Type := TypeStats {
  ts_unique : Z;
  ts_duplicates : Z;
  ts_total : Z;
  ts_duplication_ratio : Q
}.

(** The dictionary [get_deduplication_stats] returns; a ratio is the exact
    quotient of which Python reports the nearest float. *)
Record dedup_stats : Type := DedupStats {
  total_unique_entities : Z;
  total_occurrences : Z;
  overall_duplication_ratio : Q;
  duplicates_removed : Z;
  by_entity_type : list (string * type_stats)
}.

Definition ratio (total count : Z) : Q :=
  if 0 <? count then (total # Z.to_pos count) else 0.

Definition get_deduplication_stats (d : EntityDeduplicator) : dedup_stats :=
  let total_unique := Z.of_nat (size (unique_entities d)) in
  let total_occurrences :=
    map_fold (fun _ e acc => occurrence_count e + acc) 0 (unique_entities d) in
  let type_stats :=
    List.map
      (fun entry : string * Z =>
         let (entity_type, unique_count) := entry in
         let duplicate_count :=
           default 0 (alist_get entity_type (entity_type_duplicates d)) in
         let total_count := unique_count + duplicate_count in
         (entity_type,
          TypeStats unique_count duplicate_count total_count
            (ratio total_count unique_count)))
      (entity_type_counts d) in
  DedupStats total_unique total_occurrences
    (ratio total_occurrences total_unique)
    (total_occurrences - total_unique)
    type_stats.

(** A call of [deduplicate_entity], with the [request_to_agent] of the
    tracker at the time of the call. *)
Record call : Type := Call {
  c_request_to_agent : gmap Z string;
  c_entity : json;
  c_entity_type : string;
  c_request_id : Z
}.

Definition step (d : EntityDeduplicator) (c : call) : EntityDeduplicator :=
  fst (deduplicate_entity (c_request_to_agent c) (c_entity c)
         (c_entity_type c) (c_request_id c) d).

Definition run (calls : list call) (d : EntityDeduplicator)
  : EntityDeduplicator :=
  List.fold_left step calls d.

End Dedup.

(* ===================================================================== *)
(** * WorkflowGraphBuilder ([proxy/workflow_graph.py]) *)
(* ===================================================================== *)

Module Graph.

(** The [metadata] of an edge. *)
Inductive edge_metadata : Type :=
| MToolResult (tool_use_id tool_name is_error : json)
| MSpawn (subagent_type task_tool_id spawn_time : json)
    (time_diff_seconds : Q) (match_method : string)
| MContentReuse (content_preview : string) (match_method : string).

(** An edge of the request graph; [g_session_id] is the key
    [build_workflow_graph] adds. *)
Record graph_edge : Type := GEdge {
  g_type : string;
  g_source : nat;
  g_target : nat;
  g_metadata : edge_metadata;
  g_confidence : Q;
  g_session_id : option nat
}.

(** [hash_content]: the full digest of the first [length] characters of the
    whitespace-normalised text. *)
Definition hash_content (text : json) (length : nat) : result string :=
  if negb (Py.truthy text) then Ok ""
  else
    match text with
    | JStr s => Ok (Sha256.hexdigest (Str.prefix length (Str.normalize_ws s)))
    | _ => Raise AttributeError
    end.

(** [log.get('response', {}).get('body', {}).get('content', [])] *)
Definition response_content (log : json) : result json :=
  let? response := Py.get log "response" (JDict []) in
  let? response_body := Py.get response "body" (JDict []) in
  Py.get response_body "content" (JList []).

(** [log.get('body', {}).get('messages', [])] *)
Definition request_messages (log : json) : result json :=
  let? request_body := Py.get log "body" (JDict []) in
  Py.get request_body "messages" (JList []).

(** [enumerate(xs)] *)
Definition enumerate {A} (xs : list A) : list (nat * A) :=
  List.combine (seq 0 (List.length xs)) xs.

Section Sessions.

Variable lib : datetime_lib.

(** The state of the loop of [detect_sessions]. *)
Record scan_state : Type := ScanState {
  sessions_so_far : list (nat * nat);
  current_session_start : nat;
  prev_time : option (datetime lib)
}.

Definition detect_sessions_step (gap_minutes : Q) (st : scan_state)
  (entry : nat * json) : result scan_state :=
  let (i, log) := entry in
  let? timestamp := Py.get log "timestamp" (JStr "") in
  if negb (Py.truthy timestamp) then Ok st
  else
    match parse_timestamp lib timestamp with
    | Raise _ => Ok st
    | Ok curr_time =>
        match prev_time st with
        | Some prev =>
            let? gap_seconds := seconds_between lib curr_time prev in
            if Qlt_le_dec (gap_minutes * 60) gap_seconds then
              (* session boundary detected *)
              Ok (ScanState
                    (sessions_so_far st
                     ++ [(current_session_start st, Nat.pred i)])
                    i (Some curr_time))
            else
              Ok (ScanState (sessions_so_far st) (current_session_start st)
                    (Some curr_time))
        | None =>
            Ok (ScanState (sessions_so_far st) (current_session_start st)
                  (Some curr_time))
        end
    end.

Definition detect_sessions (logs : list json) (gap_minutes : Q)
  : result (list (nat * nat)) :=
  match logs with
  | [] => Ok []
  | _ :: _ =>
      let? st := rfold (detect_sessions_step gap_minutes) (enumerate logs)
                   (ScanState [] 0 None) in
      if (current_session_start st <? List.length logs)%nat
      then Ok (sessions_so_far st
               ++ [(current_session_start st, Nat.pred (List.length logs))])
      else Ok (sessions_so_far st)
  end.

End Sessions.

(** ** Tool results *)

(** The key of the tool index: the identifier, prefixed with the session
    when there is one. *)
Definition index_key (session_id : option nat) (tool_use_id : json)
  : result pykey :=
  match session_id with
  | Some sid =>
      Ok (KStr ("session_" +:+ Str.of_Z (Z.of_nat sid) +:+ "_"
                +:+ Py.str tool_use_id))
  | None => hash_key tool_use_id
  end.

Abbreviation tool_indexes := (gmap pykey nat * gmap pykey json)%type.

Definition index_block (session_id : option nat) (idx : nat)
  (acc : tool_indexes) (block : json) : result tool_indexes :=
  match block with
  | JDict d =>
      if Py.is_str (Py.dict_get d "type" JNull) "tool_use" then
        let tool_use_id := Py.dict_get d "id" JNull in
        let tool_name := Py.dict_get d "name" JNull in
        if Py.truthy tool_use_id then
          let? key := index_key session_id tool_use_id in
          Ok (<[key := idx]> (fst acc), <[key := tool_name]> (snd acc))
        else Ok acc
      else Ok acc
  | _ => Ok acc
  end.

Definition index_log (session_id : option nat) (acc : tool_indexes)
  (entry : nat * json) : result tool_indexes :=
  let (idx, log) := entry in
  let? content := response_content log in
  match content with
  | JList blocks => rfold (index_block session_id idx) blocks acc
  | _ => Ok acc
  end.

Definition build_tool_index (logs : list json) (session_id : option nat)
  : result tool_indexes :=
  rfold (index_log session_id) (enumerate logs) (∅, ∅).

Definition match_block (indexes : tool_indexes) (session_id : option nat)
  (target_idx : nat) (edges : list graph_edge) (block : json)
  : result (list graph_edge) :=
  match block with
  | JDict d =>
      if Py.is_str (Py.dict_get d "type" JNull) "tool_result" then
        let tool_use_id := Py.dict_get d "tool_use_id" JNull in
        let is_error := Py.dict_get d "is_error" (JBool false) in
        if Py.truthy tool_use_id then
          let? key := index_key session_id tool_use_id in
          match fst indexes !! key with
          | Some source_idx =>
              let tool_name := default JNull (snd indexes !! key) in
              Ok (edges
                  ++ [GEdge "tool_result" source_idx target_idx
                        (MToolResult tool_use_id tool_name is_error) 1 None])
          | None => Ok edges
          end
        else Ok edges
      else Ok edges
  | _ => Ok edges
  end.

Definition match_message (indexes : tool_indexes) (session_id : option nat)
  (target_idx : nat) (edges : list graph_edge) (message : json)
  : result (list graph_edge) :=
  match message with
  | JDict d =>
      match Py.dict_get d "content" (JList []) with
      | JList blocks =>
          rfold (match_block indexes session_id target_idx) blocks edges
      | _ => Ok edges
      end
  | _ => Ok edges
  end.

Definition match_log (indexes : tool_indexes) (session_id : option nat)
  (edges : list graph_edge) (entry : nat * json) : result (list graph_edge) :=
  let (target_idx, log) := entry in
  let? messages := request_messages log in
  match messages with
  | JList msgs =>
      rfold (match_message indexes session_id target_idx) msgs edges
  | _ => Ok edges
  end.

Definition match_tool_results (logs : list json) (indexes : tool_indexes)
  (session_id : option nat) : result (list graph_edge) :=
  rfold (match_log indexes session_id) (enumerate logs) [].

(** ** Subagent spawns *)

(** An entry of [task_spawns]. *)
Record task_spawn : Type := TaskSpawn {
  parent_idx : nat;
  subagent_type : json;
  task_tool_id : json;
  prompt : json;
  prompt_hash : option string;
  spawn_timestamp : json
}.

Definition collect_block (idx : nat) (log_timestamp : json)
  (acc : list task_spawn) (block : json) : result (list task_spawn) :=
  match block with
  | JDict d =>
      if Py.is_str (Py.dict_get d "type" JNull) "tool_use"
         && Py.is_str (Py.dict_get d "name" JNull) "Task"
      then
        let tool_input := Py.dict_get d "input" (JDict []) in
        let? subagent_type := Py.get tool_input "subagent_type" JNull in
        let task_tool_id := Py.dict_get d "id" JNull in
        let? prompt := Py.get tool_input "prompt" (JStr "") in
        if Py.truthy subagent_type then
          let? prompt_hash :=
            if Py.truthy prompt
            then let? h := hash_content prompt 300 in Ok (Some h)
            else Ok None in
          Ok (acc ++ [TaskSpawn idx subagent_type task_tool_id prompt
                        prompt_hash log_timestamp])
        else Ok acc
      else Ok acc
  | _ => Ok acc
  end.

Definition collect_log (acc : list task_spawn) (entry : nat * json)
  : result (list task_spawn) :=
  let (idx, log) := entry in
  let? content := response_content log in
  match content with
  | JList blocks =>
      let? log_timestamp := Py.get log "timestamp" JNull in
      rfold (collect_block idx log_timestamp) blocks acc
  | _ => Ok acc
  end.

(** The hash of the first text block of a message content given as a list. *)
Fixpoint first_text_hash (blocks : list json) : result (option string) :=
  match blocks with
  | [] => Ok None
  | JDict d :: rest =>
      if Py.is_str (Py.dict_get d "type" JNull) "text" then
        let? h := hash_content (Py.dict_get d "text" (JStr "")) 300 in
        Ok (Some h)
      else first_text_hash rest
  | _ :: rest => first_text_hash rest
  end.

(** [msg_hash] for a log entry: the hash of the content of its first
    request message. *)
Definition first_message_hash (log : json) : result (option string) :=
  let? messages := request_messages log in
  match messages with
  | JList (first_msg :: _) =>
      match first_msg with
      | JDict d =>
          match Py.dict_get d "content" (JStr "") with
          | JStr s => let? h := hash_content (JStr s) 300 in Ok (Some h)
          | JList blocks => first_text_hash blocks
          | _ => Ok None
          end
      | _ => Ok None
      end
  | _ => Ok None
  end.

Section Spawns.

Variable lib : datetime_lib.

(** The forward scan for the agent a spawn started, from position [idx]:
    the position of the match and the time it came after the spawn. *)
Fixpoint scan_forward (spawn_time : datetime lib) (spawn_hash : string)
  (idx : nat) (logs : list json) : result (option (nat * Q)) :=
  match logs with
  | [] => Ok None
  | log :: rest =>
      let? log_timestamp := Py.get log "timestamp" JNull in
      let? log_time := parse_timestamp lib log_timestamp in
      let? time_diff := seconds_between lib log_time spawn_time in
      if Qlt_le_dec 3600 time_diff then
        (* past the one hour window *)
        Ok None
      else
        let? msg_hash := first_message_hash log in
        if match msg_hash with
           | Some h => negb (bool_decide (h = ""))
                       && bool_decide (h = spawn_hash)
           | None => false
           end
           && (if Qlt_le_dec time_diff 0 then false else true)
        then Ok (Some (idx, time_diff))
        else scan_forward spawn_time spawn_hash (S idx) rest
  end.

Definition match_spawn (logs : list json) (edges : list graph_edge)
  (spawn : task_spawn) : result (list graph_edge) :=
  let? spawn_time := parse_timestamp lib (spawn_timestamp spawn) in
  match prompt_hash spawn with
  | None => Ok edges
  | Some h =>
      if bool_decide (h = "") then Ok edges
      else
        let? best :=
          scan_forward spawn_time h (S (parent_idx spawn))
            (skipn (S (parent_idx spawn)) logs) in
        match best with
        | Some (best_match, min_time_diff) =>
            Ok (edges
                ++ [GEdge "subagent_spawn" (parent_idx spawn) best_match
                      (MSpawn (subagent_type spawn) (task_tool_id spawn)
                         (spawn_timestamp spawn) min_time_diff "prompt_hash")
                      (95 # 100) None])
        | None => Ok edges
        end
  end.

Definition detect_subagent_spawns (logs : list json)
  : result (list graph_edge) :=
  let? task_spawns := rfold collect_log (enumerate logs) [] in
  rfold (match_spawn logs) task_spawns [].

End Spawns.

(** ** Content reuse *)

Definition extract_text_content (content_blocks : json) : result string :=
  match content_blocks with
  | JList blocks => Py.join Tracker.nl (Tracker.text_parts blocks)
  | _ => Ok ""
  end.

(** [text[:100].replace(newline, ' ')] *)
Definition preview_of (text : string) : string :=
  Str.replace_char Re.newline " " (Str.prefix 100 text).

Abbreviation response_index := (gmap string (list (nat * string))).

Definition index_response (acc : response_index) (entry : nat * json)
  : result response_index :=
  let (idx, log) := entry in
  let? content := response_content log in
  let? text_content := extract_text_content content in
  if bool_decide (text_content = "") then Ok acc
  else
    let? content_hash := hash_content (JStr text_content) 200 in
    if bool_decide (content_hash = "") then Ok acc
    else
      Ok (<[content_hash :=
              default [] (acc !! content_hash)
              ++ [(idx, preview_of text_content)]]> acc).

(** The edges one piece of request text gives rise to. *)
Definition reuse_edges (response_hashes : response_index) (target_idx : nat)
  (content_hash : string) : list graph_edge :=
  List.map
    (fun source : nat * string =>
       GEdge "content_reuse" (fst source) target_idx
         (MContentReuse (snd source) "hash_200char") (95 # 100) None)
    (List.filter (fun source : nat * string => (fst source <? target_idx)%nat)
       (default [] (response_hashes !! content_hash))).

Definition reuse_block (response_hashes : response_index) (target_idx : nat)
  (edges : list graph_edge) (block : json) : result (list graph_edge) :=
  match block with
  | JDict d =>
      if Py.is_str (Py.dict_get d "type" JNull) "text" then
        let text := Py.dict_get d "text" (JStr "") in
        if Py.truthy text then
          let? content_hash := hash_content text 200 in
          Ok (edges ++ reuse_edges response_hashes target_idx content_hash)
        else Ok edges
      else Ok edges
  | _ => Ok edges
  end.

Definition reuse_message (response_hashes : response_index)
  (target_idx : nat) (edges : list graph_edge) (message : json)
  : result (list graph_edge) :=
  match message with
  | JDict d =>
      match Py.dict_get d "content" (JList []) with
      | JStr s =>
          let? content_hash := hash_content (JStr s) 200 in
          Ok (edges ++ reuse_edges response_hashes target_idx content_hash)
      | JList blocks =>
          rfold (reuse_block response_hashes target_idx) blocks edges
      | _ => Ok edges
      end
  | _ => Ok edges
  end.

Definition reuse_log (response_hashes : response_index)
  (edges : list graph_edge) (entry : nat * json) : result (list graph_edge) :=
  let (target_idx, log) := entry in
  let? messages := request_messages log in
  match messages with
  | JList msgs => rfold (reuse_message response_hashes target_idx) msgs edges
  | _ => Ok edges
  end.

Definition detect_content_reuse (logs : list json)
  : result (list graph_edge) :=
  let? response_hashes := rfold index_response (enumerate logs) ∅ in
  rfold (reuse_log response_hashes) (enumerate logs) [].

(** ** The graph *)

(** [a < b] on sort keys.  Strings compare by code point, numbers and
    booleans by value; [None] is ordered with nothing.  (A timestamp that
    is a JSON array or object is outside the embedding: it is reported as
    the [TypeError] Python raises for objects.) *)
Definition key_lt (a b : json) : result bool :=
  match a, b with
  | JStr x, JStr y =>
      Ok (match String.compare x y with Lt => true | _ => false end)
  | (JNum _ | JBool _), (JNum _ | JBool _) =>
      let value j := match j with
                     | JNum n => n
                     | JBool true => 1
                     | _ => 0
                     end in
      Ok (value a <? value b)
  | _, _ => Raise TypeError
  end.

(** Insertion of an entry behind the entries that are not greater. *)
Fixpoint insert_sorted (x : json * json) (sorted : list (json * json))
  : result (list (json * json)) :=
  match sorted with
  | [] => Ok [x]
  | y :: rest =>
      let? before := key_lt (fst x) (fst y) in
      if before then Ok (x :: y :: rest)
      else let? rest' := insert_sorted x rest in Ok (y :: rest')
  end.

(** [sorted(logs, key=lambda x: x.get('timestamp', ''))]: the keys are
    computed first, the sort is stable. *)
Definition sorted_by_timestamp (logs : list json) : result (list json) :=
  let? keyed :=
    rmap (fun log => let? k := Py.get log "timestamp" (JStr "") in Ok (k, log))
      logs in
  let? sorted := rfold (fun acc x => insert_sorted x acc) keyed [] in
  Ok (List.map snd sorted).

(** [xs[start:stop]] for indices that are not negative. *)
Definition slice {A} (start stop : nat) (xs : list A) : list A :=
  firstn (stop - start) (skipn start xs).

(** [xs[-n:]] *)
Definition last_n {A} (n : Z) (xs : list A) : list A :=
  let len := Z.of_nat (List.length xs) in
  if n =? 0 then xs
  else if 0 <? n then skipn (Z.to_nat (len - n)) xs
  else skipn (Z.to_nat (Z.min (- n) len)) xs.

(** The session line that is printed slices the timestamps of the first and
    the last entry of the session ([ts[:19]]): what is not a sequence
    cannot be sliced. *)
Definition printable_bound (log : json) : result unit :=
  let? ts := Py.get log "timestamp" (JStr "unknown") in
  match ts with
  | JStr _ | JList _ => Ok tt
  | _ => Raise TypeError
  end.

Definition print_session (sorted_logs : list json) (session : nat * nat)
  : result unit :=
  match sorted_logs !! fst session, sorted_logs !! snd session with
  | Some first, Some last =>
      let? _ := printable_bound first in
      printable_bound last
  | _, _ => Raise IndexError
  end.

(** [a + b] on the values a token count can have. *)
Definition py_add (a b : json) : result json :=
  match a, b with
  | (JNum _ | JBool _), (JNum _ | JBool _) =>
      let value j := match j with
                     | JNum n => n
                     | JBool true => 1
                     | _ => 0
                     end in
      Ok (JNum (value a + value b))
  | JStr x, JStr y => Ok (JStr (x +:+ y))
  | JList x, JList y => Ok (JList (x ++ y))
  | _, _ => Raise TypeError
  end.

(** A node of the request graph. *)
Record graph_node : Type := GNode {
  id : nat;
  log_index : nat;
  session_id : nat;
  session_local_index : nat;
  timestamp : json;
  agent_type : json;
  agent_label : json;
  agent_color : json;
  model : json;
  duration_ms : json;
  tokens_input : json;
  tokens_output : json;
  tokens_total : json;
  stop_reason : json;
  has_errors : json;
  tool_count : json;
  subagent_count : json
}.

Definition node_of (global_idx session_idx local_idx : nat) (log : json)
  : result graph_node :=
  let? agent_type := Py.get log "agent_type" (JDict []) in
  let? response := Py.get log "response" (JDict []) in
  let? response_body := Py.get response "body" (JDict []) in
  let? usage := Py.get response_body "usage" (JDict []) in
  let? ts := Py.get log "timestamp" JNull in
  let? name := Py.get agent_type "name" (JStr "unknown") in
  let? label := Py.get agent_type "label" (JStr "Unknown") in
  let? color := Py.get agent_type "color" (JStr "#6b7280") in
  let? request_body := Py.get log "body" (JDict []) in
  let? model := Py.get request_body "model" (JStr "unknown") in
  let? duration := Py.get response "duration_ms" JNull in
  let? input := Py.get usage "input_tokens" (JNum 0) in
  let? output := Py.get usage "output_tokens" (JNum 0) in
  let? total := py_add input output in
  let? stop_reason := Py.get log "stop_reason" JNull in
  let? has_errors := Py.get log "has_errors" (JBool false) in
  let? tool_info := Py.get log "tool_info" (JDict []) in
  let? tool_count := Py.get tool_info "count" (JNum 0) in
  let? subagent_count := Py.get log "subagent_count" (JNum 0) in
  Ok (GNode global_idx global_idx session_idx local_idx ts name label color
        model duration input output total stop_reason has_errors tool_count
        subagent_count).

(** The nodes of a session, numbered from [node_start]. *)
Fixpoint session_nodes (node_start session_idx local_idx : nat)
  (session_logs : list json) : result (list graph_node) :=
  match session_logs with
  | [] => Ok []
  | log :: rest =>
      let? node := node_of (node_start + local_idx) session_idx local_idx log in
      let? nodes := session_nodes node_start session_idx (S local_idx) rest in
      Ok (node :: nodes)
  end.

(** Local positions to global node indices. *)
Definition globalize (node_start session_idx : nat) (e : graph_edge)
  : graph_edge :=
  GEdge (g_type e) (node_start + g_source e) (node_start + g_target e)
    (g_metadata e) (g_confidence e) (Some session_idx).

(** An entry of [sessions] in the result. *)
Record session_info : Type := SessionInfo {
  s_session_id : nat;
  s_node_start : nat;
  s_node_end : Z;
  s_node_count : nat;
  s_edge_count : nat;
  s_start_time : json;
  s_end_time : json
}.

Record graph_metrics : Type := GraphMetrics {
  total_nodes : nat;
  total_edges : nat;
  session_count : nat
}.

(** The dictionary [build_workflow_graph] returns; the metrics of an empty
    log set are the empty dict. *)
Record workflow_graph : Type := WorkflowGraph {
  nodes : list graph_node;
  edges : list graph_edge;
  sessions : list session_info;
  metrics : option graph_metrics
}.

Section Build.

Variable lib : datetime_lib.

(** The body of the loop over the sessions. *)
Definition add_session (sorted_logs : list json) (max_logs_per_session : Z)
  (acc : workflow_graph) (entry : nat * (nat * nat)) : result workflow_graph :=
  let '(session_idx, (session_start, session_end)) := entry in
  let session_logs := slice session_start (S session_end) sorted_logs in
  (* per-session cap *)
  let session_logs :=
    if max_logs_per_session <? Z.of_nat (List.length session_logs)
    then last_n max_logs_per_session session_logs
    else session_logs in
  let session_node_start := List.length (nodes acc) in
  (* edges within this session *)
  let? indexes := build_tool_index session_logs (Some session_idx) in
  let? tool_edges := match_tool_results session_logs indexes (Some session_idx) in
  let? spawn_edges := detect_subagent_spawns lib session_logs in
  let? content_edges := detect_content_reuse session_logs in
  (* nodes of this session *)
  let? new_nodes :=
    session_nodes session_node_start session_idx 0 session_logs in
  let all_nodes := nodes acc ++ new_nodes in
  let session_edges := tool_edges ++ spawn_edges ++ content_edges in
  let? start_time :=
    match session_logs with
    | first :: _ => Py.get first "timestamp" JNull
    | [] => Ok JNull
    end in
  let? end_time :=
    match session_logs with
    | _ :: _ => Py.get (List.last session_logs JNull) "timestamp" JNull
    | [] => Ok JNull
    end in
  Ok (WorkflowGraph all_nodes
        (edges acc
         ++ List.map (globalize session_node_start session_idx) session_edges)
        (sessions acc
         ++ [SessionInfo session_idx session_node_start
               (Z.of_nat (List.length all_nodes) - 1)
               (List.length session_logs) (List.length session_edges)
               start_time end_time])
        None).

Definition build_workflow_graph (logs : list json)
  (max_logs_per_session : Z) (session_gap_minutes : Q)
  : result workflow_graph :=
  match logs with
  | [] => Ok (WorkflowGraph [] [] [] None)
  | _ :: _ =>
      (* chronological order, oldest first *)
      let? sorted_logs := sorted_by_timestamp logs in
      let? detected := detect_sessions lib sorted_logs session_gap_minutes in
      let? _ := rmap (print_session sorted_logs) detected in
      let? g := rfold (add_session sorted_logs max_logs_per_session)
                  (enumerate detected) (WorkflowGraph [] [] [] None) in
      Ok (WorkflowGraph (nodes g) (edges g) (sessions g)
            (Some (GraphMetrics (List.length (nodes g))
                     (List.length (edges g)) (List.length detected))))
  end.

End Build.

End Graph.

(* ===================================================================== *)
(** * A clock for the worked examples *)
(* ===================================================================== *)

(** Timestamps at whole seconds, [YYYY-MM-DDTHH:MM:SS], naive or with the
    UTC offset [+00:00]: a format every version of [fromisoformat] reads
    the same way, and on which the float arithmetic is exact. *)
Module Clock.

Record instant : Type := Instant {
  aware : bool;
  epoch_seconds : Z
}.

Definition digit (c : ascii) : option Z :=
  if Str.is_digit c then Some (Str.code c - 48) else None.

Fixpoint number (l : list ascii) (acc : Z) : option Z :=
  match l with
  | [] => Some acc
  | c :: l' =>
      match digit c with
      | Some d => number l' (10 * acc + d)
      | None => None
      end
  end.

Definition leap (y : Z) : bool :=
  ((y mod 4 =? 0) && negb (y mod 100 =? 0)) || (y mod 400 =? 0).

Definition days_in_month (y m : Z) : Z :=
  if m =? 2 then (if leap y then 29 else 28)
  else if (m =? 4) || (m =? 6) || (m =? 9) || (m =? 11) then 30
  else 31.

(** Days since 1970-01-01 in the proleptic Gregorian calendar. *)
Definition days_from_civil (y m d : Z) : Z :=
  let y' := if m <=? 2 then y - 1 else y in
  let era := y' / 400 in
  let yoe := y' - era * 400 in
  let doy := (153 * (if 2 <? m then m - 3 else m + 9) + 2) / 5 + d - 1 in
  let doe := yoe * 365 + yoe / 4 - yoe / 100 + doy in
  era * 146097 + doe - 719468.

Definition field (start len : nat) (l : list ascii) : option Z :=
  number (firstn len (skipn start l)) 0.

Definition sep (pos : nat) (c : ascii) (l : list ascii) : bool :=
  match l !! pos with
  | Some x => bool_decide (x = c)
  | None => false
  end.

Definition parse (s : string) : option instant :=
  let l := Str.to_list s in
  let tail := Str.of_list (skipn 19 l) in
  if sep 4 "-"%char l && sep 7 "-"%char l && sep 13 ":"%char l
     && sep 16 ":"%char l && (19 <=? List.length l)%nat
     && (bool_decide (tail = "") || bool_decide (tail = "+00:00"))
  then
    match field 0 4 l, field 5 2 l, field 8 2 l,
          field 11 2 l, field 14 2 l, field 17 2 l with
    | Some y, Some m, Some d, Some hh, Some mm, Some ss =>
        if (1 <=? y) && (1 <=? m) && (m <=? 12) && (1 <=? d)
           && (d <=? days_in_month y m) && (hh <? 24) && (mm <? 60)
           && (ss <? 60)
        then Some (Instant (bool_decide (tail = "+00:00"))
                     (days_from_civil y m d * 86400 + hh * 3600 + mm * 60 + ss))
        else None
    | _, _, _, _, _, _ => None
    end
  else None.

Definition difference (a b : instant) : option Q :=
  if Bool.eqb (aware a) (aware b)
  then Some (inject_Z (epoch_seconds a - epoch_seconds b))
  else None.

(** [int(x * 1000)] *)
Definition milliseconds (x : Q) : Z :=
  Z.quot (Qnum x * 1000) (Z.pos (Qden x)).

Definition lib : datetime_lib :=
  DatetimeLib instant parse difference milliseconds.

End Clock.

(* ===================================================================== *)
(** * Specification vocabulary: reasoning about methods *)
(* ===================================================================== *)

Module Hoare.

(** [wp m Q E s]: from the attributes [s], the method [m] returns a value
    and attributes that satisfy [Q], or raises an exception and leaves
    attributes that satisfy [E]. *)
Definition wp {S A} (m : PyM S A) (Q : A -> S -> Prop)
  (E : exn -> S -> Prop) (s : S) : Prop :=
  match m s with
  | (s', Ok a) => Q a s'
  | (s', Raise e) => E e s'
  end.

(** [keeps R m]: whatever [m] does, returning or raising, the attributes it
    leaves are related by [R] to the ones it started from. *)
Definition keeps {S A} (R : S -> S -> Prop) (m : PyM S A) : Prop :=
  forall s, R s (fst (m s)).

End Hoare.

(* ===================================================================== *)
(** * Specification vocabulary: conversations up to tool identifiers *)
(* ===================================================================== *)

Module FingerprintSpec.

(** The field that holds the volatile identifier of a block: [id] in a
    [tool_use] block, [tool_use_id] in a [tool_result] block. *)
Definition id_field (block_type : json) : option string :=
  if Py.is_str block_type "tool_use" then Some "id"
  else if Py.is_str block_type "tool_result" then Some "tool_use_id"
  else None.

Fixpoint remove_key (k : string) (d : list (string * json))
  : list (string * json) :=
  match d with
  | [] => []
  | (k', v) :: d' =>
      if bool_decide (k' = k) then remove_key k d'
      else (k', v) :: remove_key k d'
  end.

(** A block without its identifier field. *)
Definition erase_block_id (block : json) : json :=
  match block with
  | JDict d =>
      match id_field (Py.dict_get d "type" (JStr "unknown")) with
      | Some k => JDict (remove_key k d)
      | None => block
      end
  | _ => block
  end.

Definition erase_content_ids (content : json) : json :=
  match content with
  | JList blocks => JList (List.map erase_block_id blocks)
  | _ => content
  end.

Definition erase_message_ids (msg : json) : json :=
  match msg with
  | JDict d =>
      JDict (List.map
               (fun kv : string * json =>
                  if bool_decide (fst kv = "content")
                  then (fst kv, erase_content_ids (snd kv))
                  else kv) d)
  | _ => msg
  end.

(** A message list without the identifier fields of its tool blocks: two
    lists are identical except for those fields when this is the same for
    both. *)
Definition erase_ids (messages : json) : json :=
  match messages with
  | JList msgs => JList (List.map erase_message_ids msgs)
  | _ => messages
  end.

End FingerprintSpec.

(* ===================================================================== *)
(** * Specification vocabulary: the tracker *)
(* ===================================================================== *)

Module TrackerSpec.
Import Tracker.

(** The identifier of the [n]-th agent created. *)
Definition agent_name (n : nat) : string :=
  "agent_" +:+ Str.of_Z (Z.of_nat n).

Definition has_agent (t : AgentInstanceTracker) (k : string) : Prop :=
  is_Some (alist_get k (instances t)).

(** The identifiers of the agents, in order of creation. *)
Definition agent_ids (t : AgentInstanceTracker) : list string :=
  List.map fst (instances t).

(** The invariant of the indexes: a fingerprint leads to an agent that
    exists, agents are stored under their own identifier, and every
    identifier was drawn from the counter. *)
Record Inv (t : AgentInstanceTracker) : Prop := mkInv {
  inv_fingerprint :
    forall fp a, fingerprint_to_agent t !! fp = Some a -> has_agent t a;
  inv_agent_id :
    forall k a, alist_get k (instances t) = Some a -> agent_id a = k;
  inv_fresh :
    forall k, has_agent t k ->
              exists n, (n < agent_counter t)%nat /\ k = agent_name n
}.

(** What a later tracker keeps of an earlier one. *)
Record Ext (t t' : AgentInstanceTracker) : Prop := mkExt {
  ext_fingerprint :
    forall fp a, fingerprint_to_agent t !! fp = Some a ->
                 fingerprint_to_agent t' !! fp = Some a;
  ext_agents : forall k, has_agent t k -> has_agent t' k;
  ext_counter : (agent_counter t <= agent_counter t')%nat
}.

(** [message_count_history] of the agent stored under [k] (empty when
    there is none). *)
Definition agent_history (t : AgentInstanceTracker) (k : string) : list nat :=
  match alist_get k (instances t) with
  | Some a => message_count_history a
  | None => []
  end.

(** Two entries of [instances] for the same agent, with the same message
    count history. *)
Definition agent_agrees (x y : string * AgentInstance) : Prop :=
  fst x = fst y /\ agent_id (snd x) = agent_id (snd y)
  /\ message_count_history (snd x) = message_count_history (snd y).

(** An edge that is not of type [content_reuse], or that goes from an
    earlier request to a later one, between two agents, with confidence
    0.85. *)
Definition good_edge (e : workflow_edge) : Prop :=
  e_type e = "content_reuse" ->
  e_confidence e = (85 # 100)%Q
  /\ e_source_agent_id e <> e_target_agent_id e
  /\ exists s g, e_source_request_id e = Some s
                 /\ e_target_request_id e = Some g /\ s < g.

(** What the calls other than [identify_or_create_agent] leave alone. *)
Record Quiet (t t' : AgentInstanceTracker) : Prop := mkQuiet {
  quiet_fingerprint : fingerprint_to_agent t' = fingerprint_to_agent t;
  quiet_counter : agent_counter t' = agent_counter t;
  quiet_agents : Forall2 agent_agrees (instances t) (instances t');
  quiet_edges :
    exists new, workflow_edges t' = workflow_edges t ++ new
                /\ Forall good_edge new
}.

(** The edges of the DAG a call of [build_workflow_dag] returned (none when
    it raised). *)
Definition returned_edges (outcome : AgentInstanceTracker * result workflow_dag)
  : list workflow_edge :=
  match snd outcome with
  | Ok dag => dag_edges dag
  | Raise _ => []
  end.

(** The nodes of the DAG a call of [build_workflow_dag] returned. *)
Definition returned_nodes (outcome : AgentInstanceTracker * result workflow_dag)
  : list dag_node :=
  match snd outcome with
  | Ok dag => dag_nodes dag
  | Raise _ => []
  end.

(** The calls that emit no edge. *)
Definition same_edges (t t' : AgentInstanceTracker) : Prop :=
  workflow_edges t' = workflow_edges t.

(** The conversation fingerprint of a request body. *)
Definition request_fingerprint (body : json) : result string :=
  let? messages := Py.get body "messages" (JList []) in
  compute_conversation_fingerprint messages.

(** [len(messages)] of a request body. *)
Definition request_message_count (body : json) : result nat :=
  let? messages := Py.get body "messages" (JList []) in
  Py.len messages.

(** The hash of the system prompt of a request body. *)
Definition request_system_hash (body : json) : result string :=
  let? system := Py.get body "system" (JList []) in
  compute_system_prompt_hash system.

Definition non_decreasing (l : list nat) : Prop :=
  forall i x y, l !! i = Some x -> l !! S i = Some y -> (x <= y)%nat.

Section Streams.

Variable lib : datetime_lib.

(** The message counts of the requests of a stream that
    [identify_or_create_agent] attributed to the agent [k], in order. *)
Fixpoint attributed_counts (calls : list call) (t : AgentInstanceTracker)
  (k : string) : list nat :=
  match calls with
  | [] => []
  | c :: rest =>
      match c with
      | Identify request_id body timestamp =>
          match identify_or_create_agent request_id body timestamp t,
                request_message_count body with
          | (_, Ok a), Ok n => if bool_decide (a = k) then [n] else []
          | _, _ => []
          end
      | _ => []
      end ++ attributed_counts rest (step lib t c) k
  end.

End Streams.

End TrackerSpec.

(* ===================================================================== *)
(** * Specification vocabulary: the deduplicator *)
(* ===================================================================== *)

Module DedupSpec.
Import Dedup.

(** The number of entries of [seen_in_requests]: one per occurrence. *)
Definition recorded_occurrences (e : UniqueEntity) : Z :=
  Z.of_nat (List.length (seen_in_requests e)).

(** The number of distinct request indices in [seen_in_requests]. *)
Definition distinct_requests (e : UniqueEntity) : Z :=
  Z.of_nat (size (list_to_set (seen_in_requests e) : gset Z)).

(** The sum of the values of a counter dictionary. *)
Definition counter_total (counts : list (string * Z)) : Z :=
  List.fold_right (fun entry acc => snd entry + acc) 0 counts.

(** The sum of the occurrence counts of the stored entities. *)
Definition occurrences (m : gmap pykey UniqueEntity) : Z :=
  map_fold (fun _ e acc => occurrence_count e + acc) 0 m.

(** Every occurrence is counted once: as the first occurrence of its
    entity, or as a duplicate. *)
Definition balanced (d : EntityDeduplicator) : Prop :=
  occurrences (unique_entities d)
  = Z.of_nat (size (unique_entities d))
    + counter_total (entity_type_duplicates d)
  /\ counter_total (entity_type_counts d)
     = Z.of_nat (size (unique_entities d)).

(** A Task tool use of request 0, as the extraction pass hands it to the
    deduplicator: once as a tool use, once as a task. *)
Definition task_tool_use : json :=
  JDict [("id", JStr "toolu_task"); ("tool_name", JStr "Task")].

Definition task_seen_twice : list call :=
  [Call {[0 := "agent_0"]} task_tool_use "tool_use" 0;
   Call {[0 := "agent_0"]} task_tool_use "task" 0].

End DedupSpec.

(* ===================================================================== *)
(** * Specification vocabulary: the request graph *)
(* ===================================================================== *)

Module GraphSpec.
Import Graph.

(** An edge between two positions of a list of [n] log entries. *)
Definition local_to (n : nat) (e : graph_edge) : Prop :=
  (g_source e < n)%nat /\ (g_target e < n)%nat.

(** The two endpoints of an edge are nodes of the graph, and nodes of one
    session, the session the edge is labelled with. *)
Definition same_session (g : workflow_graph) (e : graph_edge) : Prop :=
  exists source_node target_node,
    nodes g !! g_source e = Some source_node
    /\ nodes g !! g_target e = Some target_node
    /\ id source_node = g_source e
    /\ id target_node = g_target e
    /\ session_id source_node = session_id target_node
    /\ g_session_id e = Some (session_id source_node).

(** The nodes are numbered by their position. *)
Definition numbered (g : workflow_graph) : Prop :=
  forall i node, nodes g !! i = Some node -> id node = i.

(** A [content_reuse] edge of the request graph: from an earlier entry to
    a later one, with confidence 0.95. *)
Definition reuse_edge_ok (e : graph_edge) : Prop :=
  g_type e = "content_reuse" ->
  (g_source e < g_target e)%nat /\ g_confidence e = (95 # 100)%Q.

(** The endpoints of the edges a detector returned. *)
Definition endpoints (outcome : result (list graph_edge))
  : option (list (nat * nat)) :=
  match outcome with
  | Ok es => Some (List.map (fun e => (g_source e, g_target e)) es)
  | Raise _ => None
  end.

End GraphSpec.

(* ===================================================================== *)
(** * Specification vocabulary: hashes and canonical conversations *)
(* ===================================================================== *)

Module FingerprintForm.

(** A lowercase hexadecimal digit. *)
Definition is_hex (c : ascii) : bool :=
  Str.is_digit c || ((97 <=? Str.code c) && (Str.code c <=? 102)).

Definition all_hex (s : string) : Prop :=
  Forall (fun c => is_hex c = true) (Str.to_list s).

(** What the fingerprint reads of a block: the type and the text of a
    [text] block, the type, the name and the input of a [tool_use] block,
    the type and the content of a [tool_result] block, and nothing of any
    other block. *)
Definition canonical_block (block : json) : option json :=
  match block with
  | JDict d =>
      let block_type := Py.dict_get d "type" (JStr "unknown") in
      if Py.is_str block_type "text" then
        Some (JDict [("type", JStr "text");
                     ("text", Py.dict_get d "text" (JStr ""))])
      else if Py.is_str block_type "tool_use" then
        Some (JDict [("type", JStr "tool_use");
                     ("name", Py.dict_get d "name" (JStr ""));
                     ("input", Py.dict_get d "input" (JDict []))])
      else if Py.is_str block_type "tool_result" then
        Some (JDict [("type", JStr "tool_result");
                     ("content", Py.dict_get d "content" (JStr ""))])
      else None
  | _ => None
  end.

(** What the fingerprint reads of a message: the role, and the blocks of
    the content, a string counting as one [text] block and anything but a
    string or a list as no block. *)
Definition canonical_message (msg : json) : json :=
  match msg with
  | JDict d =>
      JDict [("role", Py.dict_get d "role" (JStr ""));
             ("content",
              JList (omap canonical_block
                       (normalize_content
                          (Py.dict_get d "content" (JList [])))))]
  | _ => msg
  end.

(** The characters a normalised command is made of. *)
Definition is_lower_alnum (c : ascii) : bool :=
  Str.is_lower c || Str.is_digit c.

End FingerprintForm.

(* ===================================================================== *)
(** * Specification vocabulary: stored entities *)
(* ===================================================================== *)

Module DedupForm.
Import Dedup.

(** [get_entity_by_id]: [self.unique_entities.get(entity_id)]. *)
Definition get_entity_by_id (d : EntityDeduplicator) (entity_id : json)
  : result (option UniqueEntity) :=
  let? key := hash_key entity_id in
  Ok (unique_entities d !! key).

(** A later state of a stored entity: what was recorded at first sight is
    the same, the count has not gone down and the two lists have only been
    appended to. *)
Record grown (e e' : UniqueEntity) : Prop := mkGrown {
  grown_entity : entity e' = entity e;
  grown_type : entity_type e' = entity_type e;
  grown_request : first_seen_request e' = first_seen_request e;
  grown_agent : first_seen_agent e' = first_seen_agent e;
  grown_count : occurrence_count e <= occurrence_count e';
  grown_requests : seen_in_requests e `prefix_of` seen_in_requests e';
  grown_agents : seen_in_agents e `prefix_of` seen_in_agents e'
}.

(** A stored entity as the deduplicator keeps it. *)
Record well_formed (e : UniqueEntity) : Prop := mkWellFormed {
  wf_first_request :
    List.head (seen_in_requests e) = Some (first_seen_request e);
  wf_agents_distinct : NoDup (seen_in_agents e);
  wf_agents_named : "" ∉ seen_in_agents e;
  wf_first_agent :
    forall a, first_seen_agent e = Some a -> a <> "" ->
              List.head (seen_in_agents e) = Some a;
  wf_agents_bound :
    Z.of_nat (List.length (seen_in_agents e)) <= occurrence_count e
}.

End DedupForm.

(* ===================================================================== *)
(** * Specification vocabulary: sessions and the shape of the graph *)
(* ===================================================================== *)

Module GraphForm.
Import Graph.

(** Intervals, each with a first and a last position, that follow one
    another without gap or overlap from [start] up to [stop] (excluded);
    none of them is empty. *)
Fixpoint covers (start : nat) (sessions : list (nat * nat)) (stop : nat)
  : Prop :=
  match sessions with
  | [] => start = stop
  | (first, last) :: rest =>
      first = start /\ (first <= last)%nat /\ covers (S last) rest stop
  end.

(** A timestamp [detect_sessions] passes over: one that is not truthy, or
    that [fromisoformat] does not read. *)
Definition unusable (lib : datetime_lib) (timestamp : json) : Prop :=
  Py.truthy timestamp = false
  \/ exists e, parse_timestamp lib timestamp = Raise e.

(** A log entry (a dict) whose timestamp is absent or unusable. *)
Definition undated (lib : datetime_lib) (log : json) : Prop :=
  exists fields,
    log = JDict fields
    /\ unusable lib (Py.dict_get fields "timestamp" (JStr "")).

(** The entries of [sessions] of a graph, from the session [session] on:
    each is numbered by its position and holds the nodes that follow those
    of the session before, up to [stop] (excluded). *)
Fixpoint tiles (session start : nat) (infos : list session_info)
  (stop : nat) : Prop :=
  match infos with
  | [] => start = stop
  | info :: rest =>
      s_session_id info = session
      /\ s_node_start info = start
      /\ s_node_end info
         = Z.of_nat start + Z.of_nat (s_node_count info) - 1
      /\ tiles (S session) (start + s_node_count info) rest stop
  end.

(** The node at every position of the range of a session belongs to that
    session, at its position within the range. *)
Definition holds_nodes (g : workflow_graph) (info : session_info) : Prop :=
  forall j, (j < s_node_count info)%nat ->
    exists node,
      nodes g !! (s_node_start info + j)%nat = Some node
      /\ session_id node = s_session_id info
      /\ session_local_index node = j.

(** An edge of type [subagent_spawn]: from an entry to a later one, found
    at most an hour after it and not before it, with confidence 0.95. *)
Definition spawn_edge_ok (e : graph_edge) : Prop :=
  g_type e = "subagent_spawn"
  /\ (g_source e < g_target e)%nat
  /\ g_confidence e = (95 # 100)%Q
  /\ exists subagent_type task_tool_id spawn_time time_diff,
       g_metadata e
       = MSpawn subagent_type task_tool_id spawn_time time_diff "prompt_hash"
       /\ (0 <= time_diff)%Q /\ (time_diff <= 3600)%Q.

(** The three kinds of edges of the request graph, each with its fixed
    confidence. *)
Definition edge_kind_ok (e : graph_edge) : Prop :=
  (g_type e = "tool_result" /\ g_confidence e = 1%Q)
  \/ spawn_edge_ok e
  \/ (g_type e = "content_reuse" /\ (g_source e < g_target e)%nat
      /\ g_confidence e = (95 # 100)%Q).

(** The entries of a session that become nodes: those of the slice, cut
    down to the most recent ones when there are more than the cap. *)
Definition session_logs_of (sorted_logs : list json)
  (max_logs_per_session : Z) (session : nat * nat) : list json :=
  let session_logs := slice (fst session) (S (snd session)) sorted_logs in
  if max_logs_per_session <? Z.of_nat (List.length session_logs)
  then last_n max_logs_per_session session_logs
  else session_logs.

(** The loop of [detect_sessions] after the entries before position [i]:
    the sessions found so far reach up to the start of the current one,
    which lies before [i] once an entry has been read. *)
Definition scanned (lib : datetime_lib) (i : nat) (st : scan_state lib)
  : Prop :=
  covers 0 (sessions_so_far lib st) (current_session_start lib st)
  /\ (current_session_start lib st = 0%nat
      \/ (current_session_start lib st < i)%nat)
  /\ (prev_time lib st = None \/ (1 <= i)%nat).

End GraphForm.

(* ===================================================================== *)
(** * Inputs of the worked examples *)
(* ===================================================================== *)

Module Examples.
Import Tracker.

Definition text_message (role content : string) : json :=
  JDict [("role", JStr role); ("content", JStr content)].

Definition request (messages : list json) : json :=
  JDict [("messages", JList messages)].

(** A conversation of one turn, its continuation by two messages, and a
    replay of the first state. *)
Definition first_turn : json := request [text_message "user" "hi"].

Definition second_turn : json :=
  request [text_message "user" "hi"; text_message "assistant" "hello";
           text_message "user" "hi"].

Definition replay_of_earlier_state : list call :=
  [Identify 0 first_turn (JStr ""); Identify 1 second_turn (JStr "");
   Identify 2 first_turn (JStr "")].

(** A tool call and the requests that carry its result: request 1 brings
    the result, request 2 replays the history of request 1 and goes on. *)
Definition tool_use_block : json :=
  JDict [("type", JStr "tool_use"); ("id", JStr "toolu_1");
         ("name", JStr "Read"); ("input", JDict [("path", JStr "a.py")])].

Definition tool_result_block : json :=
  JDict [("type", JStr "tool_result"); ("tool_use_id", JStr "toolu_1");
         ("content", JStr "print(1)")].

Definition block_message (role : string) (blocks : list json) : json :=
  JDict [("role", JStr role); ("content", JList blocks)].

Definition turn_with_result : json :=
  request [text_message "user" "hi";
           block_message "assistant" [tool_use_block];
           block_message "user" [tool_result_block]].

Definition turn_after_result : json :=
  request [text_message "user" "hi";
           block_message "assistant" [tool_use_block];
           block_message "user" [tool_result_block];
           text_message "assistant" "done";
           text_message "user" "thanks"].

(** The calls the extraction pass makes for requests 0 and 1. *)
Definition tool_stream : list call :=
  [Identify 0 first_turn (JStr "");
   TrackToolUse 0 tool_use_block (JStr "");
   Identify 1 turn_with_result (JStr "");
   TrackToolUse 1 tool_use_block (JStr "");
   TrackToolResult 1 tool_result_block (JStr "")].

(** The calls it makes for request 2, whose history holds the same
    blocks. *)
Definition tool_stream_replay : list call :=
  [Identify 2 turn_after_result (JStr "");
   TrackToolUse 2 tool_use_block (JStr "");
   TrackToolResult 2 tool_result_block (JStr "")].

(** The same tool turn under two tool identifiers. *)
Definition tool_turn (tool_id : string) : json :=
  JList
    [text_message "user" "hi";
     block_message "assistant"
       [JDict [("type", JStr "tool_use"); ("id", JStr tool_id);
               ("name", JStr "Read"); ("input", JDict [("path", JStr "a.py")])]];
     block_message "user"
       [JDict [("type", JStr "tool_result"); ("tool_use_id", JStr tool_id);
               ("content", JStr "print(1)")]]].

(** An agent answers; its answer is the opening message of another
    conversation. *)
Definition reuse_stream : list call :=
  [Identify 0 (request [text_message "user" "summarise"]) (JStr "");
   TrackResponseContent 0
     (JList [JDict [("type", JStr "text"); ("text", JStr "the summary")]])
     (JStr "");
   Identify 1 (request [text_message "user" "the summary"]) (JStr "");
   TrackRequestContent 1 (JList [text_message "user" "the summary"])
     (JStr "")].

(** An agent with two requests. *)
Definition two_requests : list call :=
  [Identify 0 first_turn (JStr ""); Identify 1 first_turn (JStr "")].

(** ** Log entries *)

Definition log_entry (ts : string) (messages response : list json) : json :=
  JDict [("timestamp", JStr ts);
         ("body", JDict [("messages", JList messages)]);
         ("response", JDict [("body", JDict [("content", JList response)])])].

Definition text_block (text : string) : json :=
  JDict [("type", JStr "text"); ("text", JStr text)].

(** Two sessions an hour apart; each holds a tool call with the same
    identifier [toolu_1] and its result. *)
Definition two_sessions : list json :=
  [log_entry "2026-01-10T12:00:00" [block_message "user" [text_block "go"]]
     [tool_use_block];
   log_entry "2026-01-10T12:00:05" [block_message "user" [tool_result_block]]
     [text_block "done"];
   log_entry "2026-01-10T13:00:00" [block_message "user" [text_block "more"]]
     [tool_use_block];
   log_entry "2026-01-10T13:00:05" [block_message "user" [tool_result_block]]
     [text_block "done again"]].

(** A response whose text comes back as the input of the next request. *)
Definition reused_text : list json :=
  [log_entry "2026-01-10T12:00:00" [text_message "user" "summarise"]
     [text_block "the summary"];
   log_entry "2026-01-10T12:00:05" [text_message "user" "the summary"] []].

Definition task_block : json :=
  JDict [("type", JStr "tool_use"); ("id", JStr "toolu_task");
         ("name", JStr "Task");
         ("input", JDict [("subagent_type", JStr "Explore");
                          ("prompt", JStr "Investigate bug X")])].

Definition response_only (timestamp : list (string * json))
  (response : list json) : json :=
  JDict (timestamp
         ++ [("response",
              JDict [("body", JDict [("content", JList response)])])]).

(** A Task spawn in an entry that has no timestamp. *)
Definition spawn_without_timestamp : list json :=
  [response_only [] [task_block]].

(** A Task spawn in an entry whose timestamp is not a date. *)
Definition spawn_with_bad_timestamp : list json :=
  [response_only [("timestamp", JStr "yesterday")] [task_block]].

(** A Task spawn followed by an entry that has no timestamp. *)
Definition candidate_without_timestamp : list json :=
  [response_only [("timestamp", JStr "2026-01-10T12:00:00")] [task_block];
   JDict [("body", JDict [("messages",
                           JList [text_message "user" "Investigate bug X"])])]].

(** The same spawn followed by the agent it started, four seconds later. *)
Definition spawn_and_child : list json :=
  [response_only [("timestamp", JStr "2026-01-10T12:00:00")] [task_block];
   log_entry "2026-01-10T12:00:04" [text_message "user" "Investigate bug X"]
     []].

End Examples.

(* ===================================================================== *)
(** * Specification vocabulary: the state of the tracker *)
(* ===================================================================== *)

Module TrackerForm.
Import Tracker TrackerSpec.

(** ** What [identify_or_create_agent] assigns *)

(** The agent object after the first assignments of the replay branch and
    of the continuation branch: the request is appended and is the last
    one, and in a continuation the fingerprint is the new one. *)
Definition half_appended (request_id : Z) (fingerprint : option string)
  (a : AgentInstance) : AgentInstance :=
  let a' := set_last_request_id (Some request_id)
              (set_requests (requests a ++ [request_id]) a) in
  match fingerprint with
  | Some fp => set_conversation_fingerprint fp a'
  | None => a'
  end.

(** The agent object after all the assignments of these branches. *)
Definition appended (request_id : Z) (fingerprint : option string)
  (n : nat) (timestamp : json) (a : AgentInstance) : AgentInstance :=
  let a' := half_appended request_id fingerprint a in
  set_timestamps (timestamps a' ++ [timestamp])
    (set_message_count_history (message_count_history a' ++ [n]) a').

(** What the two spawn checks of the new-agent branch find: the task or
    tool identifier and the parent agent. *)
Definition spawn_of (t : AgentInstanceTracker) (first_user_msg : json)
  : result (option (json * string)) :=
  let? spawning_info := detect_task_spawn t first_user_msg in
  match spawning_info with
  | Some info => Ok (Some (tp_task_id info, tp_parent_agent_id info))
  | None =>
      let? tool_spawn_info := detect_tool_spawn t first_user_msg in
      Ok (match tool_spawn_info with
          | Some info => Some (ci_tool_use_id info, ci_parent_agent_id info)
          | None => None
          end)
  end.

(** The agents after the new agent was added to the child list of its
    parent. *)
Definition linked (parent_id agent_id : string)
  (agents : list (string * AgentInstance)) : list (string * AgentInstance) :=
  match alist_get parent_id agents with
  | Some parent =>
      if negb (bool_decide (parent_id = ""))
         && negb (bool_decide (agent_id ∈ child_agent_ids parent))
      then alist_update parent_id
             (fun p => set_child_agent_ids (child_agent_ids p ++ [agent_id]) p)
             agents
      else agents
  | None => agents
  end.

(** What [linked] does to the agent stored under [k]. *)
Definition relink (parent_id agent_id k : string) (a : AgentInstance)
  : AgentInstance :=
  if bool_decide (k = parent_id)
     && negb (bool_decide (parent_id = ""))
     && negb (bool_decide (agent_id ∈ child_agent_ids a))
  then set_child_agent_ids (child_agent_ids a ++ [agent_id]) a
  else a.

(** The agents before the new one is stored, and what has become of the
    agent stored under [k]. *)
Definition before_store (spawn : option (json * string)) (child : string)
  (l : list (string * AgentInstance)) : list (string * AgentInstance) :=
  match spawn with
  | Some (_, parent) => linked parent child l
  | None => l
  end.

Definition regrown (spawn : option (json * string)) (child k : string)
  (a : AgentInstance) : AgentInstance :=
  match spawn with
  | Some (_, parent) => relink parent child k a
  | None => a
  end.

(** The agent object the new-agent branch stores. *)
Definition created (agent_id system_prompt_hash fingerprint : string)
  (request_id : Z) (n : nat) (first_user_msg timestamp : json)
  (spawn : option (json * string)) : AgentInstance :=
  mkAgent agent_id system_prompt_hash fingerprint [request_id]
    (Some request_id) (Some request_id) [n]
    (match spawn with Some (task, _) => task | None => JNull end)
    (match spawn with Some (_, parent) => Some parent | None => None end)
    first_user_msg [] [] [] [timestamp].

(** The outcomes of [identify_or_create_agent] on the tracker [t]. *)
Inductive identified (request_id : Z) (body timestamp : json)
  (t : AgentInstanceTracker) : AgentInstanceTracker -> result string -> Prop :=
| id_failed e :
    (* raised before anything was assigned *)
    identified request_id body timestamp t t (Raise e)
| id_replayed messages fp key a n :
    Py.get body "messages" (JList []) = Ok messages ->
    compute_conversation_fingerprint messages = Ok fp ->
    fingerprint_to_agent t !! fp = Some key ->
    alist_get key (instances t) = Some a ->
    Py.len messages = Ok n ->
    identified request_id body timestamp t
      (set_request_to_agent (<[request_id := key]> (request_to_agent t))
         (set_instances
            (alist_update key (appended request_id None n timestamp)
               (instances t)) t))
      (Ok key)
| id_replayed_unsized messages fp key a e :
    Py.get body "messages" (JList []) = Ok messages ->
    compute_conversation_fingerprint messages = Ok fp ->
    fingerprint_to_agent t !! fp = Some key ->
    alist_get key (instances t) = Some a ->
    Py.len messages = Raise e ->
    identified request_id body timestamp t
      (set_instances
         (alist_update key (half_appended request_id None) (instances t)) t)
      (Raise e)
| id_continued messages system fp sph key a n :
    Py.get body "messages" (JList []) = Ok messages ->
    Py.get body "system" (JList []) = Ok system ->
    compute_system_prompt_hash system = Ok sph ->
    compute_conversation_fingerprint messages = Ok fp ->
    fingerprint_to_agent t !! fp = None ->
    find_parent_conversation t messages sph = Ok (Some key) ->
    alist_get key (instances t) = Some a ->
    Py.len messages = Ok n ->
    identified request_id body timestamp t
      (set_request_to_agent
         (<[request_id := agent_id a]> (request_to_agent t))
         (set_fingerprint_to_agent
            (<[fp := agent_id a]> (fingerprint_to_agent t))
            (set_instances
               (alist_update key (appended request_id (Some fp) n timestamp)
                  (instances t)) t)))
      (Ok (agent_id a))
| id_created messages system fp sph first_user_msg n spawn :
    Py.get body "messages" (JList []) = Ok messages ->
    Py.get body "system" (JList []) = Ok system ->
    compute_system_prompt_hash system = Ok sph ->
    compute_conversation_fingerprint messages = Ok fp ->
    fingerprint_to_agent t !! fp = None ->
    find_parent_conversation t messages sph = Ok None ->
    extract_first_user_message messages = Ok first_user_msg ->
    Py.len messages = Ok n ->
    spawn_of t first_user_msg = Ok spawn ->
    identified request_id body timestamp t
      (set_request_to_agent
         (<[request_id := agent_name (agent_counter t)]> (request_to_agent t))
         (set_fingerprint_to_agent
            (<[fp := agent_name (agent_counter t)]> (fingerprint_to_agent t))
            (set_instances
               (alist_set (agent_name (agent_counter t))
                  (created (agent_name (agent_counter t)) sph fp request_id n
                     first_user_msg timestamp spawn)
                  (match spawn with
                   | Some (_, parent) =>
                       linked parent (agent_name (agent_counter t))
                         (instances t)
                   | None => instances t
                   end))
               (set_agent_counter (S (agent_counter t)) t))))
      (Ok (agent_name (agent_counter t))).

(** ** The invariant of the tracker *)

(** The bookkeeping of the agent stored under [k]. *)
Record agent_ok (k : string) (a : AgentInstance) : Prop := mkAgentOk {
  ok_id : agent_id a = k;
  ok_first : first_request_id a = head (requests a);
  ok_last : last_request_id a = last (requests a);
  ok_some : requests a <> [];
  ok_stamps :
    List.length (message_count_history a) = List.length (timestamps a);
  ok_counts :
    (List.length (message_count_history a) <= List.length (requests a))%nat
}.

(** The child list of the agent stored under [p]: no agent twice, and
    every child is an agent that was created after [p] and that names [p]
    as its parent. *)
Definition children_ok (t : AgentInstanceTracker) (p : string)
  (pa : AgentInstance) : Prop :=
  NoDup (child_agent_ids pa)
  /\ forall c, In c (child_agent_ids pa) ->
       exists i j ca,
         p = agent_name i /\ c = agent_name j /\ (i < j)%nat
         /\ alist_get c (instances t) = Some ca
         /\ parent_agent_id ca = Some p.

Record WF (t : AgentInstanceTracker) : Prop := mkWF {
  wf_ids : agent_ids t = List.map agent_name (seq 0 (agent_counter t));
  wf_agents :
    forall k a, alist_get k (instances t) = Some a -> agent_ok k a;
  wf_requests :
    forall rid k, request_to_agent t !! rid = Some k ->
      exists a, alist_get k (instances t) = Some a /\ In rid (requests a);
  wf_fingerprints :
    forall fp k, fingerprint_to_agent t !! fp = Some k -> has_agent t k;
  wf_current :
    forall k a, alist_get k (instances t) = Some a ->
      fingerprint_to_agent t !! conversation_fingerprint a = Some k;
  wf_children :
    forall p pa, alist_get p (instances t) = Some pa -> children_ok t p pa
}.

(** An agent without its tool uses and tool results. *)
Definition core (a : AgentInstance) : AgentInstance :=
  set_tool_results [] (set_tool_uses [] a).

(** What the calls other than [identify_or_create_agent] leave alone: the
    three agent indexes, the counter, and all of every agent but its tool
    uses and tool results. *)
Record Idle (t t' : AgentInstanceTracker) : Prop := mkIdle {
  idle_fingerprint : fingerprint_to_agent t' = fingerprint_to_agent t;
  idle_requests : request_to_agent t' = request_to_agent t;
  idle_counter : agent_counter t' = agent_counter t;
  idle_ids : agent_ids t' = agent_ids t;
  idle_agents :
    forall k, core <$> alist_get k (instances t')
              = core <$> alist_get k (instances t)
}.


(** What the indexes say of the agents. *)
Definition request_index_ok (t : AgentInstanceTracker) : Prop :=
  map_Forall
    (fun request_id k =>
       exists a, alist_get k (instances t) = Some a
                 /\ In request_id (requests a))
    (request_to_agent t).

Definition fingerprint_index_ok (t : AgentInstanceTracker) : Prop :=
  map_Forall (fun _ k => has_agent t k) (fingerprint_to_agent t).

Definition current_fingerprints_ok (t : AgentInstanceTracker) : Prop :=
  Forall
    (fun entry : string * AgentInstance =>
       fingerprint_to_agent t !! conversation_fingerprint (snd entry)
       = Some (fst entry))
    (instances t).

(** What a call that raised has left of the agent indexes. *)
Definition nothing_registered (t t' : AgentInstanceTracker) : Prop :=
  agent_counter t' = agent_counter t
  /\ agent_ids t' = agent_ids t
  /\ fingerprint_to_agent t' = fingerprint_to_agent t
  /\ request_to_agent t' = request_to_agent t.

(** ** Agents over time *)

(** A later state of an agent: what was fixed at its creation is the
    same, and its lists have only been appended to. *)
Record aged (a a' : AgentInstance) : Prop := mkAged {
  aged_id : agent_id a' = agent_id a;
  aged_system : system_prompt_hash a' = system_prompt_hash a;
  aged_first : first_request_id a' = first_request_id a;
  aged_message : first_user_message a' = first_user_message a;
  aged_task : spawned_by_task_id a' = spawned_by_task_id a;
  aged_parent : parent_agent_id a' = parent_agent_id a;
  aged_requests : requests a `prefix_of` requests a';
  aged_history :
    message_count_history a `prefix_of` message_count_history a';
  aged_timestamps : timestamps a `prefix_of` timestamps a';
  aged_children : child_agent_ids a `prefix_of` child_agent_ids a';
  aged_tool_uses : tool_uses a `prefix_of` tool_uses a';
  aged_tool_results : tool_results a `prefix_of` tool_results a'
}.

Definition Aged (t t' : AgentInstanceTracker) : Prop :=
  forall k a, alist_get k (instances t) = Some a ->
    exists a', alist_get k (instances t') = Some a' /\ aged a a'.

(** ** Tool uses and edges *)

(** An edge the tracker holds: the result of a tool call, from the agent
    and the request under which the tool identifier is indexed; a reuse of
    content; or the step from one request of an agent to its next. *)
Definition tracked_edge_ok (t : AgentInstanceTracker) (e : workflow_edge)
  : Prop :=
  (e_type e = "tool_result" /\ e_confidence e = 1%Q
   /\ exists tool_use_id key info is_error,
        hash_key tool_use_id = Ok key
        /\ tool_use_index t !! key = Some info
        /\ e_extra e = XToolResult tool_use_id (tui_tool_name info) is_error
        /\ e_source_agent_id e = tui_agent_id info
        /\ e_source_request_id e = Some (tui_request_id info))
  \/ (e_type e = "content_reuse" /\ good_edge e)
  \/ (e_type e = "request_sequence" /\ e_confidence e = 1%Q
      /\ e_source_agent_id e = e_target_agent_id e).

(** What a call keeps of the tool index and adds to the edges. *)
Record Tracked (t t' : AgentInstanceTracker) : Prop := mkTracked {
  tracked_index : tool_use_index t ⊆ tool_use_index t';
  tracked_edges :
    exists new, workflow_edges t' = workflow_edges t ++ new
                /\ Forall (tracked_edge_ok t') new
}.

(** A call that leaves the tool index alone and emits edges of one kind. *)
Definition Emits (P : workflow_edge -> Prop) (t t' : AgentInstanceTracker)
  : Prop :=
  tool_use_index t' = tool_use_index t
  /\ exists new, workflow_edges t' = workflow_edges t ++ new /\ Forall P new.

Definition reuse_kind (e : workflow_edge) : Prop :=
  e_type e = "content_reuse" /\ good_edge e.

Definition sequence_kind (e : workflow_edge) : Prop :=
  e_type e = "request_sequence" /\ e_confidence e = 1%Q
  /\ e_source_agent_id e = e_target_agent_id e.

(** ** The exported DAG *)

(** [if agent.parent_agent_id:] read off a node. *)
Definition has_parent (n : dag_node) : bool :=
  match n_parent_agent_id n with
  | Some parent => negb (bool_decide (parent = ""))
  | None => false
  end.

(** What the DAG built on the tracker [t] says of the agents and of the
    edges. *)
Record dag_ok (t : AgentInstanceTracker) (dag : workflow_dag) : Prop :=
  mkDagOk {
  dag_ids :
    List.map n_id (dag_nodes dag)
    = List.map agent_name (seq 0 (agent_counter t));
  dag_total_agents : m_total_agents (dag_metrics_of dag) = agent_counter t;
  dag_total_edges :
    m_total_edges (dag_metrics_of dag) = List.length (dag_edges dag);
  dag_edge_counts :
    m_total_edges (dag_metrics_of dag)
    = (m_spawn_edges (dag_metrics_of dag)
       + m_tool_result_edges (dag_metrics_of dag)
       + m_content_reuse_edges (dag_metrics_of dag)
       + m_request_sequence_edges (dag_metrics_of dag))%nat;
  dag_spawn_count :
    m_spawn_edges (dag_metrics_of dag)
    = List.length (List.filter has_parent (dag_nodes dag));
  dag_roots :
    (m_root_agents (dag_metrics_of dag) + m_spawn_edges (dag_metrics_of dag)
     <= m_total_agents (dag_metrics_of dag))%nat
}.

(** The one of the four kinds of edges an edge has. *)
Definition known_type (e : workflow_edge) : Prop :=
  e_type e = "subagent_spawn" \/ e_type e = "tool_result"
  \/ e_type e = "content_reuse" \/ e_type e = "request_sequence".

(** ** The views of the agents *)

(** The dictionary [get_agent_tree] returns. *)
#[warnings="-register-all"]
Inductive agent_tree : Type :=
| AgentTree (tree_agent_id : string) (tree_agent_type : string)
    (tree_depth : Z) (tree_request_count : nat)
    (tree_children : list agent_tree).

Definition tree_id (tree : agent_tree) : string :=
  match tree with AgentTree agent_id _ _ _ _ => agent_id end.

Definition tree_depth_of (tree : agent_tree) : Z :=
  match tree with AgentTree _ _ depth _ _ => depth end.

Definition tree_children_of (tree : agent_tree) : list agent_tree :=
  match tree with AgentTree _ _ _ _ children => children end.

(** [get_agent_tree]: the recursion follows the child lists, so the model
    counts the nested calls down from [fuel]; the outer [None] is a
    recursion that did not end within [fuel] calls, the inner one the
    [None] the method returns for an unknown agent.  A child whose tree is
    [None] is left out. *)
Fixpoint get_agent_tree (fuel : nat) (t : AgentInstanceTracker)
  (root_agent_id : string) (depth : Z) : option (option agent_tree) :=
  match fuel with
  | O => None
  | S fuel' =>
      match alist_get root_agent_id (instances t) with
      | None => Some None
      | Some agent =>
          match mapM (fun child_id =>
                        get_agent_tree fuel' t child_id (depth + 1))
                  (child_agent_ids agent) with
          | None => None
          | Some child_trees =>
              Some (Some (AgentTree (agent_id agent)
                            (system_prompt_hash agent) depth
                            (List.length (requests agent))
                            (omap id child_trees)))
          end
      end
  end.

(** What [get_agent_tree] returned for [root]: nothing for an unknown
    agent; else the tree of that agent at the depth asked for, with one
    subtree for each of its children, in the order of its child list and
    one level deeper. *)
Definition tree_ok (t : AgentInstanceTracker) (root : string) (depth : Z)
  (result : option agent_tree) : Prop :=
  match alist_get root (instances t), result with
  | None, None => True
  | Some agent, Some tree =>
      tree_id tree = root /\ tree_depth_of tree = depth
      /\ List.map tree_id (tree_children_of tree) = child_agent_ids agent
      /\ Forall (fun child => tree_depth_of child = depth + 1)
           (tree_children_of tree)
  | _, _ => False
  end.

(** The body of the loop of [get_agent_hierarchy]. *)
Definition hierarchy_step (hierarchy : list (string * list string))
  (entry : string * AgentInstance) : list (string * list string) :=
  match parent_agent_id (snd entry) with
  | Some parent =>
      if bool_decide (parent = "") then hierarchy
      else alist_set parent
             (default [] (alist_get parent hierarchy) ++ [fst entry])
             hierarchy
  | None => hierarchy
  end.

(** [get_agent_hierarchy]: the agents with a parent, grouped by parent, in
    the order of the first child of each parent. *)
Definition get_agent_hierarchy (t : AgentInstanceTracker)
  : list (string * list string) :=
  fold_left hierarchy_step (instances t) [].

(** [c] is listed under [p]. *)
Definition listed (hierarchy : list (string * list string)) (p c : string)
  : Prop :=
  exists cs, alist_get p hierarchy = Some cs /\ In c cs.

(** The hierarchy and the agents: who is listed under [p] is an agent that
    names [p] as its parent, and every child in the child list of [p] is
    listed under [p]. *)
Definition hierarchy_ok (t : AgentInstanceTracker) : Prop :=
  (forall p c, listed (get_agent_hierarchy t) p c ->
     exists a, alist_get c (instances t) = Some a
               /\ parent_agent_id a = Some p)
  /\ (forall p pa c, alist_get p (instances t) = Some pa ->
        In c (child_agent_ids pa) -> listed (get_agent_hierarchy t) p c).

End TrackerForm.

(* ===================================================================== *)
(** * Checks of the embedding against the reference implementation *)
(* ===================================================================== *)

Example sha256_abc :
  Sha256.hexdigest "abc"
  = "ba7816bf8f01cfea414140de5dae2223b00361a396177a9cb410ff61f20015ad".
Proof. vm_compute. reflexivity. Qed.

Example sha256_empty :
  Sha256.hexdigest ""
  = "e3b0c44298fc1c149afbf4c8996fb92427ae41e4649b934ca495991b7852b855".
Proof. vm_compute. reflexivity. Qed.

Example fingerprint_empty :
  compute_conversation_fingerprint (JList []) = Ok "2e1cfa82b035c26c".
Proof. vm_compute. reflexivity. Qed.

Example fingerprint_hi :
  compute_conversation_fingerprint
    (JList [JDict [("role", JStr "user"); ("content", JStr "hi")]])
  = Ok "a9d586ee677f7c66".
Proof. vm_compute. reflexivity. Qed.

Example fingerprint_tool_turn :
  compute_conversation_fingerprint
    (JList
       [JDict [("role", JStr "assistant");
               ("content",
                JList [JDict [("type", JStr "tool_use"); ("id", JStr "t1");
                              ("name", JStr "Bash");
                              ("input",
                               JDict [("command", JStr "ls -l 'a'");
                                      ("n", JNum 3); ("flag", JBool true);
                                      ("x", JNull);
                                      ("l", JList [JNum 1; JStr "b"])])]])];
        JDict [("role", JStr "user");
               ("content",
                JList [JDict [("type", JStr "tool_result");
                              ("tool_use_id", JStr "t1");
                              ("content",
                               JList [JDict [("type", JStr "text");
                                             ("text", JStr "ok")]])]])]])
  = Ok "262e5263bf7d61c0".
Proof. vm_compute. reflexivity. Qed.

Example normalize_command_find :
  normalize_command (JStr "find . -name *.py 2>/dev/null | head -5")
  = Ok "findnamepy2devnullhead5".
Proof. vm_compute. reflexivity. Qed.

Example extract_command_simple :
  extract_command_from_message
    (JStr (Str.of_list (Str.to_list "Policy text" ++ [Re.newline]
                        ++ Str.to_list "Command:   ls -la /tmp  "
                        ++ [Re.newline] ++ Str.to_list "Output: x")))
  = Ok (Some "ls -la /tmp").
Proof. vm_compute. reflexivity. Qed.

Example extract_command_heredoc :
  extract_command_from_message
    (JStr (Str.of_list (Str.to_list "Command: git commit -m $(cat <<'EOF'"
                        ++ [Re.newline] ++ Str.to_list "fix bug"
                        ++ [Re.newline] ++ Str.to_list "EOF"
                        ++ [Re.newline] ++ Str.to_list ")"
                        ++ [Re.newline] ++ Str.to_list "Output: done")))
  = Ok (Some (Str.of_list (Str.to_list "git commit -m $(cat <<'EOF'"
                           ++ [Re.newline] ++ Str.to_list "fix bug"
                           ++ [Re.newline] ++ Str.to_list "EOF"
                           ++ [Re.newline] ++ Str.to_list ")"))).
Proof. vm_compute. reflexivity. Qed.

Example extract_command_backtracking :
  extract_command_from_message
    (JStr (Str.of_list (Str.to_list "Command: cat <<EOF"
                        ++ [Re.newline] ++ Str.to_list "foo"
                        ++ [Re.newline] ++ Str.to_list "EOF )x"
                        ++ [Re.newline] ++ Str.to_list "EOF "
                        ++ [Re.newline] ++ Str.to_list " )"
                        ++ [Re.newline; Re.newline] ++ Str.to_list "  tail")))
  = Ok (Some (Str.of_list (Str.to_list "cat <<EOF"
                           ++ [Re.newline] ++ Str.to_list "foo"
                           ++ [Re.newline] ++ Str.to_list "EOF )x"
                           ++ [Re.newline] ++ Str.to_list "EOF "
                           ++ [Re.newline] ++ Str.to_list " )"))).
Proof. vm_compute. reflexivity. Qed.

Example extract_command_unclosed :
  extract_command_from_message
    (JStr (Str.of_list (Str.to_list "Command: cat <<EOF"
                        ++ [Re.newline] ++ Str.to_list "foo"
                        ++ [Re.newline] ++ Str.to_list "EOFX"
                        ++ [Re.newline])))
  = Ok (Some "cat <<EOF").
Proof. vm_compute. reflexivity. Qed.

Example clock_epoch :
  Clock.parse "2026-01-10T12:00:00+00:00" = Some (Clock.Instant true 1768046400).
Proof. vm_compute. reflexivity. Qed.

(* ===================================================================== *)
(** * Rules for methods *)
(* ===================================================================== *)

Module HoareRules.
Import Hoare.

Section Rules.
Context {S : Type}.

Lemma wp_ret {A} (a : A) (Q : A -> S -> Prop) E s :
  Q a s -> wp (ret a) Q E s.
Proof. intros H. exact H. Qed.

Lemma wp_bind {A B} (m : PyM S A) (k : A -> PyM S B) Q E s :
  wp m (fun a s' => wp (k a) Q E s') E s -> wp (bind m k) Q E s.
Proof.
  unfold wp, bind. destruct (m s) as [s' [a|e]]; intros H; exact H.
Qed.

Lemma wp_lift {A} (r : result A) (Q : A -> S -> Prop) E s :
  (forall a, r = Ok a -> Q a s) -> (forall e, r = Raise e -> E e s) ->
  wp (lift r) Q E s.
Proof. unfold wp, lift. destruct r; intros HQ HE; auto. Qed.

Lemma wp_gets {A} (f : S -> A) (Q : A -> S -> Prop) E s :
  Q (f s) s -> wp (gets f) Q E s.
Proof. intros H. exact H. Qed.

Lemma wp_reads {A} (f : S -> result A) (Q : A -> S -> Prop) E s :
  (forall a, f s = Ok a -> Q a s) -> (forall e, f s = Raise e -> E e s) ->
  wp (reads f) Q E s.
Proof. unfold wp, reads. destruct (f s); intros HQ HE; auto. Qed.

Lemma wp_modify (f : S -> S) (Q : unit -> S -> Prop) E s :
  Q tt (f s) -> wp (modify f) Q E s.
Proof. intros H. exact H. Qed.

Lemma wp_mono {A} (m : PyM S A) (Q Q' : A -> S -> Prop)
  (E E' : exn -> S -> Prop) s :
  wp m Q E s ->
  (forall a s', Q a s' -> Q' a s') -> (forall e s', E e s' -> E' e s') ->
  wp m Q' E' s.
Proof.
  unfold wp. destruct (m s) as [s' [a|e]]; intros H HQ HE; auto.
Qed.

Lemma wp_run {A} (m : PyM S A) Q E s s' r :
  wp m Q E s -> m s = (s', r) ->
  match r with Ok a => Q a s' | Raise e => E e s' end.
Proof. unfold wp. intros H Hm. rewrite Hm in H. exact H. Qed.

Lemma wp_keeps {A} (R : S -> S -> Prop) (m : PyM S A) s :
  keeps R m -> wp m (fun _ s' => R s s') (fun _ s' => R s s') s.
Proof.
  intros H. specialize (H s). unfold wp.
  destruct (m s) as [s' [a|e]]; exact H.
Qed.

Section Keeps.
Context (R : S -> S -> Prop) `{!PreOrder R}.

Lemma keeps_ret {A} (a : A) : keeps R (ret a).
Proof. intros s. reflexivity. Qed.

Lemma keeps_lift {A} (r : result A) : keeps R (lift r).
Proof. intros s. reflexivity. Qed.

Lemma keeps_gets {A} (f : S -> A) : keeps R (gets f).
Proof. intros s. reflexivity. Qed.

Lemma keeps_reads {A} (f : S -> result A) : keeps R (reads f).
Proof. intros s. reflexivity. Qed.

Lemma keeps_modify (f : S -> S) : (forall s, R s (f s)) -> keeps R (modify f).
Proof. intros H s. apply H. Qed.

Lemma keeps_bind {A B} (m : PyM S A) (k : A -> PyM S B) :
  keeps R m -> (forall a, keeps R (k a)) -> keeps R (bind m k).
Proof.
  intros Hm Hk s. unfold bind. specialize (Hm s).
  destruct (m s) as [s' [a|e]]; simpl in *; [|exact Hm].
  etransitivity; [exact Hm|apply Hk].
Qed.

Lemma keeps_for_each {A} (body : A -> PyM S unit) (xs : list A) :
  (forall x, keeps R (body x)) -> keeps R (for_each body xs).
Proof.
  intros Hbody. induction xs as [|x xs IH]; simpl.
  - apply keeps_ret.
  - apply keeps_bind; [apply Hbody|intros _; exact IH].
Qed.

End Keeps.

End Rules.

(** One step of a proof that a method keeps a relation: a rule of the
    monad, or a case analysis on what the method branches on. *)
Ltac keeps_step :=
  lazymatch goal with
  | |- keeps ?R (ret _) => apply (keeps_ret R)
  | |- keeps ?R (lift _) => apply (keeps_lift R)
  | |- keeps ?R (gets _) => apply (keeps_gets R)
  | |- keeps ?R (reads _) => apply (keeps_reads R)
  | |- keeps ?R (bind _ _) => apply (keeps_bind R); [|intros ?]
  | |- keeps ?R (for_each _ _) => apply (keeps_for_each R); intros ?
  | |- keeps _ (match ?x with _ => _ end) => destruct x
  | |- keeps _ (if ?b then _ else _) => destruct b
  | |- keeps _ (let (_, _) := ?x in _) => destruct x
  end.

(** One step of a proof about what a method returns and leaves. *)
Ltac wp_step :=
  lazymatch goal with
  | |- wp (ret _) _ _ _ => apply wp_ret
  | |- wp (bind _ _) _ _ _ => apply wp_bind
  | |- wp (lift _) _ _ _ => apply wp_lift; intros ? ?
  | |- wp (gets _) _ _ _ => apply wp_gets
  | |- wp (reads _) _ _ _ => apply wp_reads; intros ? ?
  | |- wp (modify _) _ _ _ => apply wp_modify
  | |- wp (match ?x with _ => _ end) _ _ _ => destruct x eqn:?
  | |- wp (if ?b then _ else _) _ _ _ => destruct b eqn:?
  end.

End HoareRules.

(* ===================================================================== *)
(** * Properties of the fingerprint *)
(* ===================================================================== *)

Module FingerprintProofs.
Import FingerprintSpec.

Lemma assoc_remove_key k k' d :
  k' <> k -> Py.assoc k' (remove_key k d) = Py.assoc k' d.
Proof.
  intros Hne. induction d as [|[k0 v] d IH]; simpl; [reflexivity|].
  destruct (bool_decide_reflect (k0 = k)) as [->|Hk0]; simpl.
  - rewrite IH. rewrite bool_decide_eq_false_2; [reflexivity|congruence].
  - rewrite IH. reflexivity.
Qed.

Lemma dict_get_remove_key k k' d dflt :
  k' <> k -> Py.dict_get (remove_key k d) k' dflt = Py.dict_get d k' dflt.
Proof. intros Hne. unfold Py.dict_get. by rewrite assoc_remove_key. Qed.

Lemma block_signature_erase b :
  block_signature (erase_block_id b) = block_signature b.
Proof.
  destruct b as [| | | | |d]; try reflexivity.
  unfold erase_block_id, id_field.
  destruct (Py.is_str (Py.dict_get d "type" (JStr "unknown")) "tool_use")
    eqn:Huse.
  - unfold block_signature.
    rewrite !dict_get_remove_key; [reflexivity | discriminate ..].
  - destruct (Py.is_str (Py.dict_get d "type" (JStr "unknown")) "tool_result")
      eqn:Hres; [|reflexivity].
    unfold block_signature.
    rewrite !dict_get_remove_key; [reflexivity | discriminate ..].
Qed.

Lemma block_signatures_erase bs :
  block_signatures (List.map erase_block_id bs) = block_signatures bs.
Proof.
  induction bs as [|b bs IH]; simpl; [reflexivity|].
  by rewrite block_signature_erase, IH.
Qed.

Lemma normalize_content_erase c :
  block_signatures (normalize_content (erase_content_ids c))
  = block_signatures (normalize_content c).
Proof.
  destruct c; try reflexivity. simpl. apply block_signatures_erase.
Qed.

Lemma assoc_erase_other k d :
  k <> "content" ->
  Py.assoc k
    (List.map (fun kv : string * json =>
                 if bool_decide (fst kv = "content")
                 then (fst kv, erase_content_ids (snd kv)) else kv) d)
  = Py.assoc k d.
Proof.
  intros Hne. induction d as [|[k0 v] d IH]; simpl; [reflexivity|].
  destruct (bool_decide_reflect (k0 = "content")) as [->|Hk0]; simpl.
  - rewrite bool_decide_eq_false_2 by congruence. apply IH.
  - rewrite IH. reflexivity.
Qed.

Lemma assoc_erase_content d :
  Py.assoc "content"
    (List.map (fun kv : string * json =>
                 if bool_decide (fst kv = "content")
                 then (fst kv, erase_content_ids (snd kv)) else kv) d)
  = erase_content_ids <$> Py.assoc "content" d.
Proof.
  induction d as [|[k0 v] d IH]; simpl; [reflexivity|].
  destruct (bool_decide_reflect (k0 = "content")) as [->|Hk0]; simpl.
  - reflexivity.
  - rewrite bool_decide_eq_false_2 by congruence. apply IH.
Qed.

Lemma message_signature_erase m :
  message_signature (erase_message_ids m) = message_signature m.
Proof.
  destruct m as [| | | | |d]; try reflexivity.
  unfold message_signature, erase_message_ids, Py.get, Py.dict_get. simpl.
  rewrite (assoc_erase_other "role"); [|discriminate].
  rewrite assoc_erase_content.
  destruct (Py.assoc "content" d) as [c|]; simpl; [|reflexivity].
  by rewrite normalize_content_erase.
Qed.

Lemma rmap_message_signature_erase ms :
  rmap message_signature (List.map erase_message_ids ms)
  = rmap message_signature ms.
Proof.
  induction ms as [|m ms IH]; simpl; [reflexivity|].
  by rewrite message_signature_erase, IH.
Qed.

Lemma fingerprint_erase_ids messages :
  compute_conversation_fingerprint (erase_ids messages)
  = compute_conversation_fingerprint messages.
Proof.
  destruct messages as [| | | | ms|]; try reflexivity.
  unfold compute_conversation_fingerprint, erase_ids.
  destruct ms as [|m ms]; [reflexivity|].
  change (Py.truthy (JList (m :: ms))) with true.
  change (Py.truthy (JList (List.map erase_message_ids (m :: ms))))
    with true.
  cbv beta iota delta [negb Py.iter rbind].
  by rewrite rmap_message_signature_erase.
Qed.

(** C8. Two message lists that are identical except for the [id] fields of
    their [tool_use] blocks and the [tool_use_id] fields of their
    [tool_result] blocks have the same conversation fingerprint (the same
    hash, or the same exception). *)
Theorem fingerprint_ignores_tool_ids (messages messages' : json) :
  erase_ids messages = erase_ids messages' ->
  compute_conversation_fingerprint messages
  = compute_conversation_fingerprint messages'.
Proof.
  intros Heq.
  rewrite <- (fingerprint_erase_ids messages).
  rewrite <- (fingerprint_erase_ids messages').
  by rewrite Heq.
Qed.

(** The theorem at a tool turn recorded under two identifiers. *)
Lemma fingerprint_ignores_tool_ids_witness :
  Examples.tool_turn "toolu_1" <> Examples.tool_turn "toolu_9"
  /\ erase_ids (Examples.tool_turn "toolu_1")
     = erase_ids (Examples.tool_turn "toolu_9")
  /\ compute_conversation_fingerprint (Examples.tool_turn "toolu_1")
     = compute_conversation_fingerprint (Examples.tool_turn "toolu_9").
Proof.
  split; [discriminate|]. split; [reflexivity|].
  apply (fingerprint_ignores_tool_ids (Examples.tool_turn "toolu_1")
           (Examples.tool_turn "toolu_9")).
  reflexivity.
Defined.

End FingerprintProofs.

(* ===================================================================== *)
(** * Properties of the tracker *)
(* ===================================================================== *)

Module TrackerProofs.
Import Tracker TrackerSpec Hoare HoareRules.

(** ** Dictionaries in insertion order *)

Lemma alist_get_update {V} k key (f : V -> V) l :
  alist_get k (alist_update key f l)
  = if bool_decide (key = k) then f <$> alist_get k l else alist_get k l.
Proof.
  induction l as [|[k0 v] l IH]; simpl.
  - by destruct (bool_decide (key = k)).
  - destruct (bool_decide_reflect (k0 = key)) as [->|Hne]; simpl.
    + destruct (bool_decide_reflect (key = k)) as [->|Hk]; [reflexivity|].
      reflexivity.
    + destruct (bool_decide_reflect (k0 = k)) as [->|Hk].
      * by rewrite bool_decide_eq_false_2 by congruence.
      * exact IH.
Qed.

Lemma alist_keys_update {V} key (f : V -> V) l :
  List.map fst (alist_update key f l) = List.map fst l.
Proof.
  induction l as [|[k0 v] l IH]; simpl; [reflexivity|].
  destruct (bool_decide (k0 = key)); simpl; [reflexivity|by rewrite IH].
Qed.

Lemma alist_get_set {V} k key (v : V) l :
  alist_get k (alist_set key v l)
  = if bool_decide (key = k) then Some v else alist_get k l.
Proof.
  induction l as [|[k0 v0] l IH]; simpl.
  - reflexivity.
  - destruct (bool_decide_reflect (k0 = key)) as [->|Hne]; simpl.
    + destruct (bool_decide (key = k)); reflexivity.
    + destruct (bool_decide_reflect (k0 = k)) as [->|Hk].
      * by rewrite bool_decide_eq_false_2 by congruence.
      * exact IH.
Qed.

Lemma alist_keys_set_present {V} key (v : V) l :
  is_Some (alist_get key l) ->
  List.map fst (alist_set key v l) = List.map fst l.
Proof.
  induction l as [|[k0 v0] l IH]; simpl; intros [x Hx]; [discriminate|].
  destruct (bool_decide_reflect (k0 = key)) as [->|Hne]; simpl.
  - reflexivity.
  - rewrite IH; [reflexivity|by exists x].
Qed.

Lemma alist_get_Some_In {V} k (v : V) l :
  alist_get k l = Some v -> In (k, v) l.
Proof.
  induction l as [|[k0 v0] l IH]; simpl; [discriminate|].
  destruct (bool_decide_reflect (k0 = k)) as [->|Hne].
  - intros [= ->]. by left.
  - intros H. right. by apply IH.
Qed.

Lemma alist_get_keys {V} k (l : list (string * V)) :
  is_Some (alist_get k l) <-> In k (List.map fst l).
Proof.
  induction l as [|[k0 v0] l IH]; simpl.
  - split; [intros [x Hx]; discriminate|tauto].
  - destruct (bool_decide_reflect (k0 = k)) as [->|Hne].
    + split; [by left|by eexists].
    + rewrite IH. split; [by right|]. intros [?|?]; [congruence|done].
Qed.

(** ** Calls that leave the agent indexes alone *)

Lemma agent_agrees_refl x : agent_agrees x x.
Proof. by repeat split. Qed.

Lemma agent_agrees_trans x y z :
  agent_agrees x y -> agent_agrees y z -> agent_agrees x z.
Proof.
  intros (? & ? & ?) (? & ? & ?). repeat split; congruence.
Qed.

#[local] Instance Quiet_preorder : PreOrder Quiet.
Proof.
  split.
  - intros t. split; try reflexivity.
    + apply Forall_Forall2_diag, Forall_forall. intros x _.
      apply agent_agrees_refl.
    + exists []. by rewrite app_nil_r.
  - intros t1 t2 t3 [Hf1 Hc1 Ha1 (n1 & He1 & Hg1)] [Hf2 Hc2 Ha2 (n2 & He2 & Hg2)].
    split; try congruence.
    + eapply Forall2_trans; [|exact Ha1|exact Ha2].
      intros x y z. apply agent_agrees_trans.
    + exists (n1 ++ n2). split.
      * by rewrite He2, He1, app_assoc.
      * by apply Forall_app.
Qed.

Lemma Quiet_core t t' :
  fingerprint_to_agent t' = fingerprint_to_agent t ->
  agent_counter t' = agent_counter t ->
  instances t' = instances t ->
  workflow_edges t' = workflow_edges t ->
  Quiet t t'.
Proof.
  intros Hf Hc Hi He. split; auto.
  - rewrite Hi. apply Forall_Forall2_diag, Forall_forall. intros x _.
    apply agent_agrees_refl.
  - exists []. by rewrite app_nil_r.
Qed.

Lemma agrees_update key f l :
  (forall a, agent_id (f a) = agent_id a
             /\ message_count_history (f a) = message_count_history a) ->
  Forall2 agent_agrees l (alist_update key f l).
Proof.
  intros Hf. induction l as [|[k0 a] l IH]; simpl; [constructor|].
  destruct (bool_decide (k0 = key)).
  - constructor.
    + destruct (Hf a). by repeat split.
    + apply Forall_Forall2_diag, Forall_forall. intros x _.
      apply agent_agrees_refl.
  - constructor; [apply agent_agrees_refl|exact IH].
Qed.

Lemma Quiet_update key f :
  (forall a, agent_id (f a) = agent_id a
             /\ message_count_history (f a) = message_count_history a) ->
  keeps Quiet (update_instance key f).
Proof.
  intros Hf. apply (keeps_modify Quiet). intros t. split; try reflexivity.
  - simpl. by apply agrees_update.
  - exists []. by rewrite app_nil_r.
Qed.

Lemma Quiet_edges t new :
  Forall good_edge new ->
  Quiet t (set_workflow_edges (workflow_edges t ++ new) t).
Proof.
  intros Hnew. split; try reflexivity.
  - apply Forall_Forall2_diag, Forall_forall. intros x _.
    apply agent_agrees_refl.
  - by exists new.
Qed.

Lemma good_edge_other_type e :
  e_type e <> "content_reuse" -> good_edge e.
Proof. intros Hne Hty. contradiction. Qed.

Lemma good_reuse_edges sources agent_id request_id content_hash :
  Forall good_edge (reuse_edges sources agent_id request_id content_hash).
Proof.
  unfold reuse_edges. apply Forall_forall. intros e He.
  apply list_elem_of_In in He.
  apply in_map_iff in He as (src & <- & Hsrc).
  apply filter_In in Hsrc as [_ Hok].
  apply andb_true_iff in Hok as [Hlt Hne].
  intros _. simpl. split; [reflexivity|]. split.
  - apply negb_true_iff, bool_decide_eq_false in Hne. exact Hne.
  - exists (si_request_id src), request_id. repeat split. lia.
Qed.

(** Closes the obligation of an assignment that touches neither the agent
    indexes nor the edges. *)
Ltac quiet_assign := intros ?; apply Quiet_core; reflexivity.

Ltac quiet_methods :=
  repeat first
    [ keeps_step
    | apply (keeps_modify Quiet); quiet_assign
    | apply Quiet_update; intros ?; split; reflexivity ].

Lemma Quiet_get_instance k : keeps Quiet (get_instance k).
Proof. apply (keeps_reads Quiet). Qed.

Lemma Quiet_link_child parent child : keeps Quiet (link_child parent child).
Proof. unfold link_child. quiet_methods. Qed.

Lemma Quiet_register_task_prompt task_id prompt agent_id :
  keeps Quiet (register_task_prompt task_id prompt agent_id).
Proof. unfold register_task_prompt. quiet_methods. Qed.

Lemma Quiet_track_tool_use request_id block timestamp :
  keeps Quiet (track_tool_use request_id block timestamp).
Proof. unfold track_tool_use, get_instance. quiet_methods. Qed.

Lemma Quiet_track_tool_result request_id block timestamp :
  keeps Quiet (track_tool_result request_id block timestamp).
Proof.
  unfold track_tool_result, get_instance. quiet_methods.
  apply (keeps_modify Quiet). intros st. apply Quiet_edges.
  apply Forall_cons; split; [|constructor].
  apply good_edge_other_type. simpl. discriminate.
Qed.

Lemma Quiet_track_response_content request_id blocks timestamp :
  keeps Quiet (track_response_content request_id blocks timestamp).
Proof. unfold track_response_content. quiet_methods. Qed.

Lemma Quiet_match_text agent_id request_id text :
  keeps Quiet (match_text agent_id request_id text).
Proof.
  unfold match_text. quiet_methods.
  apply (keeps_modify Quiet). intros st. apply Quiet_edges, good_reuse_edges.
Qed.

Lemma Quiet_track_request_content request_id messages timestamp :
  keeps Quiet (track_request_content request_id messages timestamp).
Proof.
  unfold track_request_content.
  repeat first [ keeps_step | apply Quiet_match_text ].
Qed.

Lemma Quiet_sequence_edges lib agent_id times :
  keeps Quiet (sequence_edges lib agent_id times).
Proof.
  induction times as [|[r ts] times IH]; simpl; [apply (keeps_ret Quiet)|].
  destruct times as [|[r' ts'] rest]; [apply (keeps_ret Quiet)|].
  apply (keeps_bind Quiet); [apply (keeps_lift Quiet)|intros gap].
  apply (keeps_bind Quiet); [|intros _; exact IH].
  apply (keeps_modify Quiet). intros st. apply Quiet_edges.
  apply Forall_cons; split; [|constructor].
  apply good_edge_other_type. simpl. discriminate.
Qed.

Lemma Quiet_build_workflow_dag lib : keeps Quiet (build_workflow_dag lib).
Proof.
  unfold build_workflow_dag, build_request_sequence_edges.
  repeat first [ keeps_step | apply Quiet_sequence_edges ].
Qed.

(** ** What a quiet call preserves *)

Lemma agrees_get l l' k :
  Forall2 agent_agrees l l' ->
  match alist_get k l, alist_get k l' with
  | Some a, Some a' =>
      agent_id a = agent_id a'
      /\ message_count_history a = message_count_history a'
  | None, None => True
  | _, _ => False
  end.
Proof.
  induction 1 as [|[k1 a1] [k2 a2] l l' (Hk & Hid & Hh) _ IH]; simpl in *;
    [exact I|].
  subst k2. destruct (bool_decide (k1 = k)); [by split|exact IH].
Qed.

Lemma Quiet_has_agent t t' k : Quiet t t' -> has_agent t k <-> has_agent t' k.
Proof.
  intros Hq. unfold has_agent.
  pose proof (agrees_get _ _ k (quiet_agents _ _ Hq)) as H.
  destruct (alist_get k (instances t)), (alist_get k (instances t'));
    try contradiction; split; intros [? ?]; try discriminate; eauto.
Qed.

Lemma Quiet_history t t' k :
  Quiet t t' -> agent_history t' k = agent_history t k.
Proof.
  intros Hq. unfold agent_history.
  pose proof (agrees_get _ _ k (quiet_agents _ _ Hq)) as H.
  destruct (alist_get k (instances t)), (alist_get k (instances t'));
    try contradiction; [by destruct H|reflexivity].
Qed.

Lemma Quiet_agent_ids t t' : Quiet t t' -> agent_ids t' = agent_ids t.
Proof.
  intros Hq. unfold agent_ids.
  induction (quiet_agents _ _ Hq) as [|x y l l' (Hk & _) _ IH]; simpl;
    [reflexivity|].
  by rewrite IH, Hk.
Qed.

Lemma Quiet_Ext t t' : Quiet t t' -> Ext t t'.
Proof.
  intros Hq. split.
  - intros fp a. by rewrite (quiet_fingerprint _ _ Hq).
  - intros k Hk. by apply (Quiet_has_agent t t' k Hq).
  - by rewrite (quiet_counter _ _ Hq).
Qed.

Lemma Quiet_Inv t t' : Quiet t t' -> Inv t -> Inv t'.
Proof.
  intros Hq [Hfp Hid Hfresh]. split.
  - intros fp a. rewrite (quiet_fingerprint _ _ Hq). intros H.
    apply (Quiet_has_agent _ _ _ Hq). eauto.
  - intros k a' Hget.
    pose proof (agrees_get _ _ k (quiet_agents _ _ Hq)) as H.
    rewrite Hget in H.
    destruct (alist_get k (instances t)) as [a|] eqn:Ha; [|contradiction].
    destruct H as [H _]. rewrite <- H. by apply Hid.
  - intros k Hk. rewrite (quiet_counter _ _ Hq).
    apply Hfresh. by apply (Quiet_has_agent _ _ _ Hq).
Qed.

#[local] Instance Ext_preorder : PreOrder Ext.
Proof.
  split.
  - intros t. by split.
  - intros t1 t2 t3 [Hf1 Ha1 Hc1] [Hf2 Ha2 Hc2]. split; eauto. lia.
Qed.

(** ** Agent identifiers *)

Lemma agent_name_inj n m : agent_name n = agent_name m -> n = m.
Proof.
  unfold agent_name, Str.of_Z. intros H.
  apply (inj (String.append "agent_")) in H.
  apply (inj pretty) in H. lia.
Qed.

Lemma fresh_agent_name t :
  Inv t -> ~ has_agent t (agent_name (agent_counter t)).
Proof.
  intros Hinv Hhas.
  destruct (inv_fresh _ Hinv _ Hhas) as (n & Hlt & Heq).
  apply agent_name_inj in Heq. lia.
Qed.

(** ** The pieces of [identify_or_create_agent] *)

Lemma alist_update_update {V} key (g1 g2 : V -> V) l :
  alist_update key g2 (alist_update key g1 l)
  = alist_update key (fun a => g2 (g1 a)) l.
Proof.
  induction l as [|[k0 v] l IH]; simpl; [reflexivity|].
  destruct (bool_decide_reflect (k0 = key)) as [->|Hne]; simpl.
  - by rewrite bool_decide_eq_true_2.
  - rewrite bool_decide_eq_false_2 by done. by rewrite IH.
Qed.

Lemma append_request_spec key rid fpo messages ts t :
  wp (append_request key rid fpo messages ts)
    (fun _ t' =>
       exists n g,
         Py.len messages = Ok n
         /\ t' = set_instances (alist_update key g (instances t)) t
         /\ forall a, agent_id (g a) = agent_id a
                      /\ message_count_history (g a)
                         = message_count_history a ++ [n])
    (fun _ t' => Quiet t t') t.
Proof.
  unfold append_request, update_instance.
  wp_step. wp_step. wp_step. wp_step.
  - wp_step. exists a. eexists. split; [assumption|]. split.
    + unfold set_instances. simpl. rewrite alist_update_update. reflexivity.
    + intros ag. simpl. by destruct fpo.
  - split; try reflexivity.
    + simpl. apply agrees_update. intros ag. by destruct fpo.
    + exists []. by rewrite app_nil_r.
Qed.

Lemma attach_parent_spec agent_id first_user_msg agent t :
  wp (attach_parent agent_id first_user_msg agent)
    (fun agent' t' =>
       Quiet t t' /\ Tracker.agent_id agent' = Tracker.agent_id agent
       /\ message_count_history agent' = message_count_history agent)
    (fun _ t' => Quiet t t') t.
Proof.
  unfold attach_parent.
  wp_step. wp_step; [|reflexivity].
  wp_step.
  - wp_step.
    eapply wp_mono; [apply (wp_keeps Quiet), Quiet_link_child| |]; simpl.
    + intros _ t' Hq. wp_step. split; [exact Hq|split; reflexivity].
    + intros _ t' Hq. exact Hq.
  - wp_step. wp_step; [|reflexivity].
    wp_step.
    + wp_step.
      eapply wp_mono; [apply (wp_keeps Quiet), Quiet_link_child| |]; simpl.
      * intros _ t' Hq. wp_step. split; [exact Hq|split; reflexivity].
      * intros _ t' Hq. exact Hq.
    + wp_step. split; [reflexivity|split; reflexivity].
Qed.

Lemma create_agent_spec rid messages ts sph fp t :
  wp (create_agent rid messages ts sph fp)
    (fun a t' =>
       a = agent_name (agent_counter t)
       /\ exists t1 agent' n,
           Quiet (set_agent_counter (S (agent_counter t)) t) t1
           /\ Py.len messages = Ok n
           /\ agent_id agent' = a
           /\ message_count_history agent' = [n]
           /\ t' = set_request_to_agent
                     (<[rid := a]> (request_to_agent t1))
                     (set_fingerprint_to_agent
                        (<[fp := a]> (fingerprint_to_agent t1))
                        (set_instances
                           (alist_set a agent' (instances t1)) t1)))
    (fun _ t' => Quiet (set_agent_counter (S (agent_counter t)) t) t') t.
Proof.
  unfold create_agent.
  do 4 wp_step.
  wp_step. wp_step; [|reflexivity].
  wp_step. wp_step; [|reflexivity].
  wp_step.
  eapply wp_mono; [apply attach_parent_spec| |]; simpl.
  - intros agent' t1 (Hq & Hid & Hh).
    wp_step. wp_step. wp_step.
    split; [reflexivity|].
    exists t1, agent', a0. split; [exact Hq|]. split; [assumption|].
    split; [exact Hid|]. split; [exact Hh|reflexivity].
  - intros _ t' Hq. exact Hq.
Qed.

(** ** The tracker after a request is attributed *)

Lemma has_agent_update t t' key g k :
  instances t' = alist_update key g (instances t) ->
  has_agent t' k <-> has_agent t k.
Proof.
  intros Hi. unfold has_agent. rewrite Hi, alist_get_update.
  destruct (bool_decide (key = k)); [|reflexivity].
  by rewrite fmap_is_Some.
Qed.

Lemma update_Inv_Ext t t' key g :
  Inv t -> has_agent t key ->
  (forall a, agent_id (g a) = agent_id a) ->
  instances t' = alist_update key g (instances t) ->
  agent_counter t' = agent_counter t ->
  (forall fp a, fingerprint_to_agent t !! fp = Some a ->
                fingerprint_to_agent t' !! fp = Some a) ->
  (forall fp a, fingerprint_to_agent t' !! fp = Some a ->
                fingerprint_to_agent t !! fp = Some a \/ a = key) ->
  Inv t' /\ Ext t t'.
Proof.
  intros [Hfp Hid Hfresh] Hkey Hg Hi Hc Hkeep Hnew. split; split.
  - intros fp a Hlook. apply (has_agent_update t t' key g a Hi).
    destruct (Hnew fp a Hlook) as [Hold| ->]; eauto.
  - intros k a. rewrite Hi, alist_get_update.
    destruct (bool_decide (key = k)).
    + destruct (alist_get k (instances t)) as [a0|] eqn:Ha0; [|discriminate].
      intros [= <-]. rewrite Hg. by apply Hid.
    + apply Hid.
  - intros k Hk. rewrite Hc. apply Hfresh.
    by apply (has_agent_update t t' key g k Hi).
  - exact Hkeep.
  - intros k Hk. by apply (has_agent_update t t' key g k Hi).
  - by rewrite Hc.
Qed.

Lemma update_history t t' key g n :
  instances t' = alist_update key g (instances t) ->
  has_agent t key ->
  (forall a, message_count_history (g a) = message_count_history a ++ [n]) ->
  agent_history t' key = agent_history t key ++ [n]
  /\ forall k, k <> key -> agent_history t' k = agent_history t k.
Proof.
  intros Hi [a Ha] Hg. unfold agent_history. rewrite Hi. split.
  - rewrite alist_get_update, bool_decide_eq_true_2 by done.
    rewrite Ha. simpl. apply Hg.
  - intros k Hk. rewrite alist_get_update, bool_decide_eq_false_2 by done.
    reflexivity.
Qed.

Lemma update_agent_ids t t' key g :
  instances t' = alist_update key g (instances t) ->
  agent_ids t' = agent_ids t.
Proof. intros Hi. unfold agent_ids. by rewrite Hi, alist_keys_update. Qed.

Lemma create_Inv_Ext t t1 t' agent' fp :
  Inv t ->
  Quiet (set_agent_counter (S (agent_counter t)) t) t1 ->
  agent_id agent' = agent_name (agent_counter t) ->
  instances t' = alist_set (agent_name (agent_counter t)) agent' (instances t1) ->
  fingerprint_to_agent t'
  = <[fp := agent_name (agent_counter t)]> (fingerprint_to_agent t1) ->
  fingerprint_to_agent t !! fp = None ->
  agent_counter t' = agent_counter t1 ->
  Inv t' /\ Ext t t'.
Proof.
  intros Hinv Hq Hid Hi Hf Hnone Hc.
  assert (Inv (set_agent_counter (S (agent_counter t)) t)) as Hinv0.
  { destruct Hinv as [Hfp Haid Hfresh]. split; simpl; auto.
    intros k Hk. destruct (Hfresh k Hk) as (n & Hlt & ->).
    exists n. split; [lia|reflexivity]. }
  pose proof (Quiet_Inv _ _ Hq Hinv0) as [Hfp1 Hid1 Hfresh1].
  pose proof (Quiet_Ext _ _ Hq) as [Hef Hea Hec]. simpl in Hef, Hea, Hec.
  assert (forall k, has_agent t' k
                    <-> k = agent_name (agent_counter t) \/ has_agent t1 k)
    as Hhas.
  { intros k. unfold has_agent. rewrite Hi, alist_get_set.
    destruct (bool_decide_reflect (agent_name (agent_counter t) = k))
      as [<-|Hne].
    - split; [by left|by eexists].
    - split; [by right|]. intros [?|?]; [congruence|done]. }
  split; split.
  - intros fp0 a. rewrite Hf, lookup_insert. rewrite Hhas.
    case_decide; [intros [= <-]; by left|]. intros Hlook. right. eauto.
  - intros k a. rewrite Hi, alist_get_set.
    destruct (bool_decide_reflect (agent_name (agent_counter t) = k))
      as [<-|Hne].
    + by intros [= <-].
    + apply Hid1.
  - intros k. rewrite Hhas, Hc. intros [->|Hk].
    + exists (agent_counter t). split; [|reflexivity].
      rewrite (quiet_counter _ _ Hq). simpl. lia.
    + by apply Hfresh1.
  - intros fp0 a Hlook. rewrite Hf, lookup_insert.
    case_decide; [congruence|]. by apply Hef.
  - intros k Hk. apply Hhas. right. by apply Hea.
  - rewrite Hc. lia.
Qed.

Lemma create_history t t1 t' agent' n :
  Inv t ->
  Quiet (set_agent_counter (S (agent_counter t)) t) t1 ->
  instances t' = alist_set (agent_name (agent_counter t)) agent' (instances t1) ->
  message_count_history agent' = [n] ->
  agent_history t' (agent_name (agent_counter t))
  = agent_history t (agent_name (agent_counter t)) ++ [n]
  /\ forall k, k <> agent_name (agent_counter t) ->
                agent_history t' k = agent_history t k.
Proof.
  intros Hinv Hq Hi Hh. split.
  - pose proof (fresh_agent_name t Hinv) as Hfresh.
    unfold agent_history at 2.
    destruct (alist_get (agent_name (agent_counter t)) (instances t)) eqn:Hget.
    { exfalso. apply Hfresh. by eexists. }
    unfold agent_history. rewrite Hi, alist_get_set.
    by rewrite bool_decide_eq_true_2.
  - intros k Hk. transitivity (agent_history t1 k).
    + unfold agent_history. rewrite Hi, alist_get_set.
      by rewrite bool_decide_eq_false_2.
    + exact (Quiet_history _ _ k Hq).
Qed.

Lemma find_parent_loop_found t messages sph backtracks key :
  find_parent_loop t messages sph backtracks = Ok (Some key) ->
  has_agent t key.
Proof.
  induction backtracks as [|b rest IH]; simpl; [discriminate|].
  destruct (drop_last b messages) as [prefix|]; simpl; [|discriminate].
  destruct (compute_conversation_fingerprint prefix) as [pfp|]; simpl;
    [|discriminate].
  destruct (fingerprint_to_agent t !! pfp) as [aid|]; [|exact IH].
  destruct (alist_get aid (instances t)) as [ag|] eqn:Hag; [|discriminate].
  destruct (bool_decide (system_prompt_hash ag = sph)); [|exact IH].
  intros [= <-]. by eexists.
Qed.

Lemma find_parent_found t messages sph key :
  find_parent_conversation t messages sph = Ok (Some key) ->
  has_agent t key.
Proof.
  unfold find_parent_conversation.
  destruct (Py.len messages) as [n|]; simpl; [|discriminate].
  destruct (n <=? 1)%nat; [discriminate|].
  apply find_parent_loop_found.
Qed.

(** ** [identify_or_create_agent] *)

Lemma get_instance_Ok k t a :
  match alist_get k (instances t) with
  | Some a => Ok a
  | None => Raise KeyError
  end = Ok a ->
  alist_get k (instances t) = Some a.
Proof. destruct (alist_get k (instances t)); [by intros [= ->]|discriminate]. Qed.

Lemma Quiet_outcome t t' :
  Inv t -> Quiet t t' ->
  Inv t' /\ Ext t t' /\ forall k, agent_history t' k = agent_history t k.
Proof.
  intros Hinv Hq. split; [by apply (Quiet_Inv t)|].
  split; [by apply Quiet_Ext|]. intros k. by apply Quiet_history.
Qed.

Lemma identify_spec rid body ts t :
  Inv t ->
  wp (identify_or_create_agent rid body ts)
    (fun a t' =>
       Inv t' /\ Ext t t'
       /\ exists fp n,
           request_fingerprint body = Ok fp
           /\ request_message_count body = Ok n
           /\ fingerprint_to_agent t' !! fp = Some a
           /\ request_to_agent t' !! rid = Some a
           /\ agent_history t' a = agent_history t a ++ [n]
           /\ (forall k, k <> a -> agent_history t' k = agent_history t k)
           /\ (forall a0, fingerprint_to_agent t !! fp = Some a0 ->
                  a = a0 /\ agent_counter t' = agent_counter t
                  /\ agent_ids t' = agent_ids t))
    (fun _ t' =>
       Inv t' /\ Ext t t'
       /\ forall k, agent_history t' k = agent_history t k) t.
Proof.
  intros Hinv.
  assert (Inv t /\ Ext t t
          /\ forall k, agent_history t k = agent_history t k) as Hsame.
  { split; [exact Hinv|]. split; [reflexivity|]. reflexivity. }
  unfold identify_or_create_agent, get_instance.
  apply wp_bind, wp_lift; [intros messages Hmsgs|intros; exact Hsame].
  apply wp_bind, wp_lift; [intros system Hsys|intros; exact Hsame].
  apply wp_bind, wp_lift; [intros sph Hsph|intros; exact Hsame].
  apply wp_bind, wp_lift; [intros fp Hfp|intros; exact Hsame].
  assert (request_fingerprint body = Ok fp) as Hrfp.
  { unfold request_fingerprint. rewrite Hmsgs. exact Hfp. }
  apply wp_bind, wp_gets.
  destruct (fingerprint_to_agent t !! fp) as [a0|] eqn:Hknown.
  - (* replay *)
    pose proof (inv_fingerprint _ Hinv _ _ Hknown) as Hhas.
    apply wp_bind, wp_reads; [intros agent Hagent|intros; exact Hsame].
    apply wp_bind.
    eapply wp_mono; [apply append_request_spec| |]; simpl.
    + intros _ t1 (n & g & Hlen & -> & Hg).
      wp_step. wp_step. wp_step.
      destruct (update_Inv_Ext t
                  (set_request_to_agent
                     (<[rid:=a0]> (request_to_agent t))
                     (set_instances (alist_update a0 g (instances t)) t))
                  a0 g) as [Hinv' Hext']; auto.
      { intros ag. by destruct (Hg ag). }
      split; [exact Hinv'|]. split; [exact Hext'|].
      exists fp, n. split; [exact Hrfp|]. split.
      { unfold request_message_count. rewrite Hmsgs. exact Hlen. }
      split; [exact Hknown|]. split; [apply lookup_insert_eq|].
      destruct (update_history t
                  (set_request_to_agent
                     (<[rid:=a0]> (request_to_agent t))
                     (set_instances (alist_update a0 g (instances t)) t))
                  a0 g n) as [Hh1 Hh2]; auto.
      { intros ag. by destruct (Hg ag). }
      split; [exact Hh1|]. split; [exact Hh2|].
      intros a1 Ha1. simpl in Ha1. rewrite Hknown in Ha1.
      injection Ha1 as <-. split; [reflexivity|]. split; [reflexivity|].
      by apply (update_agent_ids t _ a0 g).
    + intros _ t1 Hq. by apply Quiet_outcome.
  - (* no exact match *)
    rename Hknown into Hnone.
    apply wp_bind, wp_reads; [intros parent Hparent|intros; exact Hsame].
    destruct parent as [key|].
    + (* continuation *)
      pose proof (find_parent_found _ _ _ _ Hparent) as Hhas.
      apply wp_bind, wp_reads; [intros agent Hagent|intros; exact Hsame].
      apply get_instance_Ok in Hagent.
      pose proof (inv_agent_id _ Hinv _ _ Hagent) as Hid. rewrite Hid.
      apply wp_bind.
      eapply wp_mono; [apply append_request_spec| |]; simpl.
      * intros _ t1 (n & g & Hlen & -> & Hg).
        wp_step. wp_step. wp_step.
        destruct (update_Inv_Ext t
                    (set_request_to_agent
                       (<[rid:=key]> (request_to_agent t))
                       (set_fingerprint_to_agent
                          (<[fp:=key]> (fingerprint_to_agent t))
                          (set_instances
                             (alist_update key g (instances t)) t)))
                    key g) as [Hinv' Hext']; auto.
        { intros ag. by destruct (Hg ag). }
        { intros fp0 a0 Hlook. simpl. rewrite lookup_insert.
          case_decide; [congruence|exact Hlook]. }
        { intros fp0 a0. simpl. rewrite lookup_insert.
          case_decide; [intros [= <-]; by right|by left]. }
        split; [exact Hinv'|]. split; [exact Hext'|].
        exists fp, n. split; [exact Hrfp|]. split.
        { unfold request_message_count. rewrite Hmsgs. exact Hlen. }
        split; [apply lookup_insert_eq|]. split; [apply lookup_insert_eq|].
        destruct (update_history t
                    (set_request_to_agent
                       (<[rid:=key]> (request_to_agent t))
                       (set_fingerprint_to_agent
                          (<[fp:=key]> (fingerprint_to_agent t))
                          (set_instances
                             (alist_update key g (instances t)) t)))
                    key g n) as [Hh1 Hh2]; auto.
        { intros ag. by destruct (Hg ag). }
        split; [exact Hh1|]. split; [exact Hh2|].
        intros a1 Ha1. simpl in Ha1. congruence.
      * intros _ t1 Hq. by apply Quiet_outcome.
    + (* new agent *)
      eapply wp_mono; [apply create_agent_spec| |]; simpl.
      * intros a t' (-> & t1 & agent' & n & Hq & Hlen & Hid & Hh & ->).
        destruct (create_Inv_Ext t t1
                    (set_request_to_agent
                       (<[rid:=agent_name (agent_counter t)]>
                          (request_to_agent t1))
                       (set_fingerprint_to_agent
                          (<[fp:=agent_name (agent_counter t)]>
                             (fingerprint_to_agent t1))
                          (set_instances
                             (alist_set (agent_name (agent_counter t)) agent'
                                (instances t1)) t1)))
                    agent' fp) as [Hinv' Hext']; auto.
        split; [exact Hinv'|]. split; [exact Hext'|].
        exists fp, n. split; [exact Hrfp|]. split.
        { unfold request_message_count. rewrite Hmsgs. exact Hlen. }
        split; [apply lookup_insert_eq|]. split; [apply lookup_insert_eq|].
        destruct (create_history t t1
                    (set_request_to_agent
                       (<[rid:=agent_name (agent_counter t)]>
                          (request_to_agent t1))
                       (set_fingerprint_to_agent
                          (<[fp:=agent_name (agent_counter t)]>
                             (fingerprint_to_agent t1))
                          (set_instances
                             (alist_set (agent_name (agent_counter t)) agent'
                                (instances t1)) t1)))
                    agent' n) as [Hh1 Hh2]; auto.
        split; [exact Hh1|]. split; [exact Hh2|].
        intros a1 Ha1. congruence.
      * intros _ t' Hq.
        assert (Inv (set_agent_counter (S (agent_counter t)) t)) as Hinv0.
        { destruct Hinv as [Hf Haid Hfresh]. split; simpl; auto.
          intros k Hk. destruct (Hfresh k Hk) as (m & Hlt & ->).
          exists m. split; [lia|reflexivity]. }
        destruct (Quiet_outcome _ _ Hinv0 Hq) as (Hinv' & Hext' & Hh').
        split; [exact Hinv'|]. split; [|exact Hh'].
        destruct Hext' as [He1 He2 He3]. split; simpl in *; auto. lia.
Qed.

(** ** Streams of calls *)

Lemma Inv_init : Inv init.
Proof.
  split.
  - intros fp a H. simpl in H. by rewrite lookup_empty in H.
  - intros k a H. discriminate.
  - intros k [a H]. discriminate.
Qed.

Lemma step_Quiet lib t c :
  (forall request_id body timestamp, c <> Identify request_id body timestamp) ->
  Quiet t (step lib t c).
Proof.
  intros Hc. destruct c; simpl.
  - by destruct (Hc request_id body timestamp).
  - apply Quiet_track_tool_use.
  - apply Quiet_track_tool_result.
  - apply Quiet_track_response_content.
  - apply Quiet_track_request_content.
  - apply Quiet_register_task_prompt.
  - apply Quiet_build_workflow_dag.
Qed.

Lemma identify_outcome rid body ts t :
  Inv t ->
  Inv (fst (identify_or_create_agent rid body ts t))
  /\ Ext t (fst (identify_or_create_agent rid body ts t)).
Proof.
  intros Hinv. pose proof (identify_spec rid body ts t Hinv) as Hwp.
  unfold wp in Hwp.
  destruct (identify_or_create_agent rid body ts t) as [t' [a|e]]; simpl.
  - destruct Hwp as (? & ? & _). by split.
  - destruct Hwp as (? & ? & _). by split.
Qed.

Lemma step_Inv_Ext lib t c : Inv t -> Inv (step lib t c) /\ Ext t (step lib t c).
Proof.
  intros Hinv.
  assert (forall t', Quiet t t' -> Inv t' /\ Ext t t') as Hquiet.
  { intros t' Hq. split; [by apply (Quiet_Inv t)|by apply Quiet_Ext]. }
  destruct c;
    [apply identify_outcome, Hinv
    |apply Hquiet, (step_Quiet lib); discriminate ..].
Qed.

Lemma run_Inv_Ext lib calls t :
  Inv t -> Inv (run lib calls t) /\ Ext t (run lib calls t).
Proof.
  revert t. induction calls as [|c calls IH]; intros t Hinv; simpl.
  - split; [exact Hinv|reflexivity].
  - destruct (step_Inv_Ext lib t c Hinv) as [Hinv1 Hext1].
    destruct (IH _ Hinv1) as [Hinv2 Hext2].
    split; [exact Hinv2|]. by etransitivity.
Qed.

(** A request whose fingerprint is registered is attributed: the call
    returns, and it returns the registered agent. *)
Lemma identify_replay rid body ts t fp a h n :
  request_fingerprint body = Ok fp ->
  request_system_hash body = Ok h ->
  request_message_count body = Ok n ->
  fingerprint_to_agent t !! fp = Some a ->
  has_agent t a ->
  snd (identify_or_create_agent rid body ts t) = Ok a.
Proof.
  unfold request_fingerprint, request_system_hash, request_message_count.
  destruct (Py.get body "messages" (JList [])) as [messages|] eqn:Hmsgs;
    simpl; [|discriminate].
  destruct (Py.get body "system" (JList [])) as [system|] eqn:Hsys;
    simpl; [|discriminate].
  intros Hfp Hsph Hlen Hknown [agent Hagent].
  unfold identify_or_create_agent, get_instance, append_request,
    update_instance, bind, lift, gets, reads, modify, ret.
  rewrite Hmsgs, Hsys, Hsph, Hfp, Hknown, Hagent, Hlen. reflexivity.
Qed.

(** C1. In any log stream, once a request has been attributed to an agent,
    a later request that carries the same message history (the same
    conversation fingerprint) is attributed to that same agent, and no agent
    is created: the agent counter and the agents are the same after the
    call as before it. *)
Theorem replay_idempotence lib (before later : list call) (N N' : Z)
  (body body' ts ts' : json) (t1 : AgentInstanceTracker) (a h : string)
  (n : nat) :
  identify_or_create_agent N body ts (run lib before init) = (t1, Ok a) ->
  request_fingerprint body' = request_fingerprint body ->
  request_system_hash body' = Ok h ->
  request_message_count body' = Ok n ->
  exists t3,
    identify_or_create_agent N' body' ts' (run lib later t1) = (t3, Ok a)
    /\ request_to_agent t3 !! N' = Some a
    /\ agent_counter t3 = agent_counter (run lib later t1)
    /\ agent_ids t3 = agent_ids (run lib later t1).
Proof.
  intros Hfirst Hsame Hsys Hcount.
  destruct (run_Inv_Ext lib before init Inv_init) as [Hinv0 _].
  pose proof (wp_run _ _ _ _ _ _ (identify_spec N body ts _ Hinv0) Hfirst)
    as (Hinv1 & _ & fp & n0 & Hfp & _ & Hreg & _).
  destruct (run_Inv_Ext lib later t1 Hinv1) as [Hinv2 Hext2].
  pose proof (ext_fingerprint _ _ Hext2 _ _ Hreg) as Hreg2.
  pose proof (inv_fingerprint _ Hinv2 _ _ Hreg2) as Hhas2.
  rewrite Hfp in Hsame.
  pose proof (identify_replay N' body' ts' _ fp a h n Hsame Hsys Hcount
                Hreg2 Hhas2) as Hret.
  destruct (identify_or_create_agent N' body' ts' (run lib later t1))
    as [t3 r] eqn:Hsecond.
  simpl in Hret. subst r. exists t3. split; [reflexivity|].
  pose proof (wp_run _ _ _ _ _ _ (identify_spec N' body' ts' _ Hinv2) Hsecond)
    as (_ & _ & fp' & n' & Hfp' & _ & _ & Hattr & _ & _ & Hknown).
  rewrite Hsame in Hfp'. injection Hfp' as <-.
  destruct (Hknown a Hreg2) as (_ & Hcounter & Hids).
  by repeat split.
Qed.

(** The theorem at a conversation that is replayed after it has grown:
    request 0 opens it, request 1 continues it, request 2 replays
    request 0. *)
Lemma replay_idempotence_witness :
  let t1 :=
    fst (identify_or_create_agent 0 Examples.first_turn (JStr "")
           (run Clock.lib [] init)) in
  let later := [Identify 1 Examples.second_turn (JStr "")] in
  identify_or_create_agent 0 Examples.first_turn (JStr "")
    (run Clock.lib [] init) = (t1, Ok "agent_0")
  /\ exists t3,
      identify_or_create_agent 2 Examples.first_turn (JStr "")
        (run Clock.lib later t1) = (t3, Ok "agent_0")
      /\ request_to_agent t3 !! 2 = Some "agent_0"
      /\ agent_counter t3 = agent_counter (run Clock.lib later t1)
      /\ agent_ids t3 = agent_ids (run Clock.lib later t1).
Proof.
  intros t1 later.
  assert (identify_or_create_agent 0 Examples.first_turn (JStr "")
            (run Clock.lib [] init) = (t1, Ok "agent_0")) as Hfirst
    by (vm_compute; reflexivity).
  split; [exact Hfirst|].
  apply (replay_idempotence Clock.lib [] later 0 2 Examples.first_turn
           Examples.first_turn (JStr "") (JStr "") t1 "agent_0"
           "no_system" 1);
    [exact Hfirst|reflexivity|vm_compute; reflexivity
    |vm_compute; reflexivity].
Defined.

(** C10. The fingerprint index only accumulates: what it maps to an agent it
    maps to that agent after any further calls, continuations included, and
    a later request in any registered conversation state is attributed to
    the agent of that state without an agent being created. *)
Theorem fingerprint_index_accumulates lib (before later : list call)
  (fp a : string) :
  fingerprint_to_agent (run lib before init) !! fp = Some a ->
  fingerprint_to_agent (run lib later (run lib before init)) !! fp = Some a
  /\ forall rid body ts h n,
      request_fingerprint body = Ok fp ->
      request_system_hash body = Ok h ->
      request_message_count body = Ok n ->
      exists t',
        identify_or_create_agent rid body ts
          (run lib later (run lib before init)) = (t', Ok a)
        /\ fingerprint_to_agent t' !! fp = Some a
        /\ agent_counter t'
           = agent_counter (run lib later (run lib before init))
        /\ agent_ids t' = agent_ids (run lib later (run lib before init)).
Proof.
  intros Hreg.
  destruct (run_Inv_Ext lib before init Inv_init) as [Hinv0 _].
  destruct (run_Inv_Ext lib later _ Hinv0) as [Hinv1 Hext1].
  pose proof (ext_fingerprint _ _ Hext1 _ _ Hreg) as Hreg1.
  split; [exact Hreg1|].
  intros rid body ts h n Hfp Hsys Hcount.
  pose proof (inv_fingerprint _ Hinv1 _ _ Hreg1) as Hhas1.
  pose proof (identify_replay rid body ts _ fp a h n Hfp Hsys Hcount
                Hreg1 Hhas1) as Hret.
  destruct (identify_or_create_agent rid body ts
              (run lib later (run lib before init))) as [t' r] eqn:Hcall.
  simpl in Hret. subst r. exists t'. split; [reflexivity|].
  pose proof (wp_run _ _ _ _ _ _ (identify_spec rid body ts _ Hinv1) Hcall)
    as (_ & Hext' & fp' & n' & Hfp' & _ & _ & _ & _ & _ & Hknown).
  rewrite Hfp in Hfp'. injection Hfp' as <-.
  destruct (Hknown a Hreg1) as (_ & Hcounter & Hids).
  split; [by apply (ext_fingerprint _ _ Hext')|]. by split.
Qed.

(** The theorem at the fingerprint of a first turn, after a continuation
    has re-keyed the agent: the old fingerprint still leads to the agent,
    and a replay of the first turn is attributed to it. *)
Lemma fingerprint_index_accumulates_witness :
  let before := [Identify 0 Examples.first_turn (JStr "")] in
  let later := [Identify 1 Examples.second_turn (JStr "")] in
  fingerprint_to_agent (run Clock.lib before init) !! "a9d586ee677f7c66"
  = Some "agent_0"
  /\ conversation_fingerprint
       <$> alist_get "agent_0"
             (instances (run Clock.lib later (run Clock.lib before init)))
     = Some "41b280c5569f56a0"
  /\ fingerprint_to_agent (run Clock.lib later (run Clock.lib before init))
       !! "a9d586ee677f7c66" = Some "agent_0"
  /\ exists t',
      identify_or_create_agent 2 Examples.first_turn (JStr "")
        (run Clock.lib later (run Clock.lib before init)) = (t', Ok "agent_0")
      /\ fingerprint_to_agent t' !! "a9d586ee677f7c66" = Some "agent_0"
      /\ agent_counter t'
         = agent_counter (run Clock.lib later (run Clock.lib before init))
      /\ agent_ids t'
         = agent_ids (run Clock.lib later (run Clock.lib before init)).
Proof.
  intros before later.
  assert (fingerprint_to_agent (run Clock.lib before init)
            !! "a9d586ee677f7c66" = Some "agent_0") as Hreg
    by (vm_compute; reflexivity).
  split; [exact Hreg|]. split; [vm_compute; reflexivity|].
  destruct (fingerprint_index_accumulates Clock.lib before later
              "a9d586ee677f7c66" "agent_0" Hreg) as [Hkept Hreplay].
  split; [exact Hkept|].
  apply (Hreplay 2 Examples.first_turn (JStr "") "no_system" 1%nat);
    vm_compute; reflexivity.
Defined.

(** ** The message count history *)

Lemma step_history lib t c k :
  Inv t ->
  agent_history (step lib t c) k
  = agent_history t k ++ attributed_counts lib [c] t k.
Proof.
  intros Hinv. simpl. rewrite app_nil_r.
  destruct c;
    try (rewrite app_nil_r;
         apply Quiet_history, (step_Quiet lib); discriminate).
  simpl.
  pose proof (identify_spec request_id body timestamp t Hinv) as Hwp.
  unfold wp in Hwp.
  destruct (identify_or_create_agent request_id body timestamp t)
    as [t' [a|e]]; simpl.
  - destruct Hwp as (_ & _ & fp & n & _ & Hn & _ & _ & Hown & Hother & _).
    rewrite Hn.
    destruct (bool_decide_reflect (a = k)) as [->|Hne].
    + exact Hown.
    + rewrite app_nil_r. apply Hother. congruence.
  - destruct Hwp as (_ & _ & Hh). rewrite app_nil_r. apply Hh.
Qed.

Lemma run_history lib calls t k :
  Inv t ->
  agent_history (run lib calls t) k
  = agent_history t k ++ attributed_counts lib calls t k.
Proof.
  revert t. induction calls as [|c calls IH]; intros t Hinv.
  - simpl. by rewrite app_nil_r.
  - change (run lib (c :: calls) t) with (run lib calls (step lib t c)).
    destruct (step_Inv_Ext lib t c Hinv) as [Hinv1 _].
    rewrite (IH _ Hinv1), (step_history lib t c k Hinv).
    rewrite <- app_assoc. f_equal.
    simpl. by rewrite app_nil_r.
Qed.

(** C2, as the code has it. For every agent, after any log stream,
    [message_count_history] lists, in processing order, the message count
    of each request that [identify_or_create_agent] attributed to the
    agent; so it is non-decreasing exactly when those counts are. *)
Theorem history_lists_attributed_counts lib (calls : list call) (k : string) :
  agent_history (run lib calls init) k = attributed_counts lib calls init k
  /\ (non_decreasing (agent_history (run lib calls init) k)
      <-> non_decreasing (attributed_counts lib calls init k)).
Proof.
  assert (agent_history (run lib calls init) k
          = attributed_counts lib calls init k) as Heq.
  { rewrite (run_history lib calls init k Inv_init). reflexivity. }
  split; [exact Heq|]. by rewrite Heq.
Qed.

(** C2, as stated, fails: a replay of an earlier state of a conversation
    that has grown since appends a smaller count. *)
Lemma history_decreases_on_replay :
  agent_history (run Clock.lib Examples.replay_of_earlier_state init)
    "agent_0" = [1; 3; 1]%nat
  /\ ~ non_decreasing
        (agent_history (run Clock.lib Examples.replay_of_earlier_state init)
           "agent_0").
Proof.
  assert (agent_history (run Clock.lib Examples.replay_of_earlier_state init)
            "agent_0" = [1; 3; 1]%nat) as Heq by (vm_compute; reflexivity).
  split; [exact Heq|]. rewrite Heq. intros Hmono.
  specialize (Hmono 1%nat 3%nat 1%nat eq_refl eq_refl). lia.
Qed.

(** ** The edges of the tracker *)

#[local] Instance same_edges_preorder : PreOrder same_edges.
Proof.
  split.
  - intros t. reflexivity.
  - intros t1 t2 t3 H1 H2. unfold same_edges in *. congruence.
Qed.

Lemma identify_same_edges rid body ts :
  keeps same_edges (identify_or_create_agent rid body ts).
Proof.
  unfold identify_or_create_agent, create_agent, attach_parent, link_child,
    append_request, get_instance, update_instance.
  repeat first
    [ keeps_step
    | apply (keeps_modify same_edges); intros ?; reflexivity ].
Qed.

Lemma step_good_edges lib t c :
  Forall good_edge (workflow_edges t) ->
  Forall good_edge (workflow_edges (step lib t c)).
Proof.
  intros Hgood.
  assert (forall t', Quiet t t' -> Forall good_edge (workflow_edges t'))
    as Hquiet.
  { intros t' [_ _ _ (new & -> & Hnew)]. by apply Forall_app. }
  destruct c; [|apply Hquiet, (step_Quiet lib); discriminate ..].
  simpl. by rewrite (identify_same_edges request_id body timestamp t).
Qed.

Lemma run_good_edges lib calls t :
  Forall good_edge (workflow_edges t) ->
  Forall good_edge (workflow_edges (run lib calls t)).
Proof.
  revert t. induction calls as [|c calls IH]; intros t Hgood; [exact Hgood|].
  apply IH, step_good_edges, Hgood.
Qed.

(** Every [content_reuse] edge the tracker holds after a log stream, and
    every one in a DAG it builds, goes from an earlier request to a later
    one, between two agents, with confidence 0.85. *)
Lemma tracker_reuse_edges lib (calls : list call) :
  Forall good_edge (workflow_edges (run lib calls init))
  /\ forall t' dag,
      build_workflow_dag lib (run lib calls init) = (t', Ok dag) ->
      Forall good_edge (dag_edges dag).
Proof.
  assert (Forall good_edge (workflow_edges (run lib calls init))) as Hgood.
  { apply run_good_edges. constructor. }
  split; [exact Hgood|].
  intros t' dag Hbuild.
  pose proof (step_good_edges lib _ BuildWorkflowDag Hgood) as Hafter.
  simpl in Hafter. rewrite Hbuild in Hafter. simpl in Hafter.
  revert Hbuild. unfold build_workflow_dag.
  unfold bind at 1. unfold gets at 1.
  unfold bind at 1. unfold reads at 1.
  destruct (spawn_edges (run lib calls init)
              (instances (run lib calls init))) as [spawned|] eqn:Hspawn;
    [|discriminate].
  unfold bind at 1.
  destruct (build_request_sequence_edges lib (run lib calls init))
    as [t1 [[]|e]] eqn:Hseq; [|discriminate].
  unfold bind, gets, ret. intros [= <- <-]. simpl.
  apply Forall_app. split; [|exact Hafter].
  clear -Hspawn. revert spawned Hspawn.
  induction (instances (run lib calls init)) as [|[k ag] l IH];
    intros spawned; simpl.
  - intros [= <-]. constructor.
  - destruct (spawn_edge (run lib calls init) k ag) as [e|] eqn:He;
      simpl; [|discriminate].
    destruct (spawn_edges (run lib calls init) l) as [es|]; simpl;
      [|discriminate].
    intros [= <-]. specialize (IH es eq_refl).
    destruct e as [e|]; [|exact IH].
    constructor; [|exact IH].
    apply good_edge_other_type.
    unfold spawn_edge in He.
    destruct (parent_agent_id ag); [|discriminate].
    destruct (bool_decide _); [discriminate|].
    destruct (if Py.truthy (spawned_by_task_id ag) then _ else _);
      simpl in He; [|discriminate].
    injection He as <-. simpl. discriminate.
Qed.

(** ** First occurrences of tool identifiers *)

(** [track_tool_use] keeps the first occurrence: a call with an identifier
    that is in the tool-use index leaves that index, the tool-result index,
    the agents and the edges as they are. *)
Lemma track_tool_use_seen rid block ts t id key :
  Py.get block "id" JNull = Ok id ->
  hash_key id = Ok key ->
  is_Some (tool_use_index t !! key) ->
  tool_use_index (fst (track_tool_use rid block ts t)) = tool_use_index t
  /\ tool_result_index (fst (track_tool_use rid block ts t))
     = tool_result_index t
  /\ instances (fst (track_tool_use rid block ts t)) = instances t
  /\ workflow_edges (fst (track_tool_use rid block ts t)) = workflow_edges t.
Proof.
  intros Hid Hkey [info Hseen].
  unfold track_tool_use, bind, lift, gets, modify, ret.
  rewrite Hid.
  destruct (Py.get block "name" JNull) as [name|]; [|by repeat split].
  destruct (negb (Py.truthy id)); [by repeat split|].
  destruct (owner_of t rid) as [agent_id|]; [|by repeat split].
  rewrite Hkey, Hseen.
  repeat (first [ progress simpl | case_match ]); by repeat split.
Qed.

(** C3, at the failing input. [track_tool_result] has no such guard: when
    request 2 replays the history of request 1, the result of [toolu_1] is
    recorded a second time. The tool-result index now names request 2, the
    agent has two tool results and there are two [tool_result] edges. *)
Theorem tool_result_recorded_again :
  let t1 := run Clock.lib Examples.tool_stream init in
  let t2 := run Clock.lib Examples.tool_stream_replay t1 in
  (tri_request_id <$> tool_result_index t1 !! KStr "toolu_1" = Some 1
   /\ tri_request_id <$> tool_result_index t2 !! KStr "toolu_1" = Some 2)
  /\ (List.length <$> (tool_results <$> alist_get "agent_0" (instances t1))
      = Some 1%nat
      /\ List.length <$> (tool_results <$> alist_get "agent_0" (instances t2))
         = Some 2%nat)
  /\ (List.map e_target_request_id (workflow_edges t1) = [Some 1]
      /\ List.map e_target_request_id (workflow_edges t2) = [Some 1; Some 2])
  /\ (List.length <$> (tool_uses <$> alist_get "agent_0" (instances t1))
      = Some 1%nat
      /\ List.length <$> (tool_uses <$> alist_get "agent_0" (instances t2))
         = Some 1%nat).
Proof. vm_compute. repeat split. Qed.

(** C6, at the failing input. [build_workflow_dag] appends the request
    sequence edges to [workflow_edges] each time it runs, so a second call
    on the same tracker returns the same nodes and one more copy of every
    such edge. *)
Theorem build_workflow_dag_repeats_edges (lib : datetime_lib) :
  let t := run lib Examples.two_requests init in
  let first := build_workflow_dag lib t in
  let second := build_workflow_dag lib (fst first) in
  List.map n_id (returned_nodes first) = ["agent_0"]
  /\ returned_nodes second = returned_nodes first
  /\ List.map e_type (returned_edges first) = ["request_sequence"]
  /\ List.map e_type (returned_edges second)
     = ["request_sequence"; "request_sequence"]
  /\ returned_edges second <> returned_edges first
  /\ workflow_edges t = []
  /\ List.length (workflow_edges (fst first)) = 1%nat
  /\ List.length (workflow_edges (fst second)) = 2%nat.
Proof. vm_compute. repeat split. discriminate. Qed.

End TrackerProofs.

(* ===================================================================== *)
(** * Properties of the deduplicator *)
(* ===================================================================== *)

Module DedupProofs.
Import Dedup DedupSpec.

Lemma step_counts d c :
  map_Forall (fun _ e => occurrence_count e = recorded_occurrences e)
    (unique_entities d) ->
  map_Forall (fun _ e => occurrence_count e = recorded_occurrences e)
    (unique_entities (step d c)).
Proof.
  intros Hinv. unfold step, deduplicate_entity, bind, lift, gets, modify, ret.
  destruct (Py.get (c_entity c) "id" JNull) as [entity_id|]; [|exact Hinv].
  destruct (negb (Py.truthy entity_id)); [exact Hinv|].
  destruct (hash_key entity_id) as [key|]; [|exact Hinv].
  destruct (unique_entities d !! key) as [e|] eqn:Hknown; simpl.
  - apply map_Forall_insert_2; [|exact Hinv].
    unfold recorded_occurrences. simpl.
    rewrite (Hinv key e Hknown). unfold recorded_occurrences.
    rewrite length_app. simpl. lia.
  - apply map_Forall_insert_2; [|exact Hinv]. reflexivity.
Qed.

Lemma run_counts calls d :
  map_Forall (fun _ e => occurrence_count e = recorded_occurrences e)
    (unique_entities d) ->
  map_Forall (fun _ e => occurrence_count e = recorded_occurrences e)
    (unique_entities (run calls d)).
Proof.
  revert d. induction calls as [|c calls IH]; intros d Hinv; [exact Hinv|].
  apply IH, step_counts, Hinv.
Qed.

(** ** The aggregate counters *)

Lemma counter_total_set k v counts :
  counter_total (alist_set k v counts)
  = counter_total counts - default 0 (alist_get k counts) + v.
Proof.
  induction counts as [|[k' v'] l IH]; simpl; [lia|].
  destruct (bool_decide (k' = k)); simpl; lia.
Qed.

Lemma counter_total_increment k counts :
  counter_total (increment k counts) = counter_total counts + 1.
Proof. unfold increment. rewrite counter_total_set. lia. Qed.

Lemma occurrences_insert_new m key e :
  m !! key = None ->
  occurrences (<[key := e]> m) = occurrence_count e + occurrences m.
Proof.
  intros Hnew. unfold occurrences.
  rewrite map_fold_insert_L; [reflexivity| |exact Hnew].
  intros. lia.
Qed.

Lemma occurrences_insert_known m key e e' :
  m !! key = Some e ->
  occurrences (<[key := e']> m)
  = occurrences m - occurrence_count e + occurrence_count e'.
Proof.
  intros Hknown.
  rewrite <- (insert_delete_eq m key e').
  rewrite occurrences_insert_new by apply lookup_delete_eq.
  unfold occurrences at 2.
  rewrite (map_fold_delete_L _ _ key e m); [|intros; lia|exact Hknown].
  fold (occurrences (delete key m)). lia.
Qed.

Lemma step_balanced d c : balanced d -> balanced (step d c).
Proof.
  intros [Hocc Hfirst].
  unfold step, deduplicate_entity, bind, lift, gets, modify, ret.
  destruct (Py.get (c_entity c) "id" JNull) as [entity_id|];
    [|by split].
  destruct (negb (Py.truthy entity_id)); [by split|].
  destruct (hash_key entity_id) as [key|]; [|by split].
  destruct (unique_entities d !! key) as [e|] eqn:Hknown; simpl.
  - split; simpl.
    + rewrite (occurrences_insert_known _ _ e _ Hknown). simpl.
      rewrite counter_total_increment, map_size_insert_Some by eauto. lia.
    + rewrite map_size_insert_Some by eauto. exact Hfirst.
  - split; simpl.
    + rewrite (occurrences_insert_new _ _ _ Hknown). simpl.
      rewrite map_size_insert_None by exact Hknown. lia.
    + rewrite counter_total_increment,
        map_size_insert_None by exact Hknown. lia.
Qed.

Lemma run_balanced calls d : balanced d -> balanced (run calls d).
Proof.
  revert d. induction calls as [|c calls IH]; intros d Hinv; [exact Hinv|].
  apply IH, step_balanced, Hinv.
Qed.

(** C7, as the code has it. After any sequence of [deduplicate_entity]
    calls, the [occurrence_count] of every stored entity is the length of
    its [seen_in_requests], a list with one entry per occurrence, and the
    statistics report [duplicates_removed] as [total_occurrences] minus
    [total_unique_entities]. What they report is what was counted: the
    first occurrences add up to the number of entities, and the duplicates
    removed to the occurrences recorded as duplicates. *)
Theorem dedup_conservation (calls : list call) :
  let d := run calls init in
  let stats := get_deduplication_stats d in
  map_Forall (fun _ e => occurrence_count e = recorded_occurrences e)
    (unique_entities d)
  /\ duplicates_removed stats
     = total_occurrences stats - total_unique_entities stats
  /\ total_unique_entities stats = counter_total (entity_type_counts d)
  /\ duplicates_removed stats = counter_total (entity_type_duplicates d).
Proof.
  intros d stats.
  assert (balanced d) as [Hocc Hfirst].
  { apply run_balanced. split; reflexivity. }
  split; [apply run_counts, map_Forall_empty|].
  split; [reflexivity|].
  split; [symmetry; exact Hfirst|].
  unfold stats, get_deduplication_stats. simpl.
  fold (occurrences (unique_entities d)). lia.
Qed.

(** C7, as stated, fails: an entity that one request shows twice has an
    occurrence count of 2 and a single request index. *)
Lemma occurrences_exceed_distinct_requests :
  exists e,
    unique_entities (run task_seen_twice init) !! KStr "toolu_task" = Some e
    /\ occurrence_count e = 2
    /\ seen_in_requests e = [0; 0]
    /\ distinct_requests e = 1
    /\ occurrence_count e <> distinct_requests e.
Proof.
  eexists. split; [vm_compute; reflexivity|].
  vm_compute. repeat split; discriminate.
Qed.

End DedupProofs.

(* ===================================================================== *)
(** * Properties of the request graph *)
(* ===================================================================== *)

Module GraphProofs.
Import Graph GraphSpec.

(** ** Loops *)

Lemma rfold_ind {A B} (P : A -> Prop) (f : A -> B -> result A) xs acc r :
  P acc ->
  (forall a x a', In x xs -> P a -> f a x = Ok a' -> P a') ->
  rfold f xs acc = Ok r -> P r.
Proof.
  revert acc. induction xs as [|x xs IH]; intros acc Hacc Hstep; simpl.
  - by intros [= <-].
  - destruct (f acc x) as [a'|] eqn:Hf; simpl; [|discriminate].
    apply IH.
    + apply (Hstep acc x a'); [by left|exact Hacc|exact Hf].
    + intros a y a'' Hy. apply Hstep. by right.
Qed.

Lemma enumerate_In {A} (xs : list A) i x :
  In (i, x) (enumerate xs) -> (i < List.length xs)%nat.
Proof.
  unfold enumerate. intros Hin.
  apply in_combine_l, in_seq in Hin. lia.
Qed.

(** ** Tool results *)

Lemma tool_index_range logs session indexes :
  build_tool_index logs session = Ok indexes ->
  forall key i, fst indexes !! key = Some i -> (i < List.length logs)%nat.
Proof.
  unfold build_tool_index.
  apply (rfold_ind
           (fun acc : tool_indexes =>
              forall key i, fst acc !! key = Some i ->
                            (i < List.length logs)%nat)).
  - intros key i H. simpl in H. by rewrite lookup_empty in H.
  - intros acc [idx log] acc' Hin Hacc. unfold index_log.
    apply enumerate_In in Hin.
    destruct (response_content log) as [content|]; simpl; [|discriminate].
    destruct content; try (by intros [= <-]).
    apply (rfold_ind
             (fun acc : tool_indexes =>
                forall key i, fst acc !! key = Some i ->
                              (i < List.length logs)%nat)); [exact Hacc|].
    intros a block a' _ Ha. unfold index_block.
    destruct block; try (by intros [= <-]).
    destruct (Py.is_str _ _); [|by intros [= <-]].
    destruct (Py.truthy _); [|by intros [= <-]].
    destruct (index_key session _) as [key|]; simpl; [|discriminate].
    intros [= <-] key' i. simpl. rewrite lookup_insert.
    case_decide; [by intros [= <-]|apply Ha].
Qed.

Lemma tool_edges_local logs session indexes es :
  build_tool_index logs session = Ok indexes ->
  match_tool_results logs indexes session = Ok es ->
  Forall (fun e => g_type e = "tool_result"
                   /\ local_to (List.length logs) e) es.
Proof.
  intros Hindex. pose proof (tool_index_range _ _ _ Hindex) as Hrange.
  unfold match_tool_results.
  apply (rfold_ind
           (Forall (fun e => g_type e = "tool_result"
                             /\ local_to (List.length logs) e)));
    [constructor|].
  intros acc [target log] acc' Hin Hacc. unfold match_log.
  apply enumerate_In in Hin.
  destruct (request_messages log) as [messages|]; simpl; [|discriminate].
  destruct messages; try (by intros [= <-]).
  apply (rfold_ind
           (Forall (fun e => g_type e = "tool_result"
                             /\ local_to (List.length logs) e)));
    [exact Hacc|].
  intros a message a' _ Ha. unfold match_message.
  destruct message; try (by intros [= <-]).
  destruct (Py.dict_get _ _ _); try (by intros [= <-]).
  apply (rfold_ind
           (Forall (fun e => g_type e = "tool_result"
                             /\ local_to (List.length logs) e)));
    [exact Ha|].
  intros b block b' _ Hb. unfold match_block.
  destruct block; try (by intros [= <-]).
  destruct (Py.is_str _ _); [|by intros [= <-]].
  destruct (Py.truthy _); [|by intros [= <-]].
  destruct (index_key session _) as [key|]; simpl; [|discriminate].
  destruct (fst indexes !! key) as [source|] eqn:Hsource;
    [|by intros [= <-]].
  intros [= <-]. apply Forall_app. split; [exact Hb|].
  constructor; [|constructor]. split; [reflexivity|].
  split; simpl; [by apply (Hrange key)|exact Hin].
Qed.

(** ** Subagent spawns *)

Lemma task_spawns_range logs spawns :
  rfold collect_log (enumerate logs) [] = Ok spawns ->
  Forall (fun s => (parent_idx s < List.length logs)%nat) spawns.
Proof.
  apply (rfold_ind
           (Forall (fun s => (parent_idx s < List.length logs)%nat)));
    [constructor|].
  intros acc [idx log] acc' Hin Hacc. unfold collect_log.
  apply enumerate_In in Hin.
  destruct (response_content log) as [content|]; simpl; [|discriminate].
  destruct content; try (by intros [= <-]).
  destruct (Py.get log "timestamp" JNull) as [ts|]; simpl; [|discriminate].
  apply (rfold_ind
           (Forall (fun s => (parent_idx s < List.length logs)%nat)));
    [exact Hacc|].
  intros a block a' _ Ha. unfold collect_block.
  destruct block; try (by intros [= <-]).
  destruct (_ && _); [|by intros [= <-]].
  destruct (Py.get _ "subagent_type" JNull) as [stype|]; simpl;
    [|discriminate].
  destruct (Py.get _ "prompt" (JStr "")) as [prompt|]; simpl; [|discriminate].
  destruct (Py.truthy stype); [|by intros [= <-]].
  destruct (if Py.truthy prompt then _ else _) as [h|]; simpl;
    [|discriminate].
  intros [= <-]. apply Forall_app. split; [exact Ha|].
  constructor; [exact Hin|constructor].
Qed.

Lemma scan_forward_range lib spawn_time spawn_hash idx logs i d :
  scan_forward lib spawn_time spawn_hash idx logs = Ok (Some (i, d)) ->
  (idx <= i < idx + List.length logs)%nat.
Proof.
  revert idx. induction logs as [|log rest IH]; intros idx; simpl;
    [discriminate|].
  destruct (Py.get log "timestamp" JNull) as [ts|]; simpl; [|discriminate].
  destruct (parse_timestamp lib ts) as [log_time|]; simpl; [|discriminate].
  destruct (seconds_between lib log_time spawn_time) as [time_diff|]; simpl;
    [|discriminate].
  destruct (Qlt_le_dec 3600 time_diff); [discriminate|].
  destruct (first_message_hash log) as [msg_hash|]; simpl; [|discriminate].
  destruct (_ && _).
  - intros [= <- <-]. lia.
  - intros H. apply IH in H. lia.
Qed.

Lemma spawn_edges_local lib logs es :
  detect_subagent_spawns lib logs = Ok es ->
  Forall (fun e => g_type e = "subagent_spawn"
                   /\ local_to (List.length logs) e) es.
Proof.
  unfold detect_subagent_spawns.
  destruct (rfold collect_log (enumerate logs) []) as [spawns|] eqn:Hspawns;
    simpl; [|discriminate].
  pose proof (task_spawns_range _ _ Hspawns) as Hrange.
  apply (rfold_ind
           (Forall (fun e => g_type e = "subagent_spawn"
                             /\ local_to (List.length logs) e)));
    [constructor|].
  intros acc spawn acc' Hin Hacc. unfold match_spawn.
  rewrite Forall_forall in Hrange.
  apply list_elem_of_In, Hrange in Hin.
  destruct (parse_timestamp lib _) as [spawn_time|]; simpl; [|discriminate].
  destruct (prompt_hash spawn) as [h|]; [|by intros [= <-]].
  destruct (bool_decide (h = "")); [by intros [= <-]|].
  destruct (scan_forward lib spawn_time h _ _) as [[[best d]|]|] eqn:Hscan;
    simpl; [|by intros [= <-]|discriminate].
  intros [= <-]. apply Forall_app. split; [exact Hacc|].
  constructor; [|constructor]. split; [reflexivity|].
  apply scan_forward_range in Hscan. rewrite length_skipn in Hscan.
  split; simpl; lia.
Qed.

(** ** Content reuse *)

Lemma response_index_range logs index :
  rfold index_response (enumerate logs) ∅ = Ok index ->
  forall h sources,
    index !! h = Some sources ->
    Forall (fun source : nat * string =>
              (fst source < List.length logs)%nat) sources.
Proof.
  apply (rfold_ind
           (fun acc : response_index =>
              forall h sources,
                acc !! h = Some sources ->
                Forall (fun source : nat * string =>
                          (fst source < List.length logs)%nat) sources)).
  - intros h sources H. by rewrite lookup_empty in H.
  - intros acc [idx log] acc' Hin Hacc. unfold index_response.
    apply enumerate_In in Hin.
    destruct (response_content log) as [content|]; simpl; [|discriminate].
    destruct (extract_text_content content) as [text|]; simpl;
      [|discriminate].
    destruct (bool_decide (text = "")); [by intros [= <-]|].
    destruct (hash_content (JStr text) 200) as [h0|]; simpl; [|discriminate].
    destruct (bool_decide (h0 = "")); [by intros [= <-]|].
    intros [= <-] h sources. rewrite lookup_insert.
    case_decide; [|apply Hacc].
    intros [= <-]. apply Forall_app. split.
    + destruct (acc !! h0) as [old|] eqn:Hold; simpl; [|constructor].
      by apply (Hacc h0).
    + constructor; [exact Hin|constructor].
Qed.

Lemma reuse_edges_ok index target h n :
  (target < n)%nat ->
  Forall (fun e => g_type e = "content_reuse" /\ local_to n e
                   /\ (g_source e < g_target e)%nat
                   /\ g_confidence e = (95 # 100)%Q)
    (reuse_edges index target h).
Proof.
  intros Htarget. unfold reuse_edges. apply Forall_forall. intros e He.
  apply list_elem_of_In, in_map_iff in He as (source & <- & Hsource).
  apply filter_In in Hsource as [_ Hlt]. apply Nat.ltb_lt in Hlt.
  simpl. split; [reflexivity|]. unfold local_to. simpl.
  repeat split; lia.
Qed.

Lemma content_edges_local logs es :
  detect_content_reuse logs = Ok es ->
  Forall (fun e => g_type e = "content_reuse"
                   /\ local_to (List.length logs) e
                   /\ (g_source e < g_target e)%nat
                   /\ g_confidence e = (95 # 100)%Q) es.
Proof.
  unfold detect_content_reuse.
  destruct (rfold index_response (enumerate logs) ∅) as [index|]; simpl;
    [|discriminate].
  apply (rfold_ind
           (Forall (fun e => g_type e = "content_reuse"
                             /\ local_to (List.length logs) e
                             /\ (g_source e < g_target e)%nat
                             /\ g_confidence e = (95 # 100)%Q)));
    [constructor|].
  intros acc [target log] acc' Hin Hacc. unfold reuse_log.
  apply enumerate_In in Hin.
  destruct (request_messages log) as [messages|]; simpl; [|discriminate].
  destruct messages; try (by intros [= <-]).
  apply (rfold_ind
           (Forall (fun e => g_type e = "content_reuse"
                             /\ local_to (List.length logs) e
                             /\ (g_source e < g_target e)%nat
                             /\ g_confidence e = (95 # 100)%Q)));
    [exact Hacc|].
  intros a message a' _ Ha. unfold reuse_message.
  destruct message; try (by intros [= <-]).
  destruct (Py.dict_get _ _ _) as [| | |text|blocks|]; try (by intros [= <-]).
  - destruct (hash_content (JStr text) 200) as [h|]; simpl; [|discriminate].
    intros [= <-]. apply Forall_app. split; [exact Ha|].
    by apply reuse_edges_ok.
  - apply (rfold_ind
             (Forall (fun e => g_type e = "content_reuse"
                               /\ local_to (List.length logs) e
                               /\ (g_source e < g_target e)%nat
                               /\ g_confidence e = (95 # 100)%Q)));
      [exact Ha|].
    intros b block b' _ Hb. unfold reuse_block.
    destruct block; try (by intros [= <-]).
    destruct (Py.is_str _ _); [|by intros [= <-]].
    destruct (Py.truthy _); [|by intros [= <-]].
    destruct (hash_content _ 200) as [h|]; simpl; [|discriminate].
    intros [= <-]. apply Forall_app. split; [exact Hb|].
    by apply reuse_edges_ok.
Qed.

(** ** Sessions *)

Lemma node_of_spec global_idx session_idx local_idx log node :
  node_of global_idx session_idx local_idx log = Ok node ->
  id node = global_idx /\ session_id node = session_idx.
Proof.
  unfold node_of, rbind.
  repeat (case_match; try discriminate).
  by intros [= <-].
Qed.

Lemma session_nodes_spec start session_idx local logs new :
  session_nodes start session_idx local logs = Ok new ->
  List.length new = List.length logs
  /\ forall j node, new !! j = Some node ->
                     id node = (start + (local + j))%nat
                     /\ session_id node = session_idx.
Proof.
  revert local new. induction logs as [|log logs IH]; intros local new; simpl.
  - intros [= <-]. split; [reflexivity|]. intros j node H. discriminate.
  - destruct (node_of _ _ _ log) as [node0|] eqn:Hnode; simpl;
      [|discriminate].
    destruct (session_nodes start session_idx (S local) logs) as [rest|]
      eqn:Hrest; simpl; [|discriminate].
    intros [= <-]. destruct (IH _ _ Hrest) as [Hlen Hids].
    split; [simpl; by rewrite Hlen|].
    intros [|j] node; simpl.
    + intros [= <-]. apply node_of_spec in Hnode as [-> ->].
      split; [lia|reflexivity].
    + intros H. destruct (Hids j node H) as [-> ->].
      split; [lia|reflexivity].
Qed.

Lemma add_session_inv lib sorted_logs max_logs acc entry acc' :
  numbered acc ->
  Forall (same_session acc) (edges acc) ->
  Forall reuse_edge_ok (edges acc) ->
  add_session lib sorted_logs max_logs acc entry = Ok acc' ->
  numbered acc'
  /\ Forall (same_session acc') (edges acc')
  /\ Forall reuse_edge_ok (edges acc').
Proof.
  intros Hnum Hsame Hreuse. unfold add_session.
  destruct entry as [session_idx [session_start session_end]].
  set (session_logs :=
         if max_logs <? Z.of_nat
                          (List.length
                             (slice session_start (S session_end) sorted_logs))
         then last_n max_logs
                (slice session_start (S session_end) sorted_logs)
         else slice session_start (S session_end) sorted_logs).
  destruct (build_tool_index session_logs (Some session_idx))
    as [indexes|] eqn:Hindex; simpl; [|discriminate].
  destruct (match_tool_results session_logs indexes (Some session_idx))
    as [tool_edges|] eqn:Htool; simpl; [|discriminate].
  destruct (detect_subagent_spawns lib session_logs)
    as [spawn_edges|] eqn:Hspawn; simpl; [|discriminate].
  destruct (detect_content_reuse session_logs)
    as [content_edges|] eqn:Hcontent; simpl; [|discriminate].
  destruct (session_nodes (List.length (nodes acc)) session_idx 0
              session_logs) as [new|] eqn:Hnodes; simpl; [|discriminate].
  destruct (match session_logs with
            | [] => Ok JNull
            | first :: _ => Py.get first "timestamp" JNull
            end) as [start_time|]; simpl; [|discriminate].
  destruct (match session_logs with
            | [] => Ok JNull
            | _ :: _ => Py.get (List.last session_logs JNull) "timestamp" JNull
            end) as [end_time|]; simpl; [|discriminate].
  intros [= <-]. simpl.
  apply session_nodes_spec in Hnodes as [Hlen Hids].
  pose proof (tool_edges_local _ _ _ _ Hindex Htool) as Htool_ok.
  pose proof (spawn_edges_local _ _ _ Hspawn) as Hspawn_ok.
  pose proof (content_edges_local _ _ Hcontent) as Hcontent_ok.
  assert (Forall (fun e => local_to (List.length session_logs) e
                           /\ (g_type e = "content_reuse" ->
                               (g_source e < g_target e)%nat
                               /\ g_confidence e = (95 # 100)%Q))
            (tool_edges ++ spawn_edges ++ content_edges)) as Hlocal.
  { repeat apply Forall_app_2.
    - eapply Forall_impl; [exact Htool_ok|]. intros e [Hty Hloc].
      split; [exact Hloc|]. rewrite Hty. discriminate.
    - eapply Forall_impl; [exact Hspawn_ok|]. intros e [Hty Hloc].
      split; [exact Hloc|]. rewrite Hty. discriminate.
    - eapply Forall_impl; [exact Hcontent_ok|].
      intros e (_ & Hloc & Hlt & Hconf). by split. }
  split; [|split].
  - (* the nodes are numbered by position *)
    intros i node. unfold numbered in Hnum. simpl.
    rewrite lookup_app. destruct (nodes acc !! i) as [old|] eqn:Hold.
    + intros [= <-]. by apply Hnum.
    + intros Hnew. apply lookup_ge_None in Hold.
      destruct (Hids _ _ Hnew) as [-> _]. lia.
  - (* both ends of an edge are nodes of one session *)
    apply Forall_app. split.
    + eapply Forall_impl; [exact Hsame|].
      intros e (ns & nt & Hs & Ht & Hrest).
      exists ns, nt. simpl.
      rewrite !lookup_app, Hs, Ht. by split.
    + apply Forall_fmap. eapply Forall_impl; [exact Hlocal|].
      intros e [[Hs Ht] _].
      rewrite <- Hlen in Hs, Ht.
      apply lookup_lt_is_Some in Hs as [ns Hns].
      apply lookup_lt_is_Some in Ht as [nt Hnt].
      destruct (Hids _ _ Hns) as [Hids_s Hsess_s].
      destruct (Hids _ _ Hnt) as [Hids_t Hsess_t].
      exists ns, nt. simpl.
      rewrite !lookup_app_r by lia.
      replace (List.length (nodes acc) + g_source e
               - List.length (nodes acc))%nat with (g_source e) by lia.
      replace (List.length (nodes acc) + g_target e
               - List.length (nodes acc))%nat with (g_target e) by lia.
      split; [exact Hns|]. split; [exact Hnt|].
      split; [rewrite Hids_s; lia|]. split; [rewrite Hids_t; lia|].
      split; [congruence|]. by rewrite Hsess_s.
  - (* content reuse edges point forward *)
    apply Forall_app. split; [exact Hreuse|].
    apply Forall_fmap. eapply Forall_impl; [exact Hlocal|].
    intros e [_ Hok] Hty. simpl in *.
    destruct (Hok Hty) as [Hlt Hconf]. split; [lia|exact Hconf].
Qed.

Lemma build_workflow_graph_inv lib logs max_logs gap g :
  build_workflow_graph lib logs max_logs gap = Ok g ->
  numbered g /\ Forall (same_session g) (edges g)
  /\ Forall reuse_edge_ok (edges g).
Proof.
  unfold build_workflow_graph. destruct logs as [|log logs].
  { intros [= <-]. split; [|split]; [|constructor|constructor].
    intros i node H. discriminate. }
  destruct (sorted_by_timestamp (log :: logs)) as [sorted_logs|]; simpl;
    [|discriminate].
  destruct (detect_sessions lib sorted_logs gap) as [detected|]; simpl;
    [|discriminate].
  destruct (rmap (print_session sorted_logs) detected) as [printed|]; simpl;
    [|discriminate].
  destruct (rfold (add_session lib sorted_logs max_logs) (enumerate detected)
              (WorkflowGraph [] [] [] None)) as [g0|] eqn:Hfold; simpl;
    [|discriminate].
  intros [= <-].
  assert (numbered g0 /\ Forall (same_session g0) (edges g0)
          /\ Forall reuse_edge_ok (edges g0)) as (Hnum & Hsame & Hreuse).
  { revert Hfold.
    apply (rfold_ind
             (fun acc => numbered acc /\ Forall (same_session acc) (edges acc)
                         /\ Forall reuse_edge_ok (edges acc))).
    - split; [|split]; [|constructor|constructor].
      intros i node H. discriminate.
    - intros acc entry acc' _ (Hn & Hs & Hr).
      by apply add_session_inv. }
  split; [exact Hnum|]. split; [exact Hsame|exact Hreuse].
Qed.

(** C5. In the graph [build_workflow_graph] returns, the nodes are numbered
    by their position and the two endpoints of every edge are nodes of one
    and the same session, the one the edge is labelled with: no edge spans
    two sessions. *)
Theorem session_isolation lib (logs : list json) (max_logs : Z) (gap : Q)
  (g : workflow_graph) :
  build_workflow_graph lib logs max_logs gap = Ok g ->
  numbered g /\ Forall (same_session g) (edges g).
Proof.
  intros Hbuild.
  destruct (build_workflow_graph_inv _ _ _ _ _ Hbuild) as (Hnum & Hsame & _).
  by split.
Qed.

(** The theorem at two sessions that both hold the tool identifier
    [toolu_1]: each result is linked to the call of its own session. *)
Lemma session_isolation_witness :
  exists g,
    build_workflow_graph Clock.lib Examples.two_sessions 1000 10 = Ok g
    /\ List.map (fun e => (g_source e, g_target e, g_session_id e)) (edges g)
       = [(0%nat, 1%nat, Some 0%nat); (2%nat, 3%nat, Some 1%nat)]
    /\ List.map session_id (nodes g) = [0; 0; 1; 1]%nat
    /\ numbered g /\ Forall (same_session g) (edges g).
Proof.
  eexists. split; [vm_compute; reflexivity|].
  split; [reflexivity|]. split; [reflexivity|].
  apply (session_isolation Clock.lib Examples.two_sessions 1000 10).
  vm_compute. reflexivity.
Defined.

(** ** Content reuse edges *)

(** C4, as the code has it. Every [content_reuse] edge has a source
    request index strictly less than its target request index. Those the
    tracker emits ([track_request_content]), in its edge list and in the
    DAG it builds, connect two different agents and carry confidence 0.85;
    those the request graph holds ([detect_content_reuse]) carry confidence
    0.95, and the graph has no agents to tell apart. *)
Theorem content_reuse_edges lib (calls : list Tracker.call)
  (logs : list json) (max_logs : Z) (gap : Q) (g : workflow_graph) :
  build_workflow_graph lib logs max_logs gap = Ok g ->
  Forall TrackerSpec.good_edge
    (Tracker.workflow_edges (Tracker.run lib calls Tracker.init))
  /\ Forall TrackerSpec.good_edge
       (TrackerSpec.returned_edges
          (Tracker.build_workflow_dag lib
             (Tracker.run lib calls Tracker.init)))
  /\ Forall reuse_edge_ok (edges g).
Proof.
  intros Hbuild.
  destruct (TrackerProofs.tracker_reuse_edges lib calls) as [Htracked Hdag].
  split; [exact Htracked|]. split.
  - unfold TrackerSpec.returned_edges.
    destruct (Tracker.build_workflow_dag lib
                (Tracker.run lib calls Tracker.init)) as [t' [dag|e]] eqn:Hd;
      simpl; [|constructor].
    by apply (Hdag t').
  - by destruct (build_workflow_graph_inv _ _ _ _ _ Hbuild) as (_ & _ & ?).
Qed.

(** The theorem at a tracker and a request graph that each hold one
    [content_reuse] edge. *)
Lemma content_reuse_edges_witness :
  exists g,
    build_workflow_graph Clock.lib Examples.reused_text 1000 10 = Ok g
    /\ List.map g_type (edges g) = ["content_reuse"]
    /\ List.map Tracker.e_type
         (Tracker.workflow_edges
            (Tracker.run Clock.lib Examples.reuse_stream Tracker.init))
       = ["content_reuse"]
    /\ Forall TrackerSpec.good_edge
         (Tracker.workflow_edges
            (Tracker.run Clock.lib Examples.reuse_stream Tracker.init))
    /\ Forall TrackerSpec.good_edge
         (TrackerSpec.returned_edges
            (Tracker.build_workflow_dag Clock.lib
               (Tracker.run Clock.lib Examples.reuse_stream Tracker.init)))
    /\ Forall reuse_edge_ok (edges g).
Proof.
  eexists. split; [vm_compute; reflexivity|].
  split; [reflexivity|]. split; [vm_compute; reflexivity|].
  apply (content_reuse_edges Clock.lib Examples.reuse_stream
           Examples.reused_text 1000 10).
  vm_compute. reflexivity.
Defined.

(** C4, as stated, fails: the [content_reuse] edge of the request graph
    carries confidence 0.95, not 0.85. *)
Lemma graph_reuse_confidence :
  exists g e,
    build_workflow_graph Clock.lib Examples.reused_text 1000 10 = Ok g
    /\ edges g = [e]
    /\ g_type e = "content_reuse"
    /\ g_source e = 0%nat /\ g_target e = 1%nat
    /\ g_confidence e = (95 # 100)%Q
    /\ ~ (g_confidence e == 85 # 100)%Q.
Proof.
  do 2 eexists. split; [vm_compute; reflexivity|].
  split; [reflexivity|]. simpl. repeat split. discriminate.
Qed.

(** ** Missing and unparseable timestamps *)

(** C9, at the failing inputs. [detect_subagent_spawns] parses the
    timestamp of every Task spawn, and of every later entry it scans,
    outside of any [try]: an absent timestamp raises [AttributeError], an
    unparseable one [ValueError], and so does the graph build. *)
Theorem detect_subagent_spawns_raises :
  (forall lib,
     detect_subagent_spawns lib Examples.spawn_without_timestamp
     = Raise AttributeError)
  /\ detect_subagent_spawns Clock.lib Examples.spawn_with_bad_timestamp
     = Raise ValueError
  /\ detect_subagent_spawns Clock.lib Examples.candidate_without_timestamp
     = Raise AttributeError
  /\ build_workflow_graph Clock.lib Examples.spawn_without_timestamp 1000 10
     = Raise AttributeError
  /\ endpoints (detect_subagent_spawns Clock.lib Examples.spawn_and_child)
     = Some [(0%nat, 1%nat)].
Proof.
  split; [intros lib; vm_compute; reflexivity|].
  vm_compute. repeat split.
Qed.

End GraphProofs.

(* ===================================================================== *)
(** * Properties of the hashes and of the text helpers *)
(* ===================================================================== *)

Module FingerprintFacts.
Import FingerprintForm.

(** ** The shape of a digest *)

Lemma round_length st kw :
  List.length (Sha256.round st kw) = List.length st.
Proof.
  unfold Sha256.round.
  destruct st as [|a [|b [|c [|d [|e [|f [|g [|h [|i st]]]]]]]]];
    reflexivity.
Qed.

Lemma rounds_length kws st :
  List.length (List.fold_left Sha256.round kws st) = List.length st.
Proof.
  revert st. induction kws as [|kw kws IH]; intros st; simpl; [reflexivity|].
  by rewrite IH, round_length.
Qed.

Lemma zip_with_length {A B C} (f : A -> B -> C) xs ys :
  List.length xs = List.length ys ->
  List.length (Sha256.zip_with f xs ys) = List.length xs.
Proof.
  revert ys. induction xs as [|x xs IH]; intros [|y ys]; simpl;
    try discriminate; [reflexivity|].
  intros [= H]. by rewrite IH.
Qed.

Lemma compress_length h chunk :
  List.length (Sha256.compress h chunk) = List.length h.
Proof.
  unfold Sha256.compress. apply zip_with_length. by rewrite rounds_length.
Qed.

Lemma digest_words_length msg :
  List.length (Sha256.digest_words msg) = 8%nat.
Proof.
  unfold Sha256.digest_words.
  generalize (Sha256.chunks (List.length (Sha256.words (Sha256.pad msg)))
                (Sha256.words (Sha256.pad msg))).
  intros cs.
  assert (forall h, List.length (List.fold_left Sha256.compress cs h)
                    = List.length h) as Hfold.
  { induction cs as [|c cs IH]; intros h; simpl; [reflexivity|].
    by rewrite IH, compress_length. }
  by rewrite Hfold.
Qed.

Lemma hex_digit_hex n :
  0 <= n < 16 -> is_hex (Sha256.hex_digit n) = true.
Proof.
  intros Hn.
  assert (forallb (fun k => is_hex (Sha256.hex_digit (Z.of_nat k)))
            (seq 0 16) = true) as Hall by (vm_compute; reflexivity).
  rewrite forallb_forall in Hall. specialize (Hall (Z.to_nat n)).
  rewrite Z2Nat.id in Hall by lia. apply Hall, in_seq. lia.
Qed.

Lemma hex_word_shape w :
  List.length (Sha256.hex_word w) = 8%nat
  /\ Forall (fun c => is_hex c = true) (Sha256.hex_word w).
Proof.
  unfold Sha256.hex_word. split; [reflexivity|].
  apply Forall_forall. intros c Hc.
  apply list_elem_of_In, in_map_iff in Hc as (i & <- & _).
  apply hex_digit_hex, Z.mod_pos_bound. lia.
Qed.

Lemma hex_words_shape ws :
  List.length (List.concat (List.map Sha256.hex_word ws))
  = (8 * List.length ws)%nat
  /\ Forall (fun c => is_hex c = true)
       (List.concat (List.map Sha256.hex_word ws)).
Proof.
  induction ws as [|w ws [IHlen IHhex]]; [by split|].
  destruct (hex_word_shape w) as [Hlen Hhex].
  change (List.concat (List.map Sha256.hex_word (w :: ws)))
    with (Sha256.hex_word w
          ++ List.concat (List.map Sha256.hex_word ws)).
  split; [rewrite List.length_app, Hlen, IHlen; simpl; lia|].
  apply Forall_app. by split.
Qed.

Lemma to_list_of_list l : Str.to_list (Str.of_list l) = l.
Proof. apply list_ascii_of_string_of_list_ascii. Qed.

Lemma of_list_to_list s : Str.of_list (Str.to_list s) = s.
Proof. apply string_of_list_ascii_of_string. Qed.

Lemma length_of_list l : String.length (Str.of_list l) = List.length l.
Proof. induction l as [|c l IH]; simpl; [reflexivity|]. by rewrite IH. Qed.

Lemma hex_starts_char c : is_hex c = true -> Str.starts_char c = true.
Proof.
  unfold is_hex, Str.starts_char, Str.is_digit. intros H.
  destruct (128 <=? Str.code c) eqn:Hhigh; [|reflexivity].
  apply Z.leb_le in Hhigh. exfalso.
  apply orb_true_iff in H as [H|H]; apply andb_true_iff in H as [_ H];
    apply Z.leb_le in H; lia.
Qed.

(** On hexadecimal digits a slice by characters is a slice by bytes. *)
Lemma take_chars_hex n l :
  Forall (fun c => is_hex c = true) l -> Str.take_chars n l = firstn n l.
Proof.
  revert n. induction l as [|c l IH]; intros n Hl; simpl.
  - by destruct n.
  - apply Forall_cons in Hl as [Hc Hl].
    rewrite (hex_starts_char c Hc).
    destruct n as [|n]; [reflexivity|]. simpl. by rewrite IH.
Qed.

Lemma hexdigest_shape s :
  String.length (Sha256.hexdigest s) = 64%nat
  /\ all_hex (Sha256.hexdigest s).
Proof.
  unfold Sha256.hexdigest, all_hex.
  rewrite length_of_list, to_list_of_list.
  destruct (hex_words_shape
              (Sha256.digest_words (List.map Str.code (Str.to_list s))))
    as [Hlen Hhex].
  by rewrite Hlen, digest_words_length.
Qed.

Lemma prefix_hex_shape n s :
  all_hex s ->
  String.length (Str.prefix n s) = Nat.min n (String.length s)
  /\ all_hex (Str.prefix n s)
  /\ forall m, (m <= n)%nat -> Str.prefix m (Str.prefix n s) = Str.prefix m s.
Proof.
  unfold all_hex, Str.prefix. intros Hs.
  rewrite length_of_list, !to_list_of_list, take_chars_hex by exact Hs.
  rewrite length_firstn.
  replace (String.length s) with (List.length (Str.to_list s))
    by (rewrite <- (of_list_to_list s) at 2; by rewrite length_of_list).
  split; [reflexivity|].
  assert (Forall (fun c => is_hex c = true) (firstn n (Str.to_list s)))
    as Hpre by (by apply Forall_take).
  split; [exact Hpre|].
  intros m Hm.
  rewrite !take_chars_hex by assumption.
  by rewrite firstn_firstn, Nat.min_l.
Qed.

Lemma compute_hash_text (s : string) (length : nat) :
  exists h,
    compute_hash (JStr s) length = Ok h
    /\ String.length h = Nat.min length 64
    /\ all_hex h
    /\ forall shorter, (shorter <= length)%nat ->
         compute_hash (JStr s) shorter = Ok (Str.prefix shorter h).
Proof.
  destruct (hexdigest_shape s) as [Hlen Hhex].
  destruct (prefix_hex_shape length _ Hhex) as (Hl & Hh & Hp).
  exists (Str.prefix length (Sha256.hexdigest s)).
  split; [reflexivity|]. rewrite Hlen in Hl.
  split; [exact Hl|]. split; [exact Hh|].
  intros m Hm. simpl. by rewrite Hp.
Qed.

(** X1. For a string, [compute_hash] returns the first [length] characters
    of a digest of 64 lowercase hexadecimal digits: the result has
    [min length 64] characters, all of them such digits, and the hash of a
    shorter length is the beginning of the hash of a longer one. *)
Theorem compute_hash_shape (s : string) (length : nat) :
  exists h,
    compute_hash (JStr s) length = Ok h
    /\ String.length h = Nat.min length 64
    /\ all_hex h
    /\ forall shorter, (shorter <= length)%nat ->
         compute_hash (JStr s) shorter = Ok (Str.prefix shorter h).
Proof. apply compute_hash_text. Qed.

(** X2. A conversation fingerprint, when there is one, is made of 16
    lowercase hexadecimal digits. *)
Theorem fingerprint_shape (messages : json) (fp : string) :
  compute_conversation_fingerprint messages = Ok fp ->
  String.length fp = 16%nat /\ all_hex fp.
Proof.
  unfold compute_conversation_fingerprint.
  assert (forall text, compute_hash (JStr text) 16 = Ok fp ->
                       String.length fp = 16%nat /\ all_hex fp) as Hhash.
  { intros text Hfp.
    destruct (compute_hash_text text 16) as (h & Hh & Hlen & Hhex & _).
    rewrite Hh in Hfp. injection Hfp as <-. by split. }
  destruct (negb (Py.truthy messages)); [apply Hhash|].
  destruct (Py.iter messages) as [msgs|]; simpl; [|discriminate].
  destruct (rmap message_signature msgs) as [parts|]; simpl; [|discriminate].
  apply Hhash.
Qed.

(** The theorem at a conversation of one message. *)
Lemma fingerprint_shape_witness :
  compute_conversation_fingerprint
    (JList [Examples.text_message "user" "hi"]) = Ok "a9d586ee677f7c66"
  /\ String.length "a9d586ee677f7c66" = 16%nat
  /\ all_hex "a9d586ee677f7c66".
Proof.
  split; [vm_compute; reflexivity|].
  apply (fingerprint_shape (JList [Examples.text_message "user" "hi"])).
  vm_compute. reflexivity.
Defined.

(** ** What the fingerprint reads *)

Lemma block_signature_canonical b :
  block_signature b
  = match canonical_block b with
    | Some b' => block_signature b'
    | None => Ok None
    end.
Proof.
  destruct b as [| | | | |d]; try reflexivity.
  unfold canonical_block, block_signature.
  destruct (Py.is_str (Py.dict_get d "type" (JStr "unknown")) "text");
    [reflexivity|].
  destruct (Py.is_str (Py.dict_get d "type" (JStr "unknown")) "tool_use");
    [reflexivity|].
  destruct (Py.is_str (Py.dict_get d "type" (JStr "unknown")) "tool_result");
    reflexivity.
Qed.

Lemma block_signatures_canonical bs :
  block_signatures (omap canonical_block bs) = block_signatures bs.
Proof.
  induction bs as [|b bs IH]; [reflexivity|].
  cbn [omap list_omap block_signatures].
  rewrite (block_signature_canonical b).
  destruct (canonical_block b) as [b'|]; cbn [block_signatures rbind].
  - by rewrite IH.
  - rewrite IH. by destruct (block_signatures bs).
Qed.

Lemma message_signature_canonical m :
  message_signature (canonical_message m) = message_signature m.
Proof.
  destruct m as [| | | | |d]; try reflexivity.
  unfold message_signature, canonical_message.
  cbn [Py.get rbind].
  change (Py.dict_get [("role", ?r); ("content", ?c)] "role" _) with r.
  change (Py.dict_get [("role", ?r); ("content", ?c)] "content" _) with c.
  cbn [normalize_content]. by rewrite block_signatures_canonical.
Qed.

(** X3. The fingerprint reads of a conversation only the role of each
    message and its [text], [tool_use] and [tool_result] blocks, and of
    those the text, the name and input, and the content: other keys of a
    message or of a block, blocks of any other type and items that are not
    blocks change nothing, and a content that is a string counts as one
    [text] block. *)
Theorem fingerprint_reads_canonical_form (msgs : list json) :
  compute_conversation_fingerprint (JList (List.map canonical_message msgs))
  = compute_conversation_fingerprint (JList msgs).
Proof.
  unfold compute_conversation_fingerprint.
  destruct msgs as [|m msgs]; [reflexivity|].
  change (Py.truthy (JList (m :: msgs))) with true.
  change (Py.truthy (JList (List.map canonical_message (m :: msgs))))
    with true.
  cbv beta iota delta [negb Py.iter rbind].
  assert (rmap message_signature (List.map canonical_message (m :: msgs))
          = rmap message_signature (m :: msgs)) as ->; [|reflexivity].
  induction (m :: msgs) as [|x xs IH]; simpl; [reflexivity|].
  by rewrite message_signature_canonical, IH.
Qed.

(** ** Normalised commands *)

Lemma lower_char_alnum c :
  Str.is_alnum c = true -> is_lower_alnum (Str.lower_char c) = true.
Proof.
  destruct c as [[] [] [] [] [] [] [] []]; vm_compute; intros H;
    first [reflexivity | discriminate H].
Qed.

Lemma lower_alnum_fixed c :
  is_lower_alnum c = true -> Str.is_alnum c = true /\ Str.lower_char c = c.
Proof.
  destruct c as [[] [] [] [] [] [] [] []]; vm_compute; intros H;
    first [split; reflexivity | discriminate H].
Qed.

Lemma normalize_command_text s :
  normalize_command (JStr s)
  = Ok (Str.of_list
          (List.map Str.lower_char
             (List.filter Str.is_alnum (Str.to_list s)))).
Proof.
  unfold normalize_command, Str.lower. rewrite to_list_of_list.
  destruct s; reflexivity.
Qed.

(** X4. [normalize_command] maps a string to a string of lowercase letters
    and digits only, and a string of that kind to itself: normalising
    twice is normalising once. *)
Theorem normalize_command_normal_form (command : string) :
  exists normalized,
    normalize_command (JStr command) = Ok normalized
    /\ Forall (fun c => is_lower_alnum c = true) (Str.to_list normalized)
    /\ normalize_command (JStr normalized) = Ok normalized.
Proof.
  eexists. split; [apply normalize_command_text|].
  rewrite normalize_command_text, to_list_of_list.
  assert (Forall (fun c => is_lower_alnum c = true)
            (List.map Str.lower_char
               (List.filter Str.is_alnum (Str.to_list command)))) as Hout.
  { apply Forall_forall. intros c Hc.
    apply list_elem_of_In, in_map_iff in Hc as (c0 & <- & Hc0).
    apply filter_In in Hc0 as [_ Hc0]. by apply lower_char_alnum. }
  split; [exact Hout|]. do 2 f_equal.
  induction Hout as [|c l Hc _ IH]; [reflexivity|].
  destruct (lower_alnum_fixed c Hc) as [Halnum Hfixed].
  cbn [List.filter]. rewrite Halnum. cbn [List.map]. by rewrite Hfixed, IH.
Qed.

(** ** System prompts that are not lists of blocks *)

Lemma system_texts_strings ss : system_texts (List.map JStr ss) = [].
Proof. induction ss as [|s ss IH]; [reflexivity|exact IH]. Qed.

(** A system prompt given as a string, or as a dict, is not read: its
    hash is the one of a request without system prompt. *)
Theorem system_prompt_not_a_list :
  (forall text, compute_system_prompt_hash (JStr text) = Ok "no_system")
  /\ (forall fields, compute_system_prompt_hash (JDict fields)
                     = Ok "no_system")
  /\ compute_system_prompt_hash (JList []) = Ok "no_system".
Proof.
  unfold compute_system_prompt_hash. split; [|split; [|reflexivity]].
  - intros text. cbn [Py.iter rbind]. by rewrite system_texts_strings.
  - intros fields. cbn [Py.iter rbind].
    rewrite <- (List.map_map fst JStr). by rewrite system_texts_strings.
Qed.

End FingerprintFacts.

(* ===================================================================== *)
(** * Properties of the stored entities *)
(* ===================================================================== *)

Module DedupFacts.
Import Dedup DedupForm.

#[local] Instance grown_preorder : PreOrder grown.
Proof.
  split.
  - intros e. split; reflexivity.
  - intros e1 e2 e3 [] []. split; try congruence.
    + lia.
    + by etransitivity.
    + by etransitivity.
Qed.

(** What a call does to the entry stored under a key. *)
Lemma step_lookup d c key :
  unique_entities (step d c) !! key = unique_entities d !! key
  \/ (unique_entities d !! key = None
      /\ exists e, unique_entities (step d c) !! key = Some e
                   /\ occurrence_count e = 1
                   /\ seen_in_requests e = [c_request_id c]
                   /\ first_seen_request e = c_request_id c
                   /\ first_seen_agent e
                      = (c_request_to_agent c !! c_request_id c)
                   /\ Dedup.entity_type e = c_entity_type c
                   /\ seen_in_agents e
                      = match c_request_to_agent c !! c_request_id c with
                        | Some a => if bool_decide (a = "") then [] else [a]
                        | None => []
                        end)
  \/ (exists e e',
        unique_entities d !! key = Some e
        /\ unique_entities (step d c) !! key = Some e'
        /\ Dedup.entity e' = Dedup.entity e
        /\ Dedup.entity_type e' = Dedup.entity_type e
        /\ first_seen_request e' = first_seen_request e
        /\ first_seen_agent e' = first_seen_agent e
        /\ occurrence_count e' = occurrence_count e + 1
        /\ seen_in_requests e' = seen_in_requests e ++ [c_request_id c]
        /\ (seen_in_agents e' = seen_in_agents e
            \/ exists a, a <> "" /\ (a ∉ seen_in_agents e)
                         /\ seen_in_agents e' = seen_in_agents e ++ [a])).
Proof.
  unfold step, deduplicate_entity, bind, lift, gets, modify, ret.
  destruct (Py.get (c_entity c) "id" JNull) as [entity_id|]; [|by left].
  destruct (negb (Py.truthy entity_id)); [by left|].
  destruct (hash_key entity_id) as [key'|]; [|by left].
  destruct (decide (key' = key)) as [->|Hne].
  - destruct (unique_entities d !! key) as [e|] eqn:Hknown; simpl.
    + right. right. exists e. eexists.
      split; [reflexivity|]. split; [apply lookup_insert_eq|].
      simpl. repeat split.
      destruct (c_request_to_agent c !! c_request_id c) as [a|];
        [|by left].
      destruct (bool_decide_reflect (a = "")) as [->|Hname]; [by left|].
      destruct (bool_decide_reflect (a ∈ seen_in_agents e)) as [Hin|Hout];
        [by left|].
      right. by exists a.
    + right. left. split; [reflexivity|]. eexists.
      split; [apply lookup_insert_eq|]. simpl. by repeat split.
  - left.
    destruct (unique_entities d !! key') as [e|]; simpl;
      by rewrite lookup_insert_ne.
Qed.

Lemma step_grown d c key e :
  unique_entities d !! key = Some e ->
  exists e', unique_entities (step d c) !! key = Some e' /\ grown e e'.
Proof.
  intros Hknown.
  destruct (step_lookup d c key)
    as [Hsame|[[Hnone _]|(e0 & e' & He0 & He' & ? & ? & ? & ? & Hcount
                          & Hreqs & Hagents)]].
  - exists e. rewrite Hsame. split; [exact Hknown|reflexivity].
  - congruence.
  - rewrite Hknown in He0. injection He0 as <-.
    exists e'. split; [exact He'|].
    split; try assumption.
    + lia.
    + rewrite Hreqs. by apply prefix_app_r.
    + destruct Hagents as [->|(a & _ & _ & ->)]; [done|by apply prefix_app_r].
Qed.

Lemma run_grown calls d key e :
  unique_entities d !! key = Some e ->
  exists e', unique_entities (run calls d) !! key = Some e' /\ grown e e'.
Proof.
  revert d e. induction calls as [|c calls IH]; intros d e Hknown.
  - exists e. split; [exact Hknown|reflexivity].
  - destruct (step_grown d c key e Hknown) as (e1 & He1 & Hg1).
    destruct (IH (step d c) e1 He1) as (e' & He' & Hg').
    exists e'. split; [exact He'|]. by etransitivity.
Qed.

(** X5. What is recorded of an entity at first sight stays: after any
    further calls the entity is still stored, with the same fields, the
    same type and the same first request and agent; its occurrence count
    has not gone down, and its request and agent lists have only been
    appended to. *)
Theorem first_sight_is_kept (calls : list call) (d : EntityDeduplicator)
  (entity_id : json) (e : UniqueEntity) :
  get_entity_by_id d entity_id = Ok (Some e) ->
  exists e',
    get_entity_by_id (run calls d) entity_id = Ok (Some e') /\ grown e e'.
Proof.
  unfold get_entity_by_id.
  destruct (hash_key entity_id) as [key|]; simpl; [|discriminate].
  intros [= Hknown].
  destruct (run_grown calls d key e Hknown) as (e' & He' & Hg).
  exists e'. by rewrite He'.
Qed.

(** The theorem at a Task tool use that is seen a second time, as a task. *)
Lemma first_sight_is_kept_witness :
  exists e e',
    get_entity_by_id (run [List.hd (Call ∅ JNull "" 0) DedupSpec.task_seen_twice]
                        init)
      (JStr "toolu_task") = Ok (Some e)
    /\ get_entity_by_id (run DedupSpec.task_seen_twice init)
         (JStr "toolu_task") = Ok (Some e')
    /\ Dedup.entity_type e' = "tool_use"
    /\ occurrence_count e' = 2
    /\ grown e e'.
Proof.
  eexists.
  destruct (first_sight_is_kept (List.tl DedupSpec.task_seen_twice)
              (run [List.hd (Call ∅ JNull "" 0) DedupSpec.task_seen_twice]
                 init)
              (JStr "toolu_task") _ eq_refl) as (e' & He' & Hg).
  exists e'. split; [reflexivity|]. split; [exact He'|].
  vm_compute in He'. injection He' as <-.
  split; [reflexivity|]. split; [reflexivity|]. exact Hg.
Defined.

Lemma step_well_formed d c :
  map_Forall (fun _ e => well_formed e) (unique_entities d) ->
  map_Forall (fun _ e => well_formed e) (unique_entities (step d c)).
Proof.
  intros Hinv key e' He'.
  destruct (step_lookup d c key)
    as [Hsame|[(_ & e0 & He0 & Hcount & Hreqs & Hfirst & Hagent & _ & Hagents)
              |(e & e0 & He & He0 & _ & _ & Hfirst & Hagent & Hcount
                & Hreqs & Hagents)]].
  - rewrite Hsame in He'. by apply (Hinv key).
  - rewrite He' in He0. injection He0 as <-.
    split.
    + by rewrite Hreqs, Hfirst.
    + rewrite Hagents. destruct (c_request_to_agent c !! c_request_id c);
        [destruct (bool_decide _)|];
        first [apply NoDup_nil_2 | apply NoDup_singleton].
    + rewrite Hagents.
      destruct (c_request_to_agent c !! c_request_id c) as [a|];
        [|apply not_elem_of_nil].
      destruct (bool_decide_reflect (a = "")); [apply not_elem_of_nil|].
      intros Hin. apply list_elem_of_singleton in Hin. congruence.
    + intros a Ha Hname. rewrite Hagents, <- Hagent, Ha.
      by rewrite bool_decide_eq_false_2.
    + rewrite Hagents, Hcount.
      destruct (c_request_to_agent c !! c_request_id c);
        [destruct (bool_decide _)|]; simpl; lia.
  - rewrite He' in He0. injection He0 as <-.
    destruct (Hinv key e He) as [Hwf1 Hwf2 Hwf3 Hwf4 Hwf5].
    split.
    + rewrite Hreqs, Hfirst.
      destruct (seen_in_requests e); [discriminate|exact Hwf1].
    + destruct Hagents as [->|(a & _ & Hnew & ->)]; [exact Hwf2|].
      apply NoDup_app. split; [exact Hwf2|]. split; [|apply NoDup_singleton].
      intros x Hx Hx'. apply list_elem_of_singleton in Hx'. congruence.
    + destruct Hagents as [->|(a & Hname & _ & ->)]; [exact Hwf3|].
      rewrite elem_of_app, list_elem_of_singleton. intros [?|?]; congruence.
    + intros a Ha Hname. rewrite Hagent in Ha.
      specialize (Hwf4 a Ha Hname).
      destruct Hagents as [->|(a0 & _ & _ & ->)]; [exact Hwf4|].
      destruct (seen_in_agents e); [discriminate|exact Hwf4].
    + rewrite Hcount.
      destruct Hagents as [->|(a0 & _ & _ & ->)]; [lia|].
      rewrite List.length_app. simpl. lia.
Qed.

(** X6. Every stored entity is well formed after any sequence of calls:
    its request list starts with the request of first sight, its agent
    list holds no agent twice and no empty identifier, starts with the
    agent of first sight when there was one, and is no longer than the
    occurrence count. *)
Theorem stored_entities_well_formed (calls : list call) :
  map_Forall (fun _ e => well_formed e) (unique_entities (run calls init)).
Proof.
  assert (forall d,
            map_Forall (fun _ e => well_formed e) (unique_entities d) ->
            map_Forall (fun _ e => well_formed e)
              (unique_entities (run calls d))) as Hrun.
  { induction calls as [|c calls IH]; intros d Hinv; [exact Hinv|].
    apply IH, step_well_formed, Hinv. }
  apply Hrun, map_Forall_empty.
Qed.

(** X7. An entity that was seen is a duplicate ever after: a later call
    with the same identifier, whatever entity and type it is given and
    whatever was deduplicated in between, reports a duplicate, and names
    the request and the agent of the first sighting. *)
Theorem seen_again_is_duplicate (calls : list call) (d : EntityDeduplicator)
  (first again : call) (entity_id entity_id' : json) (key : pykey) :
  Py.get (c_entity first) "id" JNull = Ok entity_id ->
  Py.get (c_entity again) "id" JNull = Ok entity_id' ->
  Py.truthy entity_id = true -> Py.truthy entity_id' = true ->
  hash_key entity_id = Ok key -> hash_key entity_id' = Ok key ->
  get_entity_by_id d entity_id = Ok None ->
  exists fields count,
    snd (deduplicate_entity (c_request_to_agent again) (c_entity again)
           (c_entity_type again) (c_request_id again)
           (run calls (step d first)))
    = Ok (Duplicate fields (c_entity_type again) entity_id'
            (c_request_id first)
            (c_request_to_agent first !! c_request_id first) count)
    /\ 2 <= count.
Proof.
  intros Hid Hid' Htrue Htrue' Hkey Hkey' Hnew.
  unfold get_entity_by_id in Hnew. rewrite Hkey in Hnew.
  injection Hnew as Hnew.
  destruct (step_lookup d first key)
    as [Hsame|[(_ & e1 & He1 & Hcount & _ & Hfirst & Hagent & _)
              |(e & _ & He & _)]]; [|clear Hnew|congruence].
  { exfalso. revert Hsame.
    unfold step, deduplicate_entity, bind, lift, gets, modify, ret.
    rewrite Hid, Htrue, Hkey. cbv beta iota delta [negb].
    rewrite Hnew. cbn [fst unique_entities].
    by rewrite lookup_insert_eq. }
  destruct (run_grown calls (step d first) key e1 He1) as (e2 & He2 & Hg).
  unfold deduplicate_entity, bind, lift, gets, modify, ret.
  rewrite Hid', Htrue', Hkey'. cbv beta iota delta [negb].
  rewrite He2. cbn [snd].
  do 2 eexists. split.
  - rewrite (grown_request _ _ Hg), (grown_agent _ _ Hg), Hfirst, Hagent.
    reflexivity.
  - pose proof (grown_count _ _ Hg). simpl. lia.
Qed.

(** The theorem at a Task tool use that is handed over as a tool use and
    then as a task. *)
Lemma seen_again_is_duplicate_witness :
  let first :=
    Call {[0 := "agent_0"]} DedupSpec.task_tool_use "tool_use" 0 in
  let again := Call {[0 := "agent_0"]} DedupSpec.task_tool_use "task" 0 in
  exists fields count,
    snd (deduplicate_entity (c_request_to_agent again) (c_entity again)
           (c_entity_type again) (c_request_id again)
           (run [] (step init first)))
    = Ok (Duplicate fields (c_entity_type again) (JStr "toolu_task")
            (c_request_id first)
            (c_request_to_agent first !! c_request_id first) count)
    /\ 2 <= count.
Proof.
  intros first again.
  apply (seen_again_is_duplicate [] init first again
           (JStr "toolu_task") (JStr "toolu_task") (KStr "toolu_task"));
    vm_compute; reflexivity.
Defined.

End DedupFacts.

(* ===================================================================== *)
(** * Properties of the sessions and of the shape of the graph *)
(* ===================================================================== *)

Module GraphFacts.
Import Graph GraphSpec GraphForm GraphProofs.

(** ** Sessions *)

Lemma covers_snoc start sessions first last :
  covers start sessions first -> (first <= last)%nat ->
  covers start (sessions ++ [(first, last)]) (S last).
Proof.
  revert start. induction sessions as [|[s e] rest IH]; intros start; simpl.
  - intros -> Hle. by repeat split.
  - intros (-> & Hse & Hrest) Hle. repeat split; [exact Hse|].
    by apply IH.
Qed.

Lemma detect_sessions_step_scanned lib gap i log st st' :
  scanned lib i st ->
  detect_sessions_step lib gap st (i, log) = Ok st' ->
  scanned lib (S i) st'.
Proof.
  intros (Hcov & Hstart & Hprev). unfold detect_sessions_step.
  assert (scanned lib (S i) st) as Hkeep.
  { split; [exact Hcov|]. split; [|right; lia].
    destruct Hstart; [by left|right; lia]. }
  destruct (Py.get log "timestamp" (JStr "")) as [timestamp|]; simpl;
    [|discriminate].
  destruct (negb (Py.truthy timestamp)); [by intros [= <-]|].
  destruct (parse_timestamp lib timestamp) as [curr|]; [|by intros [= <-]].
  assert (scanned lib (S i)
            (ScanState lib (sessions_so_far lib st)
               (current_session_start lib st) (Some curr))) as Hsame.
  { split; [exact Hcov|]. split; [|right; lia].
    destruct Hstart; [by left|right; simpl; lia]. }
  destruct (prev_time lib st) as [prev|] eqn:Hp; [|by intros [= <-]].
  destruct (seconds_between lib curr prev) as [secs|]; simpl; [|discriminate].
  destruct (Qlt_le_dec (gap * 60) secs); [|by intros [= <-]].
  intros [= <-]. destruct Hprev as [|Hi]; [congruence|].
  split; simpl.
  - replace i with (S (Nat.pred i)) at 2 by lia.
    apply covers_snoc; [exact Hcov|]. lia.
  - split; right; lia.
Qed.

Lemma detect_sessions_loop lib gap logs i st st' :
  scanned lib i st ->
  rfold (detect_sessions_step lib gap)
    (List.combine (seq i (List.length logs)) logs) st = Ok st' ->
  scanned lib (i + List.length logs) st'.
Proof.
  revert i st. induction logs as [|log logs IH]; intros i st Hst;
    cbn [List.length seq List.combine rfold].
  - intros [= <-]. by rewrite Nat.add_0_r.
  - destruct (detect_sessions_step lib gap st (i, log)) as [st1|] eqn:Hstep;
      cbn [rbind]; [|discriminate].
    intros Hrest. replace (i + S (List.length logs))%nat
      with (S i + List.length logs)%nat by lia.
    apply (IH (S i) st1); [|exact Hrest].
    by apply (detect_sessions_step_scanned lib gap i log st).
Qed.

Lemma detect_sessions_covers lib logs gap sessions :
  detect_sessions lib logs gap = Ok sessions ->
  covers 0 sessions (List.length logs).
Proof.
  unfold detect_sessions. destruct logs as [|log logs]; [by intros [= <-]|].
  destruct (rfold _ _ _) as [st|] eqn:Hloop; simpl; [|discriminate].
  apply (detect_sessions_loop lib gap (log :: logs) 0) in Hloop as
    (Hcov & Hstart & _).
  2:{ split; [reflexivity|]. split; by left. }
  simpl in Hstart.
  destruct (Nat.ltb_spec (current_session_start lib st)
              (S (List.length logs))) as [Hlt|Hge]; [|lia].
  intros [= <-].
  apply (covers_snoc 0 _ _ (List.length logs)); [exact Hcov|lia].
Qed.

(** X8. The sessions [detect_sessions] returns split the positions of the
    log list: the first session starts at position 0, each one starts
    right after the end of the one before, none is empty, and the last one
    ends at the last position. *)
Theorem sessions_split_the_log (lib : datetime_lib) (logs : list json)
  (gap_minutes : Q) (sessions : list (nat * nat)) :
  detect_sessions lib logs gap_minutes = Ok sessions ->
  covers 0 sessions (List.length logs).
Proof. apply detect_sessions_covers. Qed.

(** The theorem at four entries in two sessions. *)
Lemma sessions_split_the_log_witness :
  detect_sessions Clock.lib Examples.two_sessions 10
  = Ok [(0%nat, 1%nat); (2%nat, 3%nat)]
  /\ covers 0 [(0%nat, 1%nat); (2%nat, 3%nat)]
       (List.length Examples.two_sessions).
Proof.
  split; [vm_compute; reflexivity|].
  apply (sessions_split_the_log Clock.lib Examples.two_sessions 10).
  vm_compute. reflexivity.
Defined.

Lemma undated_step lib gap st i log :
  undated lib log -> detect_sessions_step lib gap st (i, log) = Ok st.
Proof.
  intros (fields & -> & Hts). unfold detect_sessions_step.
  cbn [Py.get rbind].
  destruct Hts as [Hfalse|[e He]].
  - by rewrite Hfalse.
  - destruct (negb _); [reflexivity|]. by rewrite He.
Qed.

Lemma undated_loop lib gap st i logs :
  Forall (undated lib) logs ->
  rfold (detect_sessions_step lib gap)
    (List.combine (seq i (List.length logs)) logs) st = Ok st.
Proof.
  intros Hlogs. revert i. induction Hlogs as [|log logs Hlog _ IH];
    intros i; cbn [List.length seq List.combine rfold]; [reflexivity|].
  rewrite (undated_step lib gap st i log Hlog). cbn [rbind]. apply IH.
Qed.

(** X9. Entries without a usable timestamp (none, an empty one, one that
    is not a string or that [fromisoformat] rejects) draw no session
    boundary and raise nothing: a log list made of such entries is one
    session. *)
Theorem undated_logs_are_one_session (lib : datetime_lib)
  (log : json) (logs : list json) (gap_minutes : Q) :
  Forall (undated lib) (log :: logs) ->
  detect_sessions lib (log :: logs) gap_minutes
  = Ok [(0%nat, List.length logs)].
Proof.
  intros Hlogs. unfold detect_sessions, enumerate.
  rewrite (undated_loop lib gap_minutes _ 0 (log :: logs) Hlogs).
  reflexivity.
Qed.

(** The theorem at three entries: one without timestamp, one whose
    timestamp is not a date, one whose timestamp is null. *)
Lemma undated_logs_are_one_session_witness :
  Forall (undated Clock.lib)
    [JDict []; JDict [("timestamp", JStr "yesterday")];
     JDict [("timestamp", JNull)]]
  /\ detect_sessions Clock.lib
       [JDict []; JDict [("timestamp", JStr "yesterday")];
        JDict [("timestamp", JNull)]] 10
     = Ok [(0%nat, 2%nat)].
Proof.
  assert (Forall (undated Clock.lib)
            [JDict []; JDict [("timestamp", JStr "yesterday")];
             JDict [("timestamp", JNull)]]) as Hlogs.
  { repeat constructor.
    - eexists. split; [reflexivity|]. left. reflexivity.
    - eexists. split; [reflexivity|]. right. eexists. vm_compute.
      reflexivity.
    - eexists. split; [reflexivity|]. left. reflexivity. }
  split; [exact Hlogs|].
  apply (undated_logs_are_one_session Clock.lib _ _ 10 Hlogs).
Defined.

(** ** The parts of the graph *)

(** What [add_session] adds to the graph. *)
Lemma add_session_shape lib sorted_logs max_logs acc session_idx session acc' :
  add_session lib sorted_logs max_logs acc (session_idx, session) = Ok acc' ->
  exists indexes tool_edges spawn_edges content_edges new start_time end_time,
    build_tool_index (session_logs_of sorted_logs max_logs session)
      (Some session_idx) = Ok indexes
    /\ match_tool_results (session_logs_of sorted_logs max_logs session)
         indexes (Some session_idx) = Ok tool_edges
    /\ detect_subagent_spawns lib
         (session_logs_of sorted_logs max_logs session) = Ok spawn_edges
    /\ detect_content_reuse (session_logs_of sorted_logs max_logs session)
       = Ok content_edges
    /\ session_nodes (List.length (nodes acc)) session_idx 0
         (session_logs_of sorted_logs max_logs session) = Ok new
    /\ acc'
       = WorkflowGraph (nodes acc ++ new)
           (edges acc
            ++ List.map (globalize (List.length (nodes acc)) session_idx)
                 (tool_edges ++ spawn_edges ++ content_edges))
           (sessions acc
            ++ [SessionInfo session_idx (List.length (nodes acc))
                  (Z.of_nat (List.length (nodes acc ++ new)) - 1)
                  (List.length (session_logs_of sorted_logs max_logs session))
                  (List.length (tool_edges ++ spawn_edges ++ content_edges))
                  start_time end_time])
           None.
Proof.
  unfold add_session. destruct session as [session_start session_end].
  change (if max_logs <? _ then _ else _)
    with (session_logs_of sorted_logs max_logs (session_start, session_end)).
  generalize (session_logs_of sorted_logs max_logs
                (session_start, session_end)).
  intros session_logs.
  destruct (build_tool_index session_logs (Some session_idx))
    as [indexes|] eqn:Hindex; cbn [rbind]; [|discriminate].
  destruct (match_tool_results session_logs indexes (Some session_idx))
    as [tool_edges|] eqn:Htool; cbn [rbind]; [|discriminate].
  destruct (detect_subagent_spawns lib session_logs)
    as [spawn_edges|] eqn:Hspawn; cbn [rbind]; [|discriminate].
  destruct (detect_content_reuse session_logs)
    as [content_edges|] eqn:Hcontent; cbn [rbind]; [|discriminate].
  destruct (session_nodes (List.length (nodes acc)) session_idx 0
              session_logs) as [new|] eqn:Hnew; cbn [rbind]; [|discriminate].
  destruct (match session_logs with
            | [] => Ok JNull
            | first :: _ => Py.get first "timestamp" JNull
            end) as [start_time|]; cbn [rbind]; [|discriminate].
  destruct (match session_logs with
            | [] => Ok JNull
            | _ :: _ => Py.get (List.last session_logs JNull) "timestamp" JNull
            end) as [end_time|]; cbn [rbind]; [|discriminate].
  intros [= <-].
  exists indexes, tool_edges, spawn_edges, content_edges, new,
    start_time, end_time.
  by repeat split.
Qed.

Lemma build_workflow_graph_shape lib logs max_logs gap g :
  build_workflow_graph lib logs max_logs gap = Ok g ->
  (logs = [] /\ g = WorkflowGraph [] [] [] None)
  \/ exists sorted_logs detected g0,
       logs <> []
       /\ sorted_by_timestamp logs = Ok sorted_logs
       /\ detect_sessions lib sorted_logs gap = Ok detected
       /\ rfold (add_session lib sorted_logs max_logs) (enumerate detected)
            (WorkflowGraph [] [] [] None) = Ok g0
       /\ g = WorkflowGraph (nodes g0) (edges g0) (sessions g0)
                (Some (GraphMetrics (List.length (nodes g0))
                         (List.length (edges g0)) (List.length detected))).
Proof.
  unfold build_workflow_graph. destruct logs as [|log logs].
  { intros [= <-]. by left. }
  destruct (sorted_by_timestamp (log :: logs)) as [sorted_logs|];
    cbn [rbind]; [|discriminate].
  destruct (detect_sessions lib sorted_logs gap) as [detected|] eqn:Hdet;
    cbn [rbind]; [|discriminate].
  destruct (rmap (print_session sorted_logs) detected) as [printed|];
    cbn [rbind]; [|discriminate].
  destruct (rfold (add_session lib sorted_logs max_logs) (enumerate detected)
              (WorkflowGraph [] [] [] None)) as [g0|] eqn:Hfold;
    cbn [rbind]; [|discriminate].
  intros [= <-]. right. exists sorted_logs, detected, g0.
  by repeat split.
Qed.

(** The loop over the sessions, with the number of each session. *)
Lemma sessions_loop_ind lib sorted_logs max_logs
  (P : nat -> workflow_graph -> Prop) detected first acc g :
  P first acc ->
  (forall i session a a',
     In session detected -> P i a ->
     add_session lib sorted_logs max_logs a (i, session) = Ok a' ->
     P (S i) a') ->
  rfold (add_session lib sorted_logs max_logs)
    (List.combine (seq first (List.length detected)) detected) acc = Ok g ->
  P (first + List.length detected)%nat g.
Proof.
  revert first acc. induction detected as [|session rest IH];
    intros first acc Hacc Hstep; cbn [List.length seq List.combine rfold].
  - intros [= <-]. by rewrite Nat.add_0_r.
  - destruct (add_session lib sorted_logs max_logs acc (first, session))
      as [acc1|] eqn:Hadd; cbn [rbind]; [|discriminate].
    intros Hrest.
    replace (first + S (List.length rest))%nat
      with (S first + List.length rest)%nat by lia.
    apply (IH (S first) acc1); [| |exact Hrest].
    + apply (Hstep first session acc acc1); [by left|exact Hacc|exact Hadd].
    + intros i x a a' Hx. apply Hstep. by right.
Qed.

Lemma node_of_local global_idx session_idx local_idx log node :
  node_of global_idx session_idx local_idx log = Ok node ->
  session_id node = session_idx /\ session_local_index node = local_idx.
Proof.
  unfold node_of, rbind.
  repeat (case_match; try discriminate).
  by intros [= <-].
Qed.

Lemma session_nodes_local start session_idx local logs new :
  session_nodes start session_idx local logs = Ok new ->
  List.length new = List.length logs
  /\ forall j node, new !! j = Some node ->
                     session_id node = session_idx
                     /\ session_local_index node = (local + j)%nat.
Proof.
  revert local new. induction logs as [|log logs IH]; intros local new;
    cbn [session_nodes].
  - intros [= <-]. split; [reflexivity|]. intros j node H. discriminate.
  - destruct (node_of _ _ _ log) as [node0|] eqn:Hnode; cbn [rbind];
      [|discriminate].
    destruct (session_nodes start session_idx (S local) logs) as [rest|]
      eqn:Hrest; cbn [rbind]; [|discriminate].
    intros [= <-]. destruct (IH _ _ Hrest) as [Hlen Hloc].
    split; [simpl; by rewrite Hlen|].
    intros [|j] node; simpl.
    + intros [= <-]. apply node_of_local in Hnode as [-> ->].
      split; [reflexivity|lia].
    + intros H. destruct (Hloc j node H) as [-> ->].
      split; [reflexivity|lia].
Qed.

Lemma tiles_snoc session start infos stop info :
  tiles session start infos stop ->
  s_session_id info = (session + List.length infos)%nat ->
  s_node_start info = stop ->
  s_node_end info = Z.of_nat stop + Z.of_nat (s_node_count info) - 1 ->
  tiles session start (infos ++ [info]) (stop + s_node_count info).
Proof.
  revert session start.
  induction infos as [|x rest IH]; intros session start; simpl.
  - intros -> Hid Hstart Hend. rewrite Nat.add_0_r in Hid.
    by repeat split.
  - intros (Hx1 & Hx2 & Hx3 & Hrest) Hid Hstart Hend.
    repeat split; try assumption.
    apply IH; try assumption. rewrite Hid. lia.
Qed.

Lemma holds_nodes_app g g' info :
  (exists new, nodes g' = nodes g ++ new) ->
  holds_nodes g info -> holds_nodes g' info.
Proof.
  intros [new Hnodes] Hinfo j Hj.
  destruct (Hinfo j Hj) as (node & Hnode & Hrest).
  exists node. split; [|exact Hrest].
  rewrite Hnodes. by apply lookup_app_l_Some.
Qed.

(** X10. The sessions of a graph tile its nodes: they are numbered in
    order from 0, the nodes of each follow those of the one before, the
    node at every position of a session carries the number of the session
    and its position within it, and the metrics count the nodes, the edges
    and the sessions. *)
Theorem sessions_tile_the_nodes (lib : datetime_lib) (logs : list json)
  (max_logs : Z) (gap : Q) (g : workflow_graph) :
  build_workflow_graph lib logs max_logs gap = Ok g ->
  tiles 0 0 (sessions g) (List.length (nodes g))
  /\ Forall (holds_nodes g) (sessions g)
  /\ (logs <> [] ->
      metrics g
      = Some (GraphMetrics (List.length (nodes g)) (List.length (edges g))
                (List.length (sessions g)))).
Proof.
  intros Hbuild.
  destruct (build_workflow_graph_shape _ _ _ _ _ Hbuild)
    as [[-> ->]|(sorted_logs & detected & g0 & Hne & _ & _ & Hfold & ->)].
  { split; [reflexivity|]. split; [constructor|]. by intros []. }
  cbn [nodes edges sessions metrics].
  apply (sessions_loop_ind lib sorted_logs max_logs
           (fun i a =>
              List.length (sessions a) = i
              /\ tiles 0 0 (sessions a) (List.length (nodes a))
              /\ Forall (holds_nodes a) (sessions a))) in Hfold.
  - destruct Hfold as (Hlen & Htiles & Hnodes).
    split; [exact Htiles|]. split; [exact Hnodes|].
    intros _. by rewrite Hlen.
  - split; [reflexivity|]. split; [reflexivity|constructor].
  - intros i session a a' _ (Hlen & Htiles & Hnodes) Hadd.
    apply add_session_shape in Hadd
      as (indexes & tool_edges & spawn_edges & content_edges & new
          & start_time & end_time & _ & _ & _ & _ & Hnew & ->).
    apply session_nodes_local in Hnew as [Hcount Hloc].
    cbn [nodes sessions]. split; [|split].
    + rewrite List.length_app, Hlen. simpl. lia.
    + rewrite List.length_app, Hcount.
      apply tiles_snoc; cbn [s_session_id s_node_start s_node_end
                             s_node_count];
        [exact Htiles|lia|reflexivity|lia].
    + apply Forall_app. split.
      * eapply Forall_impl; [exact Hnodes|]. intros info.
        apply holds_nodes_app. by exists new.
      * constructor; [|constructor].
        intros j Hj. cbn [s_node_count s_node_start s_session_id] in *.
        rewrite <- Hcount in Hj.
        apply lookup_lt_is_Some in Hj as [node Hnode].
        exists node. cbn [nodes].
        rewrite lookup_app_r by lia.
        replace (List.length (nodes a) + j - List.length (nodes a))%nat
          with j by lia.
        split; [exact Hnode|]. destruct (Hloc j node Hnode) as [-> ->].
        by split.
Qed.

(** The theorem at four entries in two sessions. *)
Lemma sessions_tile_the_nodes_witness :
  exists g,
    build_workflow_graph Clock.lib Examples.two_sessions 1000 10 = Ok g
    /\ List.map (fun info => (s_node_start info, s_node_end info))
         (sessions g) = [(0%nat, 1); (2%nat, 3)]
    /\ tiles 0 0 (sessions g) (List.length (nodes g))
    /\ Forall (holds_nodes g) (sessions g)
    /\ (Examples.two_sessions <> [] ->
        metrics g
        = Some (GraphMetrics (List.length (nodes g)) (List.length (edges g))
                  (List.length (sessions g)))).
Proof.
  eexists. split; [vm_compute; reflexivity|].
  split; [reflexivity|].
  apply (sessions_tile_the_nodes Clock.lib Examples.two_sessions 1000 10).
  vm_compute. reflexivity.
Defined.

(** ** The cap on the entries of a session *)

Lemma session_logs_capped sorted_logs max_logs session :
  0 < max_logs ->
  Z.of_nat (List.length (session_logs_of sorted_logs max_logs session))
  <= max_logs.
Proof.
  intros Hmax. unfold session_logs_of, last_n.
  destruct (Z.ltb_spec max_logs
              (Z.of_nat (List.length
                           (slice (fst session) (S (snd session))
                              sorted_logs)))) as [Hlt|Hge]; [|exact Hge].
  destruct (Z.eqb_spec max_logs 0) as [|_]; [lia|].
  destruct (Z.ltb_spec 0 max_logs) as [_|]; [|lia].
  rewrite length_skipn. lia.
Qed.

Lemma session_logs_uncapped sorted_logs max_logs session :
  max_logs = 0 \/ Z.of_nat (List.length sorted_logs) <= max_logs ->
  session_logs_of sorted_logs max_logs session
  = slice (fst session) (S (snd session)) sorted_logs.
Proof.
  intros Hmax. unfold session_logs_of, last_n.
  destruct (Z.ltb_spec max_logs
              (Z.of_nat (List.length
                           (slice (fst session) (S (snd session))
                              sorted_logs)))) as [Hlt|Hge]; [|reflexivity].
  destruct (Z.eqb_spec max_logs 0) as [|Hne]; [reflexivity|].
  exfalso. destruct Hmax as [|Hmax]; [contradiction|].
  unfold slice in Hlt. rewrite length_firstn, length_skipn in Hlt. lia.
Qed.

Lemma covers_le start sessions stop :
  covers start sessions stop -> (start <= stop)%nat.
Proof.
  revert start. induction sessions as [|[first last] rest IH];
    intros start; simpl.
  - intros ->. lia.
  - intros (-> & Hle & Hrest). apply IH in Hrest. lia.
Qed.

Lemma rmap_length {A B} (f : A -> result B) xs ys :
  rmap f xs = Ok ys -> List.length ys = List.length xs.
Proof.
  revert ys. induction xs as [|x xs IH]; intros ys; cbn [rmap].
  - by intros [= <-].
  - destruct (f x); cbn [rbind]; [|discriminate].
    destruct (rmap f xs) as [ys'|]; cbn [rbind]; [|discriminate].
    intros [= <-]. simpl. by rewrite (IH ys').
Qed.

Lemma insert_sorted_length x sorted sorted' :
  insert_sorted x sorted = Ok sorted' ->
  List.length sorted' = S (List.length sorted).
Proof.
  revert sorted'. induction sorted as [|y rest IH]; intros sorted';
    cbn [insert_sorted].
  - by intros [= <-].
  - destruct (key_lt (fst x) (fst y)) as [[]|]; cbn [rbind];
      [by intros [= <-]| |discriminate].
    destruct (insert_sorted x rest) as [rest'|]; cbn [rbind];
      [|discriminate].
    intros [= <-]. simpl. by rewrite (IH rest').
Qed.

Lemma sorted_by_timestamp_length logs sorted_logs :
  sorted_by_timestamp logs = Ok sorted_logs ->
  List.length sorted_logs = List.length logs.
Proof.
  unfold sorted_by_timestamp.
  destruct (rmap _ logs) as [keyed|] eqn:Hkeyed; cbn [rbind];
    [|discriminate].
  apply rmap_length in Hkeyed. rewrite <- Hkeyed.
  destruct (rfold _ keyed []) as [sorted|] eqn:Hsorted; cbn [rbind];
    [|discriminate].
  intros [= <-]. rewrite length_map.
  assert (forall acc r,
            rfold (fun acc x => insert_sorted x acc) keyed acc = Ok r ->
            List.length r = (List.length acc + List.length keyed)%nat)
    as Hloop.
  { clear. induction keyed as [|x keyed IH]; intros acc r; cbn [rfold].
    - intros [= <-]. simpl. lia.
    - destruct (insert_sorted x acc) as [acc1|] eqn:Hins; cbn [rbind];
        [|discriminate].
      intros Hrest. apply IH in Hrest.
      apply insert_sorted_length in Hins. simpl. lia. }
  by rewrite (Hloop [] sorted Hsorted).
Qed.

Lemma uncapped_loop lib sorted_logs max_logs detected first acc g :
  max_logs = 0 \/ Z.of_nat (List.length sorted_logs) <= max_logs ->
  covers (List.length (nodes acc)) detected (List.length sorted_logs) ->
  rfold (add_session lib sorted_logs max_logs)
    (List.combine (seq first (List.length detected)) detected) acc = Ok g ->
  List.length (nodes g) = List.length sorted_logs.
Proof.
  intros Hmax. revert first acc.
  induction detected as [|[s e] rest IH]; intros first acc;
    cbn [List.length seq List.combine rfold covers].
  - intros Heq [= <-]. exact Heq.
  - intros (-> & Hle & Hcov).
    destruct (add_session lib sorted_logs max_logs acc (first, _))
      as [acc1|] eqn:Hadd; cbn [rbind]; [|discriminate].
    apply (IH (S first) acc1).
    apply add_session_shape in Hadd
      as (indexes & tool_edges & spawn_edges & content_edges & new
          & start_time & end_time & _ & _ & _ & _ & Hnew & ->).
    apply session_nodes_local in Hnew as [Hcount _].
    cbn [nodes]. rewrite List.length_app, Hcount.
    rewrite (session_logs_uncapped _ _ _ Hmax). cbn [fst snd].
    unfold slice. rewrite length_firstn, length_skipn.
    apply covers_le in Hcov as Hstop.
    replace (List.length (nodes acc)
             + Nat.min (S e - List.length (nodes acc))
                 (List.length sorted_logs - List.length (nodes acc)))%nat
      with (S e) by lia.
    exact Hcov.
Qed.

(** X11. The cap on the entries of a session: with a positive cap no
    session of the graph has more nodes than the cap; with a cap that the
    whole log does not exceed, and also with a cap of 0, every log entry
    becomes a node. *)
Theorem session_cap (lib : datetime_lib) (logs : list json)
  (max_logs : Z) (gap : Q) (g : workflow_graph) :
  build_workflow_graph lib logs max_logs gap = Ok g ->
  (0 < max_logs ->
   Forall (fun info => Z.of_nat (s_node_count info) <= max_logs)
     (sessions g))
  /\ (max_logs = 0 \/ Z.of_nat (List.length logs) <= max_logs ->
      List.length (nodes g) = List.length logs).
Proof.
  intros Hbuild.
  destruct (build_workflow_graph_shape _ _ _ _ _ Hbuild)
    as [[-> ->]|(sorted_logs & detected & g0 & Hne & Hsorted & Hdet
                 & Hfold & ->)].
  { split; [constructor|reflexivity]. }
  cbn [nodes sessions]. split.
  - intros Hmax. revert Hfold.
    apply (rfold_ind
             (fun a => Forall (fun info => Z.of_nat (s_node_count info)
                                           <= max_logs) (sessions a)));
      [constructor|].
    intros a [i session] a' _ Ha Hadd.
    apply add_session_shape in Hadd
      as (indexes & tool_edges & spawn_edges & content_edges & new
          & start_time & end_time & _ & _ & _ & _ & _ & ->).
    cbn [sessions]. apply Forall_app. split; [exact Ha|].
    constructor; [|constructor]. by apply session_logs_capped.
  - intros Hmax. apply sorted_by_timestamp_length in Hsorted.
    rewrite <- Hsorted in Hmax |- *.
    apply (uncapped_loop lib sorted_logs max_logs detected 0
             (WorkflowGraph [] [] [] None)); [exact Hmax| |exact Hfold].
    by apply (detect_sessions_covers lib sorted_logs gap).
Qed.

(** The theorem at four entries in two sessions, with a cap of one entry
    for each session and with a cap of 0. *)
Lemma session_cap_witness :
  exists g g0,
    build_workflow_graph Clock.lib Examples.two_sessions 1 10 = Ok g
    /\ build_workflow_graph Clock.lib Examples.two_sessions 0 10 = Ok g0
    /\ List.map s_node_count (sessions g) = [1; 1]%nat
    /\ List.length (nodes g0) = 4%nat
    /\ ((0 < 1 ->
         Forall (fun info => Z.of_nat (s_node_count info) <= 1)
           (sessions g))
        /\ (1 = 0 \/ Z.of_nat (List.length Examples.two_sessions) <= 1 ->
            List.length (nodes g) = List.length Examples.two_sessions)).
Proof.
  do 2 eexists. split; [vm_compute; reflexivity|].
  split; [vm_compute; reflexivity|].
  split; [reflexivity|]. split; [reflexivity|].
  apply (session_cap Clock.lib Examples.two_sessions 1 10).
  vm_compute. reflexivity.
Defined.

(** ** The kinds of edges *)

Lemma tool_edges_kind logs indexes session es :
  match_tool_results logs indexes session = Ok es ->
  Forall (fun e => g_type e = "tool_result" /\ g_confidence e = 1%Q) es.
Proof.
  unfold match_tool_results.
  apply (rfold_ind
           (Forall (fun e => g_type e = "tool_result"
                             /\ g_confidence e = 1%Q))); [constructor|].
  intros acc [target log] acc' _ Hacc. unfold match_log.
  destruct (request_messages log) as [messages|]; cbn [rbind];
    [|discriminate].
  destruct messages; try (by intros [= <-]).
  apply (rfold_ind
           (Forall (fun e => g_type e = "tool_result"
                             /\ g_confidence e = 1%Q))); [exact Hacc|].
  intros a message a' _ Ha. unfold match_message.
  destruct message; try (by intros [= <-]).
  destruct (Py.dict_get _ _ _); try (by intros [= <-]).
  apply (rfold_ind
           (Forall (fun e => g_type e = "tool_result"
                             /\ g_confidence e = 1%Q))); [exact Ha|].
  intros b block b' _ Hb. unfold match_block.
  destruct block; try (by intros [= <-]).
  destruct (Py.is_str _ _); [|by intros [= <-]].
  destruct (Py.truthy _); [|by intros [= <-]].
  destruct (index_key session _) as [key|]; cbn [rbind]; [|discriminate].
  destruct (fst indexes !! key) as [source|]; [|by intros [= <-]].
  intros [= <-]. apply Forall_app. split; [exact Hb|].
  constructor; [|constructor]. by split.
Qed.

Lemma scan_forward_found lib spawn_time spawn_hash idx logs i d :
  scan_forward lib spawn_time spawn_hash idx logs = Ok (Some (i, d)) ->
  (idx <= i)%nat /\ (0 <= d)%Q /\ (d <= 3600)%Q.
Proof.
  revert idx. induction logs as [|log rest IH]; intros idx;
    cbn [scan_forward]; [discriminate|].
  destruct (Py.get log "timestamp" JNull) as [ts|]; cbn [rbind];
    [|discriminate].
  destruct (parse_timestamp lib ts) as [log_time|]; cbn [rbind];
    [|discriminate].
  destruct (seconds_between lib log_time spawn_time) as [time_diff|];
    cbn [rbind]; [|discriminate].
  destruct (Qlt_le_dec 3600 time_diff) as [|Hhour]; [discriminate|].
  destruct (first_message_hash log) as [msg_hash|]; cbn [rbind];
    [|discriminate].
  destruct (Qlt_le_dec time_diff 0) as [|Hafter].
  - rewrite andb_false_r. intros H. apply IH in H as (? & ? & ?).
    split; [lia|by split].
  - destruct (_ && true).
    + intros [= <- <-]. split; [lia|by split].
    + intros H. apply IH in H as (? & ? & ?). split; [lia|by split].
Qed.

Lemma spawn_edges_kind lib logs es :
  detect_subagent_spawns lib logs = Ok es -> Forall spawn_edge_ok es.
Proof.
  unfold detect_subagent_spawns.
  destruct (rfold collect_log (enumerate logs) []) as [spawns|];
    cbn [rbind]; [|discriminate].
  apply (rfold_ind (Forall spawn_edge_ok)); [constructor|].
  intros acc spawn acc' _ Hacc. unfold match_spawn.
  destruct (parse_timestamp lib _) as [spawn_time|]; cbn [rbind];
    [|discriminate].
  destruct (prompt_hash spawn) as [h|]; [|by intros [= <-]].
  destruct (bool_decide (h = "")); [by intros [= <-]|].
  destruct (scan_forward lib spawn_time h _ _) as [[[best d]|]|] eqn:Hscan;
    cbn [rbind]; [|by intros [= <-]|discriminate].
  intros [= <-]. apply Forall_app. split; [exact Hacc|].
  constructor; [|constructor].
  apply scan_forward_found in Hscan as (Hidx & Hafter & Hhour).
  split; [reflexivity|]. split; [simpl; lia|]. split; [reflexivity|].
  by exists (subagent_type spawn), (task_tool_id spawn),
    (spawn_timestamp spawn), d.
Qed.

Lemma globalize_kind node_start session_idx e :
  edge_kind_ok e -> edge_kind_ok (globalize node_start session_idx e).
Proof.
  intros [[Hty Hconf]|[(Hty & Hlt & Hconf & Hmeta)|(Hty & Hlt & Hconf)]].
  - left. by split.
  - right. left. split; [exact Hty|].
    split; [simpl; lia|]. by split.
  - right. right. split; [exact Hty|]. split; [simpl; lia|exact Hconf].
Qed.

(** X12. Every edge of the request graph is of one of three kinds, each
    with its own confidence: a [tool_result] edge with confidence 1, a
    [subagent_spawn] edge with confidence 0.95 that leads from the entry
    of the Task call to a later entry, found no more than an hour after it
    and not before it, or a [content_reuse] edge with confidence 0.95 that
    leads to a later entry. *)
Theorem edges_by_kind (lib : datetime_lib) (logs : list json)
  (max_logs : Z) (gap : Q) (g : workflow_graph) :
  build_workflow_graph lib logs max_logs gap = Ok g ->
  Forall edge_kind_ok (edges g).
Proof.
  intros Hbuild.
  destruct (build_workflow_graph_shape _ _ _ _ _ Hbuild)
    as [[-> ->]|(sorted_logs & detected & g0 & _ & _ & _ & Hfold & ->)];
    [constructor|].
  cbn [edges]. revert Hfold.
  apply (rfold_ind (fun a => Forall edge_kind_ok (edges a))); [constructor|].
  intros a [i session] a' _ Ha Hadd.
  apply add_session_shape in Hadd
    as (indexes & tool_edges & spawn_edges & content_edges & new
        & start_time & end_time & _ & Htool & Hspawn & Hcontent & _ & ->).
  cbn [edges]. apply Forall_app. split; [exact Ha|].
  apply Forall_fmap.
  apply tool_edges_kind in Htool. apply spawn_edges_kind in Hspawn.
  apply content_edges_local in Hcontent.
  repeat apply Forall_app_2.
  - eapply Forall_impl; [exact Htool|]. intros e He.
    apply globalize_kind. by left.
  - eapply Forall_impl; [exact Hspawn|]. intros e He.
    apply globalize_kind. right. by left.
  - eapply Forall_impl; [exact Hcontent|]. intros e (Hty & _ & Hlt & Hconf).
    apply globalize_kind. right. right. by repeat split.
Qed.

(** The theorem at a Task call and the agent it started four seconds
    later. *)
Lemma edges_by_kind_witness :
  exists g,
    build_workflow_graph Clock.lib Examples.spawn_and_child 1000 10 = Ok g
    /\ List.map (fun e => (g_type e, g_source e, g_target e)) (edges g)
       = [("subagent_spawn", 0%nat, 1%nat)]
    /\ Forall edge_kind_ok (edges g).
Proof.
  eexists. split; [vm_compute; reflexivity|]. split; [reflexivity|].
  apply (edges_by_kind Clock.lib Examples.spawn_and_child 1000 10).
  vm_compute. reflexivity.
Defined.

End GraphFacts.

(* ===================================================================== *)
(** * Properties of the state of the tracker *)
(* ===================================================================== *)

Module TrackerFacts.
Import Tracker TrackerSpec TrackerForm Hoare HoareRules TrackerProofs.

(** ** Conversations that have a fingerprint *)

Lemma chars_aux_nil l cur :
  Py.chars_aux l cur = [] -> l = [] /\ cur = [].
Proof.
  revert cur. induction l as [|c l IH]; intros cur; simpl.
  - destruct cur; [by split|discriminate].
  - destruct (Str.starts_char c).
    + destruct cur; [|discriminate]. intros H. by apply IH in H as [_ ?].
    + intros H. by apply IH in H as [_ ?].
Qed.

(** A conversation that has a fingerprint is empty, or a list of message
    objects. *)
Lemma fingerprint_messages messages fp :
  compute_conversation_fingerprint messages = Ok fp ->
  Py.truthy messages = false
  \/ exists m msgs sigs,
       messages = JList (m :: msgs)
       /\ rmap message_signature (m :: msgs) = Ok sigs.
Proof.
  unfold compute_conversation_fingerprint.
  destruct (Py.truthy messages) eqn:Htrue; [|by left].
  cbn [negb]. intros H. right.
  destruct (Py.iter messages) as [items|] eqn:Hiter; cbn [rbind] in H;
    [|discriminate H].
  destruct (rmap message_signature items) as [sigs|] eqn:Hsigs;
    cbn [rbind] in H; [|discriminate H].
  clear H.
  destruct messages as [| | |s|[|m msgs]|[|[k v] d]];
    cbn [Py.iter Py.truthy] in Hiter, Htrue;
    try discriminate Htrue; try discriminate Hiter;
    injection Hiter as <-.
  - (* a string: its characters are not messages *)
    exfalso.
    destruct (Py.chars_aux (Str.to_list s) []) as [|c cs] eqn:Hcs.
    + apply chars_aux_nil in Hcs as [Hs _].
      destruct s; [discriminate Htrue|discriminate Hs].
    + cbn [List.map rmap message_signature Py.get rbind] in Hsigs.
      discriminate Hsigs.
  - by exists m, msgs, sigs.
  - (* a dict: its keys are not messages *)
    exfalso.
    cbn [List.map rmap message_signature Py.get rbind fst] in Hsigs.
    discriminate Hsigs.
Qed.

Lemma first_text_block_string blocks sigs text :
  block_signatures blocks = Ok sigs ->
  first_text_block blocks = Some text ->
  exists s, text = JStr s.
Proof.
  revert sigs. induction blocks as [|b blocks IH]; intros sigs;
    cbn [block_signatures first_text_block]; [discriminate|].
  destruct (block_signature b) as [sig|] eqn:Hb; cbn [rbind]; [|discriminate].
  destruct (block_signatures blocks) as [rest|]; cbn [rbind];
    [|discriminate].
  intros _. destruct b as [| | | | |d]; try (by apply (IH rest)).
  destruct (Py.is_str (Py.dict_get d "type" JNull) "text") eqn:Hty;
    [|by apply (IH rest)].
  intros [= <-]. revert Hb. unfold block_signature.
  assert (Py.is_str (Py.dict_get d "type" (JStr "unknown")) "text" = true)
    as ->.
  { revert Hty. unfold Py.dict_get.
    destruct (Py.assoc "type" d); [done|discriminate]. }
  destruct (Py.dict_get d "text" (JStr "")); try discriminate.
  by eexists.
Qed.

(** The first user message of a conversation that has a fingerprint is
    always found, and it is a string. *)
Lemma fingerprint_first_user_message messages fp :
  compute_conversation_fingerprint messages = Ok fp ->
  exists s, extract_first_user_message messages = Ok (JStr s).
Proof.
  intros Hfp. unfold extract_first_user_message.
  destruct (fingerprint_messages _ _ Hfp)
    as [->|(m & msgs & sigs & -> & Hsigs)]; [by exists ""|].
  cbn [Py.truthy negb first_item rbind].
  cbn [rmap] in Hsigs.
  destruct (message_signature m) as [sig|] eqn:Hm; cbn [rbind] in Hsigs;
    [|discriminate].
  clear Hsigs. destruct m as [| | | | |d]; try discriminate.
  cbn [Py.get rbind].
  destruct (negb (Py.is_str (Py.dict_get d "role" JNull) "user"));
    [by exists ""|].
  revert Hm. unfold message_signature. cbn [Py.get rbind].
  unfold Py.dict_get. destruct (Py.assoc "content" d) as [content|];
    [|by exists ""].
  destruct content as [| | |s|blocks|]; try (by exists "");
    [by exists s|].
  cbn [normalize_content].
  destruct (block_signatures blocks) as [bs|] eqn:Hbs; cbn [rbind];
    [|discriminate].
  intros _. destruct (first_text_block blocks) as [text|] eqn:Htext;
    [|by exists ""].
  destruct (first_text_block_string _ _ _ Hbs Htext) as [s ->].
  by exists s.
Qed.

Lemma extract_command_string text :
  exists command, extract_command_from_message (JStr text) = Ok command.
Proof.
  unfold extract_command_from_message.
  repeat case_match; by eexists.
Qed.

(** The spawn checks do not raise on a string. *)
Lemma spawn_of_string t s : exists spawn, spawn_of t (JStr s) = Ok spawn.
Proof.
  unfold spawn_of, detect_task_spawn, detect_tool_spawn.
  destruct (negb (Py.truthy (JStr s))); cbn [rbind compute_hash];
    [by eexists|].
  destruct (task_prompts t !! _) as [info|]; [by eexists|].
  destruct (extract_command_string s) as [command ->]. cbn [rbind].
  destruct command as [cmd|]; cbn [rbind]; [|by eexists].
  destruct (bool_decide (cmd = "")); cbn [rbind]; [by eexists|].
  rewrite FingerprintFacts.normalize_command_text. cbn [rbind compute_hash].
  destruct (alist_get _ (tool_command_index t)); cbn [rbind]; [by eexists|].
  destruct (15 <=? _)%nat; cbn [rbind]; by eexists.
Qed.

Lemma find_parent_sized t messages sph r :
  find_parent_conversation t messages sph = Ok r ->
  exists n, Py.len messages = Ok n.
Proof.
  unfold find_parent_conversation.
  destruct (Py.len messages) as [n|]; [by exists n|discriminate].
Qed.

(** ** The outcomes of [identify_or_create_agent] *)

Lemma set_instances_same t : set_instances (instances t) t = t.
Proof. by destruct t. Qed.

Lemma append_request_run key rid fpo messages ts t :
  append_request key rid fpo messages ts t
  = match Py.len messages with
    | Ok n =>
        (set_instances
           (alist_update key (appended rid fpo n ts) (instances t)) t,
         Ok tt)
    | Raise e =>
        (set_instances
           (alist_update key (half_appended rid fpo) (instances t)) t,
         Raise e)
    end.
Proof.
  unfold append_request, update_instance, bind, lift, modify.
  destruct (Py.len messages) as [n|e]; [|reflexivity].
  unfold set_instances. cbn [instances]. by rewrite alist_update_update.
Qed.

Lemma link_child_run parent_id agent_id t :
  link_child parent_id agent_id t
  = (set_instances (linked parent_id agent_id (instances t)) t, Ok tt).
Proof.
  unfold link_child, linked, update_instance, bind, gets, modify, ret.
  destruct (alist_get parent_id (instances t)) as [parent|];
    [|by rewrite set_instances_same].
  destruct (_ && _); [reflexivity|by rewrite set_instances_same].
Qed.

Lemma attach_parent_run agent_id first_user_msg agent t :
  attach_parent agent_id first_user_msg agent t
  = match spawn_of t first_user_msg with
    | Ok (Some (task, parent)) =>
        (set_instances (linked parent agent_id (instances t)) t,
         Ok (set_spawn task (Some parent) agent))
    | Ok None => (t, Ok agent)
    | Raise e => (t, Raise e)
    end.
Proof.
  unfold attach_parent, spawn_of, bind, reads, ret.
  destruct (detect_task_spawn t first_user_msg) as [[info|]|e];
    cbn [rbind]; [|  |reflexivity].
  - by rewrite link_child_run.
  - destruct (detect_tool_spawn t first_user_msg) as [[info|]|e];
      cbn [rbind]; [|reflexivity|reflexivity].
    by rewrite link_child_run.
Qed.

Lemma spawn_of_counter t n first_user_msg :
  spawn_of (set_agent_counter n t) first_user_msg = spawn_of t first_user_msg.
Proof. reflexivity. Qed.

Lemma create_agent_run rid messages ts sph fp t first_user_msg n spawn :
  extract_first_user_message messages = Ok first_user_msg ->
  Py.len messages = Ok n ->
  spawn_of t first_user_msg = Ok spawn ->
  create_agent rid messages ts sph fp t
  = (set_request_to_agent
       (<[rid := agent_name (agent_counter t)]> (request_to_agent t))
       (set_fingerprint_to_agent
          (<[fp := agent_name (agent_counter t)]> (fingerprint_to_agent t))
          (set_instances
             (alist_set (agent_name (agent_counter t))
                (created (agent_name (agent_counter t)) sph fp rid n
                   first_user_msg ts spawn)
                (match spawn with
                 | Some (_, parent) =>
                     linked parent (agent_name (agent_counter t))
                       (instances t)
                 | None => instances t
                 end))
             (set_agent_counter (S (agent_counter t)) t))),
     Ok (agent_name (agent_counter t))).
Proof.
  intros Hfirst Hlen Hspawn.
  unfold create_agent, bind, gets, lift, modify, ret.
  rewrite Hfirst, Hlen, attach_parent_run, spawn_of_counter, Hspawn.
  by destruct spawn as [[task parent]|].
Qed.

Lemma find_parent_loop_stored t messages sph backtracks key :
  find_parent_loop t messages sph backtracks = Ok (Some key) ->
  exists a, alist_get key (instances t) = Some a.
Proof.
  intros H. by apply (find_parent_loop_found t messages sph backtracks key).
Qed.

Lemma identify_outcomes rid body ts t outcome :
  identify_or_create_agent rid body ts t = outcome ->
  identified rid body ts t (fst outcome) (snd outcome).
Proof.
  unfold identify_or_create_agent.
  unfold bind at 1. unfold lift at 1.
  destruct (Py.get body "messages" (JList [])) as [messages|] eqn:Hmsgs;
    [|intros <-; apply id_failed].
  unfold bind at 1. unfold lift at 1.
  destruct (Py.get body "system" (JList [])) as [system|] eqn:Hsys;
    [|intros <-; apply id_failed].
  unfold bind at 1. unfold lift at 1.
  destruct (compute_system_prompt_hash system) as [sph|] eqn:Hsph;
    [|intros <-; apply id_failed].
  unfold bind at 1. unfold lift at 1.
  destruct (compute_conversation_fingerprint messages) as [fp|] eqn:Hfp;
    [|intros <-; apply id_failed].
  unfold bind at 1. unfold gets at 1.
  destruct (fingerprint_to_agent t !! fp) as [key|] eqn:Hknown.
  - (* replay *)
    unfold bind at 1. unfold get_instance, reads.
    destruct (alist_get key (instances t)) as [a|] eqn:Ha;
      [|intros <-; apply id_failed].
    unfold bind at 1. rewrite append_request_run.
    destruct (Py.len messages) as [n|e] eqn:Hlen; intros <-.
    + by apply (id_replayed rid body ts t messages fp key a n).
    + by apply (id_replayed_unsized rid body ts t messages fp key a e).
  - unfold bind at 1. unfold reads at 1.
    destruct (find_parent_conversation t messages sph) as [[key|]|e]
      eqn:Hparent; [| |intros <-; apply id_failed].
    + (* continuation *)
      assert (exists a, alist_get key (instances t) = Some a) as [a Ha].
      { by apply (find_parent_found t messages sph key). }
      destruct (find_parent_sized _ _ _ _ Hparent) as [n Hlen].
      unfold bind at 1. unfold get_instance, reads. rewrite Ha.
      unfold bind at 1. rewrite append_request_run, Hlen. intros <-.
      by apply (id_continued rid body ts t messages system fp sph key a n).
    + (* a new agent *)
      destruct (fingerprint_first_user_message _ _ Hfp) as [s Hfirst].
      destruct (find_parent_sized _ _ _ _ Hparent) as [n Hlen].
      destruct (spawn_of_string t s) as [spawn Hspawn].
      rewrite (create_agent_run rid messages ts sph fp t (JStr s) n spawn
                 Hfirst Hlen Hspawn). intros <-.
      by apply (id_created rid body ts t messages system fp sph (JStr s) n
                  spawn).
Qed.

(** Whatever the request, [identify_or_create_agent] ends in one of five
    ways. *)
Lemma identify_cases rid body ts t :
  identified rid body ts t
    (fst (identify_or_create_agent rid body ts t))
    (snd (identify_or_create_agent rid body ts t)).
Proof. by apply identify_outcomes. Qed.

(** ** Calls that leave the agents alone *)

#[local] Instance Idle_preorder : PreOrder Idle.
Proof.
  split.
  - intros t. by split.
  - intros t1 t2 t3 [] []. split; congruence.
Qed.

Lemma Idle_same t t' :
  fingerprint_to_agent t' = fingerprint_to_agent t ->
  request_to_agent t' = request_to_agent t ->
  agent_counter t' = agent_counter t ->
  instances t' = instances t ->
  Idle t t'.
Proof.
  intros Hf Hr Hc Hi. split; try assumption.
  - unfold agent_ids. by rewrite Hi.
  - intros k. by rewrite Hi.
Qed.

Lemma Idle_update key f :
  (forall a, core (f a) = core a) -> keeps Idle (update_instance key f).
Proof.
  intros Hf. apply (keeps_modify Idle). intros t. split; try reflexivity.
  - unfold agent_ids. cbn [set_instances instances].
    apply alist_keys_update.
  - intros k. cbn [set_instances instances]. rewrite alist_get_update.
    destruct (bool_decide (key = k)); [|reflexivity].
    destruct (alist_get k (instances t)) as [a|]; [|reflexivity].
    simpl. by rewrite Hf.
Qed.

Ltac idle_assign := intros ?; apply Idle_same; reflexivity.

Ltac idle_methods :=
  repeat first
    [ keeps_step
    | apply (keeps_modify Idle); idle_assign
    | apply Idle_update; intros ?; reflexivity ].

Lemma Idle_register_task_prompt task_id prompt agent_id :
  keeps Idle (register_task_prompt task_id prompt agent_id).
Proof. unfold register_task_prompt. idle_methods. Qed.

Lemma Idle_track_tool_use request_id block timestamp :
  keeps Idle (track_tool_use request_id block timestamp).
Proof. unfold track_tool_use, get_instance. idle_methods. Qed.

Lemma Idle_track_tool_result request_id block timestamp :
  keeps Idle (track_tool_result request_id block timestamp).
Proof. unfold track_tool_result, get_instance. idle_methods. Qed.

Lemma Idle_track_response_content request_id blocks timestamp :
  keeps Idle (track_response_content request_id blocks timestamp).
Proof. unfold track_response_content. idle_methods. Qed.

Lemma Idle_match_text agent_id request_id text :
  keeps Idle (match_text agent_id request_id text).
Proof. unfold match_text. idle_methods. Qed.

Lemma Idle_track_request_content request_id messages timestamp :
  keeps Idle (track_request_content request_id messages timestamp).
Proof.
  unfold track_request_content.
  repeat first [ keeps_step | apply Idle_match_text ].
Qed.

Lemma Idle_sequence_edges lib agent_id times :
  keeps Idle (sequence_edges lib agent_id times).
Proof.
  induction times as [|[r ts] times IH]; simpl; [apply (keeps_ret Idle)|].
  destruct times as [|[r' ts'] rest]; [apply (keeps_ret Idle)|].
  apply (keeps_bind Idle); [apply (keeps_lift Idle)|intros gap].
  apply (keeps_bind Idle); [|intros _; exact IH].
  apply (keeps_modify Idle). idle_assign.
Qed.

Lemma Idle_build_workflow_dag lib : keeps Idle (build_workflow_dag lib).
Proof.
  unfold build_workflow_dag, build_request_sequence_edges.
  repeat first [ keeps_step | apply Idle_sequence_edges ].
Qed.

Lemma step_Idle lib t c :
  (forall request_id body timestamp, c <> Identify request_id body timestamp) ->
  Idle t (step lib t c).
Proof.
  intros Hc. destruct c; simpl.
  - by destruct (Hc request_id body timestamp).
  - apply Idle_track_tool_use.
  - apply Idle_track_tool_result.
  - apply Idle_track_response_content.
  - apply Idle_track_request_content.
  - apply Idle_register_task_prompt.
  - apply Idle_build_workflow_dag.
Qed.

(** ** The invariant is kept *)

Lemma core_fields a a' :
  core a = core a' ->
  agent_id a = agent_id a'
  /\ system_prompt_hash a = system_prompt_hash a'
  /\ conversation_fingerprint a = conversation_fingerprint a'
  /\ requests a = requests a'
  /\ first_request_id a = first_request_id a'
  /\ last_request_id a = last_request_id a'
  /\ message_count_history a = message_count_history a'
  /\ spawned_by_task_id a = spawned_by_task_id a'
  /\ parent_agent_id a = parent_agent_id a'
  /\ first_user_message a = first_user_message a'
  /\ child_agent_ids a = child_agent_ids a'
  /\ timestamps a = timestamps a'.
Proof.
  unfold core, set_tool_results, set_tool_uses. cbn.
  intros [= ? ? ? ? ? ? ? ? ? ? ? ?]. by repeat split.
Qed.

Lemma Idle_lookup t t' k a' :
  Idle t t' -> alist_get k (instances t') = Some a' ->
  exists a, alist_get k (instances t) = Some a /\ core a = core a'.
Proof.
  intros Hidle Ha'. pose proof (idle_agents _ _ Hidle k) as H.
  rewrite Ha' in H. destruct (alist_get k (instances t)) as [a|];
    [|discriminate].
  exists a. split; [reflexivity|]. simpl in H. congruence.
Qed.

Lemma Idle_lookup_back t t' k a :
  Idle t t' -> alist_get k (instances t) = Some a ->
  exists a', alist_get k (instances t') = Some a' /\ core a = core a'.
Proof.
  intros Hidle Ha. pose proof (idle_agents _ _ Hidle k) as H.
  rewrite Ha in H. destruct (alist_get k (instances t')) as [a'|];
    [|discriminate].
  exists a'. split; [reflexivity|]. simpl in H. congruence.
Qed.

Lemma Idle_WF t t' : WF t -> Idle t t' -> WF t'.
Proof.
  intros [Hids Hagents Hreqs Hfps Hcur Hkids] Hidle. split.
  - by rewrite (idle_ids _ _ Hidle), (idle_counter _ _ Hidle).
  - intros k a' Ha'.
    destruct (Idle_lookup _ _ _ _ Hidle Ha') as (a & Ha & Hcore).
    apply core_fields in Hcore
      as (? & _ & _ & Hr & Hf & Hl & Hh & _ & _ & _ & _ & Hts).
    destruct (Hagents k a Ha) as [H1 H2 H3 H4 H5 H6].
    split; congruence.
  - intros rid k. rewrite (idle_requests _ _ Hidle). intros Hk.
    destruct (Hreqs rid k Hk) as (a & Ha & Hin).
    destruct (Idle_lookup_back _ _ _ _ Hidle Ha) as (a' & Ha' & Hcore).
    apply core_fields in Hcore as (_ & _ & _ & Hr & _).
    exists a'. split; [exact Ha'|congruence].
  - intros fp k. rewrite (idle_fingerprint _ _ Hidle). intros Hk.
    destruct (Hfps fp k Hk) as [a Ha].
    destruct (Idle_lookup_back _ _ _ _ Hidle Ha) as (a' & Ha' & _).
    by exists a'.
  - intros k a' Ha'.
    destruct (Idle_lookup _ _ _ _ Hidle Ha') as (a & Ha & Hcore).
    apply core_fields in Hcore as (_ & _ & Hfp & _).
    rewrite (idle_fingerprint _ _ Hidle), <- Hfp. by apply Hcur.
  - intros p pa' Hpa'.
    destruct (Idle_lookup _ _ _ _ Hidle Hpa') as (pa & Hpa & Hcore).
    apply core_fields in Hcore
      as (_ & _ & _ & _ & _ & _ & _ & _ & _ & _ & Hkid & _).
    destruct (Hkids p pa Hpa) as [Hnodup Hall].
    split; [congruence|]. intros c Hc. rewrite <- Hkid in Hc.
    destruct (Hall c Hc) as (i & j & ca & -> & -> & Hlt & Hca & Hparent).
    destruct (Idle_lookup_back _ _ _ _ Hidle Hca) as (ca' & Hca' & Hcore).
    apply core_fields in Hcore
      as (_ & _ & _ & _ & _ & _ & _ & _ & Hpar & _).
    exists i, j, ca'. repeat split; try assumption. congruence.
Qed.

Lemma WF_named t k a :
  WF t -> alist_get k (instances t) = Some a ->
  exists i, (i < agent_counter t)%nat /\ k = agent_name i.
Proof.
  intros Hwf Ha.
  assert (In k (agent_ids t)) as Hin.
  { apply alist_get_keys. by exists a. }
  rewrite (wf_ids _ Hwf) in Hin.
  apply in_map_iff in Hin as (i & <- & Hi). apply in_seq in Hi.
  exists i. split; [lia|reflexivity].
Qed.

Lemma WF_fresh t :
  WF t -> alist_get (agent_name (agent_counter t)) (instances t) = None.
Proof.
  intros Hwf.
  destruct (alist_get (agent_name (agent_counter t)) (instances t))
    as [a|] eqn:Ha; [|reflexivity].
  destruct (WF_named _ _ _ Hwf Ha) as (i & Hi & Heq).
  apply agent_name_inj in Heq. lia.
Qed.

Lemma alist_keys_set_absent {V} key (v : V) l :
  alist_get key l = None ->
  List.map fst (alist_set key v l) = List.map fst l ++ [key].
Proof.
  induction l as [|[k0 v0] l IH]; simpl; [reflexivity|].
  destruct (bool_decide (k0 = key)); [discriminate|].
  intros H. simpl. by rewrite IH.
Qed.

Lemma linked_keys parent_id agent_id l :
  List.map fst (linked parent_id agent_id l) = List.map fst l.
Proof.
  unfold linked. destruct (alist_get parent_id l); [|reflexivity].
  destruct (_ && _); [apply alist_keys_update|reflexivity].
Qed.

Lemma linked_get parent_id agent_id l k :
  alist_get k (linked parent_id agent_id l)
  = relink parent_id agent_id k <$> alist_get k l.
Proof.
  unfold linked, relink.
  destruct (bool_decide_reflect (k = parent_id)) as [->|Hne]; cbn [andb].
  - destruct (alist_get parent_id l) as [parent|] eqn:Hp; [|by rewrite Hp].
    destruct (_ && _) eqn:Hcond.
    + rewrite alist_get_update, bool_decide_eq_true_2, Hp by reflexivity.
      simpl. by rewrite Hcond.
    + rewrite Hp. simpl. by rewrite Hcond.
  - assert (alist_get k l = id <$> alist_get k l) as Hid
      by (by destruct (alist_get k l)).
    destruct (alist_get parent_id l) as [parent|]; [|exact Hid].
    destruct (_ && _); [|exact Hid].
    rewrite alist_get_update, bool_decide_eq_false_2 by congruence.
    exact Hid.
Qed.

(** What [relink] keeps of an agent. *)
Lemma relink_fields parent_id child k a :
  agent_id (relink parent_id child k a) = agent_id a
  /\ conversation_fingerprint (relink parent_id child k a)
     = conversation_fingerprint a
  /\ requests (relink parent_id child k a) = requests a
  /\ first_request_id (relink parent_id child k a) = first_request_id a
  /\ last_request_id (relink parent_id child k a) = last_request_id a
  /\ message_count_history (relink parent_id child k a)
     = message_count_history a
  /\ timestamps (relink parent_id child k a) = timestamps a
  /\ parent_agent_id (relink parent_id child k a) = parent_agent_id a
  /\ (child_agent_ids (relink parent_id child k a) = child_agent_ids a
      \/ (k = parent_id /\ ~ In child (child_agent_ids a)
          /\ child_agent_ids (relink parent_id child k a)
             = child_agent_ids a ++ [child])).
Proof.
  unfold relink.
  destruct (bool_decide_reflect (k = parent_id)) as [->|]; cbn [andb];
    [|repeat split; by left].
  destruct (negb (bool_decide (parent_id = ""))); cbn [andb];
    [|repeat split; by left].
  destruct (bool_decide_reflect (child ∈ child_agent_ids a)) as [|Hout];
    cbn [negb]; [repeat split; by left|].
  repeat split. right. split; [reflexivity|]. split; [|reflexivity].
  intros Hin. apply Hout. by apply list_elem_of_In.
Qed.

Lemma agent_ok_relink parent_id child k k' a :
  agent_ok k' a -> agent_ok k' (relink parent_id child k a).
Proof.
  intros [H1 H2 H3 H4 H5 H6].
  destruct (relink_fields parent_id child k a)
    as (E1 & _ & E3 & E4 & E5 & E6 & E7 & _).
  split; congruence.
Qed.

Lemma head_snoc {A} (l : list A) x : l <> [] -> head (l ++ [x]) = head l.
Proof. by destruct l. Qed.

Lemma agent_ok_half k rid fpo a :
  agent_ok k a -> agent_ok k (half_appended rid fpo a).
Proof.
  intros [H1 H2 H3 H4 H5 H6]. unfold half_appended.
  destruct fpo as [fp|]; (split; cbn;
    [exact H1|by rewrite head_snoc|by rewrite last_snoc
    |by destruct (requests a)|exact H5|rewrite List.length_app; simpl; lia]).
Qed.

Lemma agent_ok_appended k rid fpo n ts a :
  agent_ok k a -> agent_ok k (appended rid fpo n ts a).
Proof.
  intros [H1 H2 H3 H4 H5 H6]. unfold appended, half_appended.
  destruct fpo as [fp|]; (split; cbn;
    [exact H1|by rewrite head_snoc|by rewrite last_snoc
    |by destruct (requests a)
    |rewrite !List.length_app; simpl; lia
    |rewrite !List.length_app; simpl; lia]).
Qed.

Lemma WF_updated t t' key rid f :
  WF t -> has_agent t key ->
  instances t' = alist_update key f (instances t) ->
  agent_counter t' = agent_counter t ->
  (forall a, agent_ok key a -> agent_ok key (f a)) ->
  (forall a,
     child_agent_ids (f a) = child_agent_ids a
     /\ parent_agent_id (f a) = parent_agent_id a
     /\ forall r, In r (requests a) -> In r (requests (f a))) ->
  (request_to_agent t' = request_to_agent t
   \/ (request_to_agent t' = <[rid := key]> (request_to_agent t)
       /\ forall a, In rid (requests (f a)))) ->
  ((fingerprint_to_agent t' = fingerprint_to_agent t
    /\ forall a, conversation_fingerprint (f a) = conversation_fingerprint a)
   \/ exists fp,
        fingerprint_to_agent t !! fp = None
        /\ fingerprint_to_agent t' = <[fp := key]> (fingerprint_to_agent t)
        /\ forall a, conversation_fingerprint (f a) = fp) ->
  WF t'.
Proof.
  intros [Hids Hagents Hreqs Hfps Hcur Hkids] [a0 Ha0] Hinst Hcount Hok
    Hkeep Hrta Hfta.
  assert (forall k,
            alist_get k (instances t')
            = (if bool_decide (key = k) then f else id)
                <$> alist_get k (instances t)) as Hget.
  { intros k. rewrite Hinst, alist_get_update.
    destruct (bool_decide (key = k)); [reflexivity|].
    by destruct (alist_get k (instances t)). }
  assert (forall k a, alist_get k (instances t) = Some a ->
            exists a', alist_get k (instances t') = Some a'
                       /\ child_agent_ids a' = child_agent_ids a
                       /\ parent_agent_id a' = parent_agent_id a
                       /\ forall r, In r (requests a) -> In r (requests a'))
    as Hforth.
  { intros k a Ha. rewrite Hget, Ha.
    destruct (bool_decide (key = k)); simpl.
    - exists (f a). split; [reflexivity|]. apply Hkeep.
    - exists a. by repeat split. }
  split.
  - unfold agent_ids. rewrite Hinst, alist_keys_update, Hcount. exact Hids.
  - intros k a'. rewrite Hget.
    destruct (alist_get k (instances t)) as [a|] eqn:Ha; [|discriminate].
    destruct (bool_decide_reflect (key = k)) as [<-|Hne]; simpl;
      intros [= <-]; [apply Hok|]; by apply Hagents.
  - intros r k Hk.
    destruct Hrta as [Hsame|[Hnew Hin]].
    + rewrite Hsame in Hk. destruct (Hreqs r k Hk) as (a & Ha & Hr).
      destruct (Hforth k a Ha) as (a' & Ha' & _ & _ & Hsub).
      exists a'. split; [exact Ha'|by apply Hsub].
    + rewrite Hnew in Hk. destruct (decide (rid = r)) as [->|Hne].
      * rewrite lookup_insert_eq in Hk. injection Hk as <-.
        exists (f a0). rewrite Hget, Ha0, bool_decide_eq_true_2 by reflexivity.
        split; [reflexivity|apply Hin].
      * rewrite lookup_insert_ne in Hk by exact Hne.
        destruct (Hreqs r k Hk) as (a & Ha & Hr).
        destruct (Hforth k a Ha) as (a' & Ha' & _ & _ & Hsub).
        exists a'. split; [exact Ha'|by apply Hsub].
  - intros fp k Hk.
    assert (has_agent t k) as [a Ha].
    { destruct Hfta as [[Hsame _]|(fp0 & _ & Hnew & _)].
      - rewrite Hsame in Hk. by apply (Hfps fp).
      - rewrite Hnew in Hk. destruct (decide (fp0 = fp)) as [->|Hne].
        + rewrite lookup_insert_eq in Hk. injection Hk as <-. by exists a0.
        + rewrite lookup_insert_ne in Hk by exact Hne. by apply (Hfps fp). }
    destruct (Hforth k a Ha) as (a' & Ha' & _). by exists a'.
  - intros k a'. rewrite Hget.
    destruct (alist_get k (instances t)) as [a|] eqn:Ha; [|discriminate].
    pose proof (Hcur k a Ha) as Hreg.
    destruct Hfta as [[Hsame Hfp]|(fp0 & Hfree & Hnew & Hfp)].
    + rewrite Hsame.
      destruct (bool_decide (key = k)); simpl; intros [= <-];
        [by rewrite Hfp|exact Hreg].
    + rewrite Hnew.
      destruct (bool_decide_reflect (key = k)) as [<-|Hne]; simpl;
        intros [= <-].
      * rewrite Hfp. apply lookup_insert_eq.
      * rewrite lookup_insert_ne; [exact Hreg|]. congruence.
  - intros p pa'. rewrite Hget.
    destruct (alist_get p (instances t)) as [pa|] eqn:Hpa; [|discriminate].
    intros Heq.
    assert (child_agent_ids pa' = child_agent_ids pa) as Hsame.
    { destruct (bool_decide (key = p)); simpl in Heq; injection Heq as <-;
        [apply Hkeep|reflexivity]. }
    destruct (Hkids p pa Hpa) as [Hnodup Hall].
    split; [by rewrite Hsame|]. rewrite Hsame. intros c Hc.
    destruct (Hall c Hc) as (i & j & ca & -> & -> & Hlt & Hca & Hparent).
    destruct (Hforth _ ca Hca) as (ca' & Hca' & _ & Hpar & _).
    exists i, j, ca'. repeat split; try assumption. congruence.
Qed.

Lemma before_store_get spawn child l k :
  alist_get k (before_store spawn child l)
  = regrown spawn child k <$> alist_get k l.
Proof.
  destruct spawn as [[task parent]|]; simpl; [apply linked_get|].
  by destruct (alist_get k l).
Qed.

Lemma before_store_keys spawn child l :
  List.map fst (before_store spawn child l) = List.map fst l.
Proof. destruct spawn as [[task parent]|]; [apply linked_keys|reflexivity]. Qed.

Lemma regrown_fields spawn child k a :
  agent_id (regrown spawn child k a) = agent_id a
  /\ conversation_fingerprint (regrown spawn child k a)
     = conversation_fingerprint a
  /\ requests (regrown spawn child k a) = requests a
  /\ parent_agent_id (regrown spawn child k a) = parent_agent_id a
  /\ (child_agent_ids (regrown spawn child k a) = child_agent_ids a
      \/ (exists task, spawn = Some (task, k))
          /\ ~ In child (child_agent_ids a)
          /\ child_agent_ids (regrown spawn child k a)
             = child_agent_ids a ++ [child]).
Proof.
  destruct spawn as [[task parent]|]; simpl; [|repeat split; by left].
  destruct (relink_fields parent child k a)
    as (E1 & E2 & E3 & _ & _ & _ & _ & E8 & E9).
  repeat split; try assumption.
  destruct E9 as [E9|(-> & Hout & E9)]; [by left|right].
  split; [by exists task|by split].
Qed.

Lemma agent_ok_regrown spawn child k k' a :
  agent_ok k' a -> agent_ok k' (regrown spawn child k a).
Proof.
  destruct spawn as [[task parent]|]; [apply agent_ok_relink|done].
Qed.

Lemma WF_created t t' rid fp sph n first_user_msg ts spawn :
  WF t ->
  fingerprint_to_agent t !! fp = None ->
  instances t'
  = alist_set (agent_name (agent_counter t))
      (created (agent_name (agent_counter t)) sph fp rid n first_user_msg ts
         spawn)
      (before_store spawn (agent_name (agent_counter t)) (instances t)) ->
  agent_counter t' = S (agent_counter t) ->
  request_to_agent t'
  = <[rid := agent_name (agent_counter t)]> (request_to_agent t) ->
  fingerprint_to_agent t'
  = <[fp := agent_name (agent_counter t)]> (fingerprint_to_agent t) ->
  WF t'.
Proof.
  intros Hwf Hfree Hinst Hcount Hrta Hfta.
  pose proof (WF_fresh t Hwf) as Hfresh.
  destruct Hwf as [Hids Hagents Hreqs Hfps Hcur Hkids].
  set (new := agent_name (agent_counter t)) in *.
  set (agent := created new sph fp rid n first_user_msg ts spawn) in *.
  assert (forall k,
            alist_get k (instances t')
            = if bool_decide (new = k) then Some agent
              else regrown spawn new k <$> alist_get k (instances t))
    as Hget.
  { intros k. by rewrite Hinst, alist_get_set, before_store_get. }
  assert (forall k a, alist_get k (instances t) = Some a ->
            k <> new
            /\ alist_get k (instances t') = Some (regrown spawn new k a))
    as Hforth.
  { intros k a Ha.
    assert (k <> new) as Hne by (intros ->; congruence).
    split; [exact Hne|].
    rewrite Hget, bool_decide_eq_false_2, Ha by congruence. reflexivity. }
  split.
  - unfold agent_ids. rewrite Hinst, alist_keys_set_absent.
    + rewrite before_store_keys, Hcount, seq_S, List.map_app.
      unfold agent_ids in Hids. by rewrite Hids.
    + rewrite before_store_get, Hfresh. reflexivity.
  - intros k a'. rewrite Hget.
    destruct (bool_decide_reflect (new = k)) as [<-|Hne].
    + intros [= <-]. split; cbn; first [reflexivity|discriminate|lia].
    + destruct (alist_get k (instances t)) as [a|] eqn:Ha; [|discriminate].
      intros [= <-]. apply agent_ok_regrown. by apply Hagents.
  - intros r k. rewrite Hrta.
    destruct (decide (rid = r)) as [->|Hne].
    + rewrite lookup_insert_eq. intros [= <-]. exists agent.
      rewrite Hget, bool_decide_eq_true_2 by reflexivity.
      split; [reflexivity|by left].
    + rewrite lookup_insert_ne by exact Hne. intros Hk.
      destruct (Hreqs r k Hk) as (a & Ha & Hr).
      destruct (Hforth k a Ha) as [_ Ha'].
      exists (regrown spawn new k a). split; [exact Ha'|].
      destruct (regrown_fields spawn new k a) as (_ & _ & -> & _).
      exact Hr.
  - intros fp' k. rewrite Hfta.
    destruct (decide (fp = fp')) as [->|Hne].
    + rewrite lookup_insert_eq. intros [= <-]. exists agent.
      by rewrite Hget, bool_decide_eq_true_2.
    + rewrite lookup_insert_ne by exact Hne. intros Hk.
      destruct (Hfps fp' k Hk) as [a Ha].
      destruct (Hforth k a Ha) as [_ Ha']. by eexists.
  - intros k a'. rewrite Hget, Hfta.
    destruct (bool_decide_reflect (new = k)) as [<-|Hne].
    + intros [= <-]. apply lookup_insert_eq.
    + destruct (alist_get k (instances t)) as [a|] eqn:Ha; [|discriminate].
      intros [= <-].
      destruct (regrown_fields spawn new k a) as (_ & -> & _).
      pose proof (Hcur k a Ha) as Hreg.
      rewrite lookup_insert_ne; [exact Hreg|]. congruence.
  - intros p pa'. rewrite Hget.
    destruct (bool_decide_reflect (new = p)) as [<-|Hne].
    + intros [= <-]. split; [apply NoDup_nil_2|]. intros c [].
    + destruct (alist_get p (instances t)) as [pa|] eqn:Hpa; [|discriminate].
      intros [= <-].
      destruct (Hkids p pa Hpa) as [Hnodup Hall].
      assert (forall c, In c (child_agent_ids pa) ->
                exists i j ca,
                  p = agent_name i /\ c = agent_name j /\ (i < j)%nat
                  /\ alist_get c (instances t') = Some ca
                  /\ parent_agent_id ca = Some p) as Hold.
      { intros c Hc.
        destruct (Hall c Hc) as (i & j & ca & -> & -> & Hlt & Hca & Hpar).
        destruct (Hforth _ ca Hca) as [_ Hca'].
        exists i, j, (regrown spawn new (agent_name j) ca).
        repeat split; try assumption.
        by destruct (regrown_fields spawn new (agent_name j) ca)
          as (_ & _ & _ & -> & _). }
      unfold children_ok.
      destruct (regrown_fields spawn new p pa)
        as (_ & _ & _ & _ & [->|([task Hspawn] & Hout & ->)]);
        [by split|].
      split.
      * apply NoDup_app. split; [exact Hnodup|].
        split; [|apply NoDup_singleton].
        intros x Hx Hx'. apply list_elem_of_singleton in Hx'. subst x.
        apply Hout. by apply list_elem_of_In.
      * intros c Hc. apply in_app_iff in Hc as [Hc|[<-|[]]];
          [by apply Hold|].
        assert (exists i, (i < agent_counter t)%nat /\ p = agent_name i)
          as (i & Hi & ->).
        { apply (WF_named t p pa); [by split|exact Hpa]. }
        exists i, (agent_counter t), agent.
        repeat split; [exact Hi| |].
        -- by rewrite Hget, bool_decide_eq_true_2.
        -- unfold agent. by rewrite Hspawn.
Qed.

Lemma WF_init : WF init.
Proof.
  split; try (intros ? ? H; by rewrite ?lookup_empty in H).
  reflexivity.
Qed.

Lemma identified_WF rid body ts t t' r :
  WF t -> identified rid body ts t t' r -> WF t'.
Proof.
  intros Hwf Hid.
  destruct Hid as [e|messages fp key a n Hm Hfp Hreg Ha Hn
                  |messages fp key a e Hm Hfp Hreg Ha Hn
                  |messages system fp sph key a n Hm Hs Hsph Hfp Hfree Hpar
                     Ha Hn
                  |messages system fp sph fum n spawn Hm Hs Hsph Hfp Hfree
                     Hpar Hfum Hn Hspawn].
  - exact Hwf.
  - apply (WF_updated t _ key rid (appended rid None n ts)); try done.
    + by exists a.
    + intros a0. apply agent_ok_appended.
    + intros a0. repeat split. intros r Hr. cbn. apply in_app_iff. by left.
    + right. split; [reflexivity|]. intros a0. cbn.
      apply in_app_iff. right. by left.
    + left. by split.
  - apply (WF_updated t _ key rid (half_appended rid None)); try done.
    + by exists a.
    + intros a0. apply agent_ok_half.
    + intros a0. repeat split. intros r Hr. cbn. apply in_app_iff. by left.
    + by left.
    + left. by split.
  - assert (agent_id a = key) as Hkey
      by (by destruct (wf_agents _ Hwf key a Ha)).
    rewrite Hkey.
    apply (WF_updated t _ key rid (appended rid (Some fp) n ts)); try done.
    + by exists a.
    + intros a0. apply agent_ok_appended.
    + intros a0. repeat split. intros r Hr. cbn. apply in_app_iff. by left.
    + right. split; [reflexivity|]. intros a0. cbn.
      apply in_app_iff. right. by left.
    + right. exists fp. by repeat split.
  - by apply (WF_created t _ rid fp sph n fum ts spawn).
Qed.

Lemma step_WF lib t c : WF t -> WF (step lib t c).
Proof.
  intros Hwf. destruct c;
    try (apply (Idle_WF t); [exact Hwf|]; apply (step_Idle lib);
         discriminate).
  simpl.
  apply (identified_WF request_id body timestamp t _
           (snd (identify_or_create_agent request_id body timestamp t)) Hwf),
    identify_cases.
Qed.

Lemma run_WF lib calls t : WF t -> WF (run lib calls t).
Proof.
  revert t. induction calls as [|c calls IH]; intros t Hwf; [exact Hwf|].
  apply IH, step_WF, Hwf.
Qed.

(** ** Agents, their identifiers and their bookkeeping *)

Lemma agent_names_distinct n : NoDup (List.map agent_name (seq 0 n)).
Proof.
  apply (NoDup_fmap_2_strong agent_name); [|apply NoDup_ListNoDup, seq_NoDup].
  intros i j _ _. apply agent_name_inj.
Qed.

Lemma alist_get_In {V} (l : list (string * V)) k v :
  NoDup (List.map fst l) -> In (k, v) l -> alist_get k l = Some v.
Proof.
  induction l as [|[k0 v0] l IH]; simpl; [by intros _ []|].
  intros Hnodup. apply NoDup_cons in Hnodup as [Hk0 Hnodup].
  intros [[= -> ->]|Hin].
  - by rewrite bool_decide_eq_true_2.
  - rewrite bool_decide_eq_false_2; [by apply IH|].
    intros ->. apply Hk0, list_elem_of_In, in_map_iff. by exists (k, v).
Qed.

Lemma WF_stored t k a :
  WF t -> In (k, a) (instances t) -> alist_get k (instances t) = Some a.
Proof.
  intros Hwf. apply alist_get_In.
  pose proof (wf_ids _ Hwf) as Hids. unfold agent_ids in Hids.
  rewrite Hids. apply agent_names_distinct.
Qed.

Lemma WF_Forall t (P : string -> AgentInstance -> Prop) :
  WF t ->
  (forall k a, alist_get k (instances t) = Some a -> P k a) ->
  Forall (fun entry => P (fst entry) (snd entry)) (instances t).
Proof.
  intros Hwf HP. apply Forall_forall. intros [k a] Hin.
  apply HP, WF_stored; [exact Hwf|]. by apply list_elem_of_In.
Qed.

(** X13. After any stream of calls the agents are [agent_0], [agent_1],
    ... in the order of their creation, as many as the counter says, and
    each is stored under its own identifier. *)
Theorem agents_are_numbered (lib : datetime_lib) (calls : list call) :
  let t := run lib calls init in
  agent_ids t = List.map agent_name (seq 0 (agent_counter t))
  /\ List.length (instances t) = agent_counter t
  /\ Forall (fun entry => agent_id (snd entry) = fst entry) (instances t).
Proof.
  intros t. pose proof (run_WF lib calls init WF_init) as Hwf. fold t in Hwf.
  pose proof (wf_ids _ Hwf) as Hids. split; [exact Hids|]. split.
  - apply (f_equal (@List.length string)) in Hids.
    unfold agent_ids in Hids.
    by rewrite !length_map, length_seq in Hids.
  - apply (WF_Forall t (fun k a => agent_id a = k) Hwf).
    intros k a Ha. by destruct (wf_agents _ Hwf k a Ha).
Qed.

(** X14. After any stream of calls every agent has at least one request,
    [first_request_id] is the first and [last_request_id] the last of its
    requests, there is one timestamp for each entry of
    [message_count_history], and no more such entries than requests. *)
Theorem agent_bookkeeping (lib : datetime_lib) (calls : list call) :
  Forall (fun entry => agent_ok (fst entry) (snd entry))
    (instances (run lib calls init)).
Proof.
  pose proof (run_WF lib calls init WF_init) as Hwf.
  apply (WF_Forall _ agent_ok Hwf), (wf_agents _ Hwf).
Qed.

(** X15. After any stream of calls the indexes lead to agents: every
    request of [request_to_agent] is mapped to an agent that lists it
    among its requests, every fingerprint of [fingerprint_to_agent] to an
    agent that exists, and the current fingerprint of every agent to that
    agent. *)
Theorem indexes_lead_to_agents (lib : datetime_lib) (calls : list call) :
  let t := run lib calls init in
  request_index_ok t /\ fingerprint_index_ok t /\ current_fingerprints_ok t.
Proof.
  intros t. pose proof (run_WF lib calls init WF_init) as Hwf. fold t in Hwf.
  split; [|split].
  - intros rid k. apply (wf_requests _ Hwf).
  - intros fp k. apply (wf_fingerprints _ Hwf).
  - apply (WF_Forall t
             (fun k a => fingerprint_to_agent t
                           !! conversation_fingerprint a = Some k) Hwf),
      (wf_current _ Hwf).
Qed.

(** X16. After any stream of calls the child lists are consistent: no
    agent is listed twice, and every child listed by an agent exists, was
    created after that agent and names it as its parent; so the child
    links form no cycle. *)
Theorem child_lists_are_consistent (lib : datetime_lib) (calls : list call) :
  let t := run lib calls init in
  Forall (fun entry => children_ok t (fst entry) (snd entry)) (instances t).
Proof.
  intros t. pose proof (run_WF lib calls init WF_init) as Hwf. fold t in Hwf.
  apply (WF_Forall t (children_ok t) Hwf), (wf_children _ Hwf).
Qed.

(** X17. A call of [identify_or_create_agent] that raises creates no
    agent and registers nothing: the counter, the agents, the fingerprint
    index and the request index are as before. *)
Theorem failed_identification_registers_nothing (request_id : Z)
  (body timestamp : json) (t : AgentInstanceTracker) :
  match snd (identify_or_create_agent request_id body timestamp t) with
  | Raise _ =>
      nothing_registered t
        (fst (identify_or_create_agent request_id body timestamp t))
  | Ok _ => True
  end.
Proof.
  destruct (identify_cases request_id body timestamp t); try exact I.
  - by repeat split.
  - repeat split. unfold agent_ids. cbn. apply alist_keys_update.
Qed.

(** ** Continuations *)





(** ** Agents only grow *)

#[local] Instance aged_preorder : PreOrder aged.
Proof.
  split.
  - intros a. by split.
  - intros a1 a2 a3 [] []. split; try congruence; by etransitivity.
Qed.

#[local] Instance Aged_preorder : PreOrder Aged.
Proof.
  split.
  - intros t k a Ha. exists a. split; [exact Ha|reflexivity].
  - intros t1 t2 t3 H12 H23 k a Ha.
    destruct (H12 k a Ha) as (a2 & Ha2 & Hg2).
    destruct (H23 k a2 Ha2) as (a3 & Ha3 & Hg3).
    exists a3. split; [exact Ha3|by etransitivity].
Qed.

Lemma Aged_updated t t' key f :
  instances t' = alist_update key f (instances t) ->
  (forall a, aged a (f a)) -> Aged t t'.
Proof.
  intros Hinst Hf k a Ha. rewrite Hinst, alist_get_update, Ha.
  destruct (bool_decide (key = k)); simpl.
  - exists (f a). by split.
  - exists a. split; [reflexivity|reflexivity].
Qed.

Lemma Aged_update key f :
  (forall a, aged a (f a)) -> keeps Aged (update_instance key f).
Proof.
  intros Hf. apply (keeps_modify Aged). intros t.
  by apply (Aged_updated t _ key f).
Qed.

Lemma Aged_same t t' : instances t' = instances t -> Aged t t'.
Proof. intros Hinst k a Ha. exists a. by rewrite Hinst. Qed.

Ltac aged_methods :=
  repeat first
    [ keeps_step
    | apply (keeps_modify Aged); intros ?; apply Aged_same; reflexivity
    | apply Aged_update; intros ?; split; cbn;
      first [reflexivity | by apply prefix_app_r] ].

Lemma Aged_sequence_edges lib agent_id times :
  keeps Aged (sequence_edges lib agent_id times).
Proof.
  induction times as [|[r ts] times IH]; simpl; [apply (keeps_ret Aged)|].
  destruct times as [|[r' ts'] rest]; [apply (keeps_ret Aged)|].
  apply (keeps_bind Aged); [apply (keeps_lift Aged)|intros gap].
  apply (keeps_bind Aged); [|intros _; exact IH].
  apply (keeps_modify Aged). intros ?. by apply Aged_same.
Qed.

Lemma Aged_register_task_prompt task_id prompt agent_id :
  keeps Aged (register_task_prompt task_id prompt agent_id).
Proof. unfold register_task_prompt. aged_methods. Qed.

Lemma Aged_track_tool_use request_id block timestamp :
  keeps Aged (track_tool_use request_id block timestamp).
Proof. unfold track_tool_use, get_instance. aged_methods. Qed.

Lemma Aged_track_tool_result request_id block timestamp :
  keeps Aged (track_tool_result request_id block timestamp).
Proof. unfold track_tool_result, get_instance. aged_methods. Qed.

Lemma Aged_track_response_content request_id blocks timestamp :
  keeps Aged (track_response_content request_id blocks timestamp).
Proof. unfold track_response_content. aged_methods. Qed.

Lemma Aged_match_text agent_id request_id text :
  keeps Aged (match_text agent_id request_id text).
Proof. unfold match_text. aged_methods. Qed.

Lemma Aged_track_request_content request_id messages timestamp :
  keeps Aged (track_request_content request_id messages timestamp).
Proof.
  unfold track_request_content.
  repeat first [ keeps_step | apply Aged_match_text ].
Qed.

Lemma Aged_build_workflow_dag lib : keeps Aged (build_workflow_dag lib).
Proof.
  unfold build_workflow_dag, build_request_sequence_edges.
  repeat first [ keeps_step | apply Aged_sequence_edges ].
Qed.

Lemma aged_appended rid fpo n ts a : aged a (appended rid fpo n ts a).
Proof.
  unfold appended, half_appended.
  destruct fpo; split; cbn; first [reflexivity | by apply prefix_app_r].
Qed.

Lemma aged_half rid fpo a : aged a (half_appended rid fpo a).
Proof.
  unfold half_appended.
  destruct fpo; split; cbn; first [reflexivity | by apply prefix_app_r].
Qed.

Lemma aged_regrown spawn child k a : aged a (regrown spawn child k a).
Proof.
  destruct spawn as [[task parent]|]; [|reflexivity]. simpl.
  unfold relink. destruct (_ && _); [|reflexivity].
  split; cbn; first [reflexivity | by apply prefix_app_r].
Qed.

Lemma identified_Aged rid body ts t t' r :
  WF t -> identified rid body ts t t' r -> Aged t t'.
Proof.
  intros Hwf Hid.
  destruct Hid as [e|messages fp key a n Hm Hfp Hreg Ha Hn
                  |messages fp key a e Hm Hfp Hreg Ha Hn
                  |messages system fp sph key a n Hm Hs Hsph Hfp Hfree Hpar
                     Ha Hn
                  |messages system fp sph fum n spawn Hm Hs Hsph Hfp Hfree
                     Hpar Hfum Hn Hspawn].
  - reflexivity.
  - apply (Aged_updated t _ key (appended rid None n ts)); [reflexivity|].
    intros a0. apply aged_appended.
  - apply (Aged_updated t _ key (half_appended rid None)); [reflexivity|].
    intros a0. apply aged_half.
  - apply (Aged_updated t _ key (appended rid (Some fp) n ts));
      [reflexivity|].
    intros a0. apply aged_appended.
  - intros k a Ha. cbn [instances set_request_to_agent
                         set_fingerprint_to_agent set_instances].
    change (match spawn with
            | Some (_, parent) =>
                linked parent (agent_name (agent_counter t)) (instances t)
            | None => instances t
            end)
      with (before_store spawn (agent_name (agent_counter t)) (instances t)).
    rewrite alist_get_set, before_store_get, Ha.
    rewrite bool_decide_eq_false_2.
    + eexists. split; [reflexivity|apply aged_regrown].
    + intros Heq. rewrite <- Heq, (WF_fresh t Hwf) in Ha. discriminate.
Qed.

Lemma step_Aged lib t c : WF t -> Aged t (step lib t c).
Proof.
  intros Hwf. destruct c; simpl.
  - apply (identified_Aged request_id body timestamp t _
             (snd (identify_or_create_agent request_id body timestamp t))
             Hwf), identify_cases.
  - apply Aged_track_tool_use.
  - apply Aged_track_tool_result.
  - apply Aged_track_response_content.
  - apply Aged_track_request_content.
  - apply Aged_register_task_prompt.
  - apply Aged_build_workflow_dag.
Qed.

Lemma run_Aged lib calls t : WF t -> Aged t (run lib calls t).
Proof.
  revert t. induction calls as [|c calls IH]; intros t Hwf; [reflexivity|].
  simpl. transitivity (step lib t c); [by apply step_Aged|].
  apply IH, step_WF, Hwf.
Qed.

(** X19. Agents only grow. An agent stored after any calls on a new
    tracker is, after any further calls, still stored under its
    identifier; its identifier, system prompt hash, first request, first
    user message, spawning task and parent are what they were, and its
    requests, message counts, time stamps, children, tool uses and tool
    results have only been appended to. *)
Theorem agents_only_grow lib earlier later :
  let t := run lib earlier init in
  let t' := run lib later t in
  Forall
    (fun entry : string * AgentInstance =>
       exists a', alist_get (fst entry) (instances t') = Some a'
                  /\ aged (snd entry) a')
    (instances t).
Proof.
  intros t t'.
  assert (Hwf : WF t) by apply run_WF, WF_init.
  apply (WF_Forall t (fun k a => exists a',
           alist_get k (instances t') = Some a' /\ aged a a') Hwf).
  intros k a Ha. exact (run_Aged lib later t Hwf k a Ha).
Qed.

(** ** The tool index and the edges *)

#[local] Instance Emits_preorder P : PreOrder (Emits P).
Proof.
  split.
  - intros t. split; [reflexivity|]. exists []. by rewrite app_nil_r.
  - intros t1 t2 t3 [Hi12 (n12 & He12 & Hn12)] [Hi23 (n23 & He23 & Hn23)].
    split; [congruence|]. exists (n12 ++ n23). split.
    + by rewrite He23, He12, <- app_assoc.
    + by apply Forall_app.
Qed.

Lemma Emits_same P t t' :
  tool_use_index t' = tool_use_index t ->
  workflow_edges t' = workflow_edges t -> Emits P t t'.
Proof.
  intros Hi He. split; [exact Hi|]. exists []. by rewrite app_nil_r.
Qed.

Lemma Emits_new P t t' new :
  tool_use_index t' = tool_use_index t ->
  workflow_edges t' = workflow_edges t ++ new -> Forall P new ->
  Emits P t t'.
Proof. intros Hi He Hnew. split; [exact Hi|]. by exists new. Qed.

Ltac emits_none P :=
  repeat first
    [ keeps_step
    | apply (keeps_modify (Emits P)); intros ?; apply Emits_same;
      reflexivity ].

Lemma Emits_identify P rid body ts :
  keeps (Emits P) (identify_or_create_agent rid body ts).
Proof.
  unfold identify_or_create_agent, create_agent, attach_parent, link_child,
    append_request, get_instance, update_instance.
  emits_none P.
Qed.

Lemma Emits_register_task_prompt P task_id prompt agent_id :
  keeps (Emits P) (register_task_prompt task_id prompt agent_id).
Proof. unfold register_task_prompt. emits_none P. Qed.

Lemma Emits_track_response_content P request_id blocks timestamp :
  keeps (Emits P) (track_response_content request_id blocks timestamp).
Proof. unfold track_response_content. emits_none P. Qed.

Lemma reuse_edges_kind infos agent_id request_id content_hash :
  Forall reuse_kind (reuse_edges infos agent_id request_id content_hash).
Proof.
  unfold reuse_edges. apply Forall_forall. intros e Hin.
  apply list_elem_of_In, in_map_iff in Hin as (source & <- & Hsource).
  apply filter_In in Hsource as [_ Hpass].
  apply andb_prop in Hpass as [Hlt Hother].
  apply Z.ltb_lt in Hlt.
  apply negb_true_iff, bool_decide_eq_false in Hother.
  split; [reflexivity|]. intros _. cbn.
  split; [reflexivity|]. split; [exact Hother|].
  exists (si_request_id source), request_id. by repeat split.
Qed.

Lemma Emits_match_text agent_id request_id text :
  keeps (Emits reuse_kind) (match_text agent_id request_id text).
Proof.
  unfold match_text.
  repeat first
    [ keeps_step
    | apply (keeps_modify (Emits reuse_kind)); intros t;
      eapply Emits_new; [reflexivity|reflexivity|apply reuse_edges_kind] ].
Qed.

Lemma Emits_track_request_content request_id messages timestamp :
  keeps (Emits reuse_kind)
    (track_request_content request_id messages timestamp).
Proof.
  unfold track_request_content.
  repeat first [ keeps_step | apply Emits_match_text ].
Qed.

Lemma Emits_sequence_edges lib agent_id times :
  keeps (Emits sequence_kind) (sequence_edges lib agent_id times).
Proof.
  induction times as [|[r ts] times IH]; simpl;
    [apply (keeps_ret (Emits sequence_kind))|].
  destruct times as [|[r' ts'] rest];
    [apply (keeps_ret (Emits sequence_kind))|].
  apply (keeps_bind (Emits sequence_kind));
    [apply (keeps_lift (Emits sequence_kind))|intros gap].
  apply (keeps_bind (Emits sequence_kind)); [|intros _; exact IH].
  apply (keeps_modify (Emits sequence_kind)). intros t.
  eapply Emits_new; [reflexivity|reflexivity|].
  apply Forall_singleton. by repeat split.
Qed.

Lemma Emits_build_workflow_dag lib :
  keeps (Emits sequence_kind) (build_workflow_dag lib).
Proof.
  unfold build_workflow_dag, build_request_sequence_edges.
  repeat first [ keeps_step | apply Emits_sequence_edges ].
Qed.

Lemma tracked_edge_ok_mono t t' e :
  tool_use_index t ⊆ tool_use_index t' ->
  tracked_edge_ok t e -> tracked_edge_ok t' e.
Proof.
  intros Hsub [(Hty & Hc & id & key & info & err & Hk & Hi & Hrest)|Hother];
    [|by right].
  left. split; [exact Hty|]. split; [exact Hc|].
  exists id, key, info, err. split; [exact Hk|]. split; [|exact Hrest].
  by apply (lookup_weaken _ _ _ _ Hi).
Qed.

#[local] Instance Tracked_preorder : PreOrder Tracked.
Proof.
  split.
  - intros t. split; [reflexivity|]. exists []. by rewrite app_nil_r.
  - intros t1 t2 t3 [Hi12 (n12 & He12 & Hn12)] [Hi23 (n23 & He23 & Hn23)].
    split; [by etransitivity|]. exists (n12 ++ n23). split.
    + by rewrite He23, He12, <- app_assoc.
    + apply Forall_app. split; [|exact Hn23].
      eapply Forall_impl; [exact Hn12|].
      intros e. by apply tracked_edge_ok_mono.
Qed.

Lemma Emits_Tracked P t t' :
  (forall e, P e -> tracked_edge_ok t' e) -> Emits P t t' -> Tracked t t'.
Proof.
  intros HP [Hi (new & He & Hnew)]. split; [by rewrite Hi|].
  exists new. split; [exact He|]. eapply Forall_impl; [exact Hnew|exact HP].
Qed.

Lemma Tracked_track_tool_use rid block ts t :
  Tracked t (fst (track_tool_use rid block ts t)).
Proof.
  cut (tool_use_index t ⊆ tool_use_index (fst (track_tool_use rid block ts t))
       /\ workflow_edges (fst (track_tool_use rid block ts t))
          = workflow_edges t).
  { intros [Hi He]. split; [exact Hi|]. exists []. by rewrite app_nil_r. }
  unfold track_tool_use, bind, lift, gets, modify, ret.
  destruct (Py.get block "id" JNull) as [id|]; [|by split].
  destruct (Py.get block "name" JNull) as [name|]; [|by split].
  destruct (negb (Py.truthy id)); [by split|].
  destruct (owner_of t rid) as [agent_id|]; [|by split].
  destruct (hash_key id) as [key|]; [|by split].
  destruct (tool_use_index t !! key) as [info|] eqn:Hseen.
  - repeat (first [ progress simpl | case_match ]); by split.
  - unfold get_instance, update_instance, reads, modify.
    repeat (first [ progress simpl | case_match ]); simplify_eq; simpl;
      (split; [|reflexivity]);
      first [ reflexivity | by apply insert_subseteq ].
Qed.

Lemma Tracked_track_tool_result rid block ts t :
  Tracked t (fst (track_tool_result rid block ts t)).
Proof.
  unfold track_tool_result, bind, lift, gets, modify, ret, get_instance,
    update_instance, reads, modify.
  destruct (Py.get block "tool_use_id" JNull) as [id|]; [|reflexivity].
  destruct (Py.get block "is_error" (JBool false)) as [err|]; [|reflexivity].
  destruct (negb (Py.truthy id)); [reflexivity|].
  destruct (owner_of t rid) as [agent_id|]; [|reflexivity].
  destruct (hash_key id) as [key|] eqn:Hkey; [|reflexivity].
  simpl.
  destruct (alist_get agent_id (instances t)) as [a|]; simpl.
  - destruct (tool_use_index t !! key) as [info|] eqn:Hused; simpl.
    + split; [reflexivity|]. eexists. split; [reflexivity|].
      apply Forall_singleton. left.
      split; [reflexivity|]. split; [reflexivity|].
      exists id, key, info, err. by repeat split.
    + split; [reflexivity|]. exists []. by rewrite app_nil_r.
  - split; [reflexivity|]. exists []. by rewrite app_nil_r.
Qed.

Lemma step_Tracked lib t c : Tracked t (step lib t c).
Proof.
  destruct c; simpl.
  - apply (Emits_Tracked (fun _ => False)); [by intros ? []|].
    apply Emits_identify.
  - apply Tracked_track_tool_use.
  - apply Tracked_track_tool_result.
  - apply (Emits_Tracked (fun _ => False)); [by intros ? []|].
    apply Emits_track_response_content.
  - apply (Emits_Tracked reuse_kind); [intros e He; right; by left|].
    apply Emits_track_request_content.
  - apply (Emits_Tracked (fun _ => False)); [by intros ? []|].
    apply Emits_register_task_prompt.
  - apply (Emits_Tracked sequence_kind); [intros e He; right; by right|].
    apply Emits_build_workflow_dag.
Qed.

Lemma run_Tracked lib calls t : Tracked t (run lib calls t).
Proof.
  revert t. induction calls as [|c calls IH]; intros t; [reflexivity|].
  simpl. transitivity (step lib t c); [apply step_Tracked|apply IH].
Qed.

(** X20. The first use of a tool identifier is the one that stays. What
    the tool-use index holds for an identifier (tool name, agent, request,
    time stamp, input) is never replaced or removed by any later calls. *)
Theorem first_tool_use_stays lib later t :
  tool_use_index t ⊆ tool_use_index (run lib later t).
Proof. apply run_Tracked. Qed.

(** X21. The edges the tracker holds after any calls on a new tracker are
    of three kinds. A tool_result edge has confidence 1 and starts at the
    agent and the request under which its tool identifier is in the
    tool-use index; a content_reuse edge has confidence 0.85 and goes from
    an earlier request to a later one of another agent; a request_sequence
    edge has confidence 1 and stays within one agent. *)
Theorem tracked_edges_by_kind lib calls :
  let t := run lib calls init in
  Forall (tracked_edge_ok t) (workflow_edges t).
Proof.
  intros t.
  destruct (run_Tracked lib calls init) as [_ (new & He & Hnew)].
  fold t in He, Hnew. by rewrite He.
Qed.

(** ** The exported DAG *)

Lemma count_type_app ty l1 l2 :
  count_type ty (l1 ++ l2) = (count_type ty l1 + count_type ty l2)%nat.
Proof. unfold count_type. by rewrite List.filter_app, List.length_app. Qed.

Lemma count_types_total l :
  Forall known_type l ->
  List.length l
  = (count_type "subagent_spawn" l + count_type "tool_result" l
     + count_type "content_reuse" l + count_type "request_sequence" l)%nat.
Proof.
  unfold count_type.
  induction 1 as [|e l He _ IH]; [reflexivity|].
  cbn [List.length List.filter]. rewrite IH.
  destruct He as [He|[He|[He|He]]]; rewrite He;
    repeat case_bool_decide; try congruence; cbn [List.length]; lia.
Qed.

Lemma count_type_none ty l :
  Forall (fun e => e_type e <> ty) l -> count_type ty l = 0%nat.
Proof.
  unfold count_type. induction 1 as [|e l He _ IH]; [reflexivity|].
  cbn [List.filter]. by rewrite bool_decide_eq_false_2.
Qed.

Lemma count_type_all ty l :
  Forall (fun e => e_type e = ty) l -> count_type ty l = List.length l.
Proof.
  unfold count_type. induction 1 as [|e l He _ IH]; [reflexivity|].
  cbn [List.filter]. rewrite bool_decide_eq_true_2 by exact He.
  cbn. by rewrite IH.
Qed.

Lemma spawn_edge_shape t k a e :
  spawn_edge t k a = Ok e ->
  match e with
  | Some x => e_type x = "subagent_spawn" /\ has_parent (node_of k a) = true
  | None => has_parent (node_of k a) = false
  end.
Proof.
  unfold spawn_edge, has_parent. cbn [node_of n_parent_agent_id].
  destruct (parent_agent_id a) as [parent|]; [|by intros [= <-]].
  destruct (bool_decide (parent = "")); [by intros [= <-]|].
  destruct (if Py.truthy (spawned_by_task_id a) then _ else _);
    cbn [rbind]; [|discriminate].
  by intros [= <-].
Qed.

Lemma spawn_edges_shape t agents spawned :
  spawn_edges t agents = Ok spawned ->
  Forall (fun e => e_type e = "subagent_spawn") spawned
  /\ List.length spawned
     = List.length
         (List.filter has_parent
            (List.map (fun entry => node_of (fst entry) (snd entry)) agents)).
Proof.
  revert spawned. induction agents as [|[k a] agents IH]; intros spawned.
  - intros [= <-]. by split.
  - cbn [spawn_edges].
    destruct (spawn_edge t k a) as [e|] eqn:He; cbn [rbind]; [|discriminate].
    destruct (spawn_edges t agents) as [es|]; cbn [rbind]; [|discriminate].
    intros [= <-]. destruct (IH es eq_refl) as [Hty Hlen].
    apply spawn_edge_shape in He.
    cbn [List.map List.filter fst snd].
    destruct e as [x|].
    + destruct He as [Hx ->]. split; [by constructor|].
      cbn [List.length]. by rewrite Hlen.
    + rewrite He. by split.
Qed.

Lemma filter_two_length {A} (p q : A -> bool) l :
  Forall (fun x => p x = true -> q x = false) l ->
  (List.length (List.filter p l) + List.length (List.filter q l)
   <= List.length l)%nat.
Proof.
  induction 1 as [|x l Hx _ IH]; [reflexivity|].
  cbn [List.filter].
  destruct (p x) eqn:Hp; [rewrite (Hx eq_refl)|destruct (q x)];
    cbn [List.length]; lia.
Qed.

Lemma tracked_known t e : tracked_edge_ok t e -> known_type e.
Proof.
  intros [(Hty & _)|[(Hty & _)|(Hty & _)]]; unfold known_type; tauto.
Qed.

Lemma tracked_not_spawn t e :
  tracked_edge_ok t e -> e_type e <> "subagent_spawn".
Proof.
  intros [(Hty & _)|[(Hty & _)|(Hty & _)]]; rewrite Hty; discriminate.
Qed.

Lemma build_workflow_dag_ok lib t dag :
  WF t -> Forall (tracked_edge_ok t) (workflow_edges t) ->
  snd (build_workflow_dag lib t) = Ok dag -> dag_ok t dag.
Proof.
  intros Hwf Hedges.
  pose proof (step_Tracked lib t BuildWorkflowDag) as [Hi (new & He & Hnew)].
  cbn [step] in Hi, He, Hnew.
  assert (Forall (tracked_edge_ok (fst (build_workflow_dag lib t)))
            (workflow_edges (fst (build_workflow_dag lib t)))) as Hafter.
  { rewrite He. apply Forall_app. split; [|exact Hnew].
    eapply Forall_impl; [exact Hedges|].
    intros e. by apply tracked_edge_ok_mono. }
  clear Hi new He Hnew Hedges.
  remember (build_workflow_dag lib t) as outcome eqn:Hout.
  revert Hafter. unfold build_workflow_dag in Hout.
  unfold bind at 1 in Hout. unfold gets at 1 in Hout.
  unfold bind at 1 in Hout. unfold reads at 1 in Hout.
  destruct (spawn_edges t (instances t)) as [spawned|] eqn:Hspawn;
    [|subst outcome; intros _; discriminate].
  unfold bind at 1 in Hout.
  destruct (build_request_sequence_edges lib t) as [t1 [[]|e]] eqn:Hseq;
    [|subst outcome; intros _; discriminate].
  unfold bind, gets, ret in Hout. subst outcome. cbn [fst snd].
  intros Hafter [= <-].
  apply spawn_edges_shape in Hspawn as [Hty Hlen].
  assert (count_type "subagent_spawn" (spawned ++ workflow_edges t1)
          = List.length spawned) as Hcount.
  { rewrite count_type_app, (count_type_all _ _ Hty), count_type_none; [lia|].
    eapply Forall_impl; [exact Hafter|]. apply tracked_not_spawn. }
  split; cbn [dag_nodes dag_edges dag_metrics_of m_total_agents m_total_edges
                m_spawn_edges m_tool_result_edges m_content_reuse_edges
                m_request_sequence_edges m_root_agents].
  - rewrite List.map_map. cbn [node_of n_id]. apply (wf_ids _ Hwf).
  - rewrite List.length_map.
    pose proof (f_equal (@List.length _) (wf_ids _ Hwf)) as Hn.
    unfold agent_ids in Hn.
    by rewrite !List.length_map, List.length_seq in Hn.
  - reflexivity.
  - apply count_types_total, Forall_app. split.
    + eapply Forall_impl; [exact Hty|]. intros x Hx. by left.
    + eapply Forall_impl; [exact Hafter|]. apply tracked_known.
  - by rewrite Hcount, Hlen.
  - rewrite Hcount, Hlen. apply filter_two_length.
    apply Forall_forall. intros n Hn.
    apply list_elem_of_In, in_map_iff in Hn as ([k a] & <- & _).
    unfold has_parent. cbn [node_of n_is_root n_parent_agent_id fst snd].
    intros Hroot. apply bool_decide_eq_true in Hroot. by rewrite Hroot.
Qed.

(** X22. The DAG built after any calls on a new tracker has the agents as
    its nodes, in the order of their creation, and as many as the counter
    says. Every edge is of one of the four kinds, so the four counts of the
    metrics add up to the number of edges; there is one spawn edge for each
    agent with a parent, and roots and spawned agents together are no more
    than the agents. *)
Theorem dag_counts_add_up (lib : datetime_lib) (calls : list call) :
  let t := run lib calls init in
  match snd (build_workflow_dag lib t) with
  | Ok dag => dag_ok t dag
  | Raise _ => True
  end.
Proof.
  intros t.
  destruct (snd (build_workflow_dag lib t)) as [dag|] eqn:Hdag; [|exact I].
  apply (build_workflow_dag_ok lib t dag); [apply run_WF, WF_init| |exact Hdag].
  destruct (run_Tracked lib calls init) as [_ (new & He & Hnew)].
  fold t in He, Hnew. by rewrite He.
Qed.


(** ** The views of the agents *)

Lemma get_agent_tree_returns t :
  WF t ->
  forall fuel root depth,
    (forall i, root = agent_name i -> (agent_counter t - i < fuel)%nat) ->
    (0 < fuel)%nat ->
    exists result, get_agent_tree fuel t root depth = Some result
                   /\ tree_ok t root depth result.
Proof.
  intros Hwf. induction fuel as [|fuel IH]; intros root depth Hroot Hfuel;
    [lia|].
  cbn [get_agent_tree]. unfold tree_ok.
  destruct (alist_get root (instances t)) as [agent|] eqn:Hagent;
    [|by exists None].
  destruct (wf_children _ Hwf root agent Hagent) as [_ Hchildren].
  pose proof (ok_id _ _ (wf_agents _ Hwf root agent Hagent)) as Hid.
  assert (exists trees,
            mapM (fun child_id => get_agent_tree fuel t child_id (depth + 1))
              (child_agent_ids agent) = Some trees
            /\ Forall2 (fun child result => tree_ok t child (depth + 1) result
                                            /\ has_agent t child)
                 (child_agent_ids agent) trees) as (trees & -> & Htrees).
  { revert Hchildren.
    induction (child_agent_ids agent) as [|c cs IHcs]; intros Hchildren.
    - exists []. by split.
    - destruct (Hchildren c (or_introl eq_refl))
        as (i & j & ca & Hi & Hj & Hij & Hca & _).
      destruct (WF_named _ _ _ Hwf Hca) as (j' & Hj' & Hname).
      assert (j' = j) as -> by (apply agent_name_inj; congruence).
      specialize (Hroot i Hi).
      destruct (IH c (depth + 1)) as (result & Hresult & Hok); [|lia|].
      { intros i' Hi'. assert (i' = j) as ->
          by (apply agent_name_inj; congruence). lia. }
      destruct IHcs as (trees & Hmap & Hall).
      { intros c' Hc'. apply Hchildren. by right. }
      exists (result :: trees). split.
      + cbn [mapM]. rewrite Hresult. cbn. rewrite Hmap. reflexivity.
      + constructor; [|exact Hall]. split; [exact Hok|]. by exists ca. }
  eexists. split; [reflexivity|].
  cbn [tree_id tree_depth_of tree_children_of].
  split; [exact Hid|]. split; [reflexivity|].
  clear -Htrees. induction Htrees as [|c result cs trees [Hok [ca Hca]] _ IH];
    [by split|].
  unfold tree_ok in Hok. rewrite Hca in Hok.
  destruct result as [tree|]; [|destruct Hok].
  destruct Hok as (Hid & Hdepth & _). destruct IH as [Hids Hdepths].
  cbn. split; [by rewrite Hid, Hids|by constructor].
Qed.

(** X23. [get_agent_tree] ends on every tracker reached by calls on a new
    one, whatever the root: the child lists lead to newer agents only, so
    as many nested calls as there are agents, and one more, are enough.
    For an unknown root the result is [None]; else it is the tree of the
    root at the depth asked for, with one subtree for each of its children
    in the order of its child list, one level deeper. *)
Theorem agent_tree_is_built (lib : datetime_lib) (calls : list call)
  (root : string) (depth : Z) (more : nat) :
  let t := run lib calls init in
  exists result,
    get_agent_tree (S (agent_counter t + more)) t root depth = Some result
    /\ tree_ok t root depth result.
Proof.
  intros t. apply get_agent_tree_returns; [apply run_WF, WF_init| |lia].
  intros i _. lia.
Qed.


Lemma hierarchy_fold agents : forall hierarchy p c,
  listed (fold_left hierarchy_step agents hierarchy) p c
  <-> listed hierarchy p c
      \/ exists a, In (c, a) agents /\ parent_agent_id a = Some p /\ p <> "".
Proof.
  induction agents as [|[k a] agents IH]; intros hierarchy p c.
  - cbn [fold_left]. split; [by left|]. by intros [H|(a & [] & _)].
  - cbn [fold_left]. rewrite IH. clear IH.
    unfold hierarchy_step at 1. cbn [fst snd].
    destruct (parent_agent_id a) as [parent|] eqn:Hparent.
    + case_bool_decide as Hempty.
      * split.
        -- intros [H|(a' & Hin & Hp & Hne)]; [by left|].
           right. exists a'. split; [by right|by split].
        -- intros [H|(a' & [[= <- <-]|Hin] & Hp & Hne)]; [by left| |].
           ++ congruence.
           ++ right. by exists a'.
      * unfold listed at 1. rewrite alist_get_set.
        case_bool_decide as Hp.
        -- subst parent. split.
           ++ intros [(cs & [= <-] & Hin)|(a' & Hin & Hp' & Hne)].
              ** apply in_app_or in Hin as [Hin|[<-|[]]].
                 --- left. unfold listed.
                     destruct (alist_get p hierarchy) as [cs|];
                       [by exists cs|destruct Hin].
                 --- right. exists a. split; [by left|by split].
              ** right. exists a'. split; [by right|by split].
           ++ intros [(cs & Hcs & Hin)|(a' & [[= <- <-]|Hin] & Hp' & Hne)].
              ** left. eexists. split; [reflexivity|].
                 rewrite Hcs. apply in_or_app. by left.
              ** left. eexists. split; [reflexivity|].
                 apply in_or_app. right. by left.
              ** right. by exists a'.
        -- split.
           ++ intros [H|(a' & Hin & Hp' & Hne)]; [by left|].
              right. exists a'. split; [by right|by split].
           ++ intros [H|(a' & [[= <- <-]|Hin] & Hp' & Hne)]; [by left| |].
              ** congruence.
              ** right. by exists a'.
    + split.
      * intros [H|(a' & Hin & Hp & Hne)]; [by left|].
        right. exists a'. split; [by right|by split].
      * intros [H|(a' & [[= <- <-]|Hin] & Hp & Hne)]; [by left| |].
        -- congruence.
        -- right. by exists a'.
Qed.

Lemma alist_get_elem {V} (l : list (string * V)) k v :
  alist_get k l = Some v -> In (k, v) l.
Proof.
  induction l as [|[k0 v0] l IH]; cbn [alist_get]; [discriminate|].
  case_bool_decide as Hk.
  - intros [= ->]. left. by rewrite Hk.
  - intros Hget. right. by apply IH.
Qed.

(** X24. After any calls on a new tracker [get_agent_hierarchy] agrees
    with the agents: an agent listed under a parent is stored and names
    that parent, and every child in the child list of an agent is listed
    under that agent. *)
Theorem hierarchy_agrees_with_child_lists (lib : datetime_lib)
  (calls : list call) :
  hierarchy_ok (run lib calls init).
Proof.
  pose proof (run_WF lib calls init WF_init) as Hwf.
  set (t := run lib calls init) in *.
  assert (Hfold : forall p c,
            listed (get_agent_hierarchy t) p c
            <-> exists a, In (c, a) (instances t)
                          /\ parent_agent_id a = Some p /\ p <> "").
  { intros p c.
    unfold get_agent_hierarchy. rewrite hierarchy_fold. split; [|by right].
    intros [(cs & Hcs & _)|H]; [discriminate|exact H]. }
  split.
  - intros p c Hlisted. apply Hfold in Hlisted as (a & Hin & Hp & _).
    exists a. split; [by apply WF_stored|exact Hp].
  - intros p pa c Hpa Hc.
    destruct (wf_children _ Hwf p pa Hpa) as [_ Hchildren].
    destruct (Hchildren c Hc) as (i & j & ca & Hi & _ & _ & Hca & Hparent).
    apply Hfold. exists ca. split; [by apply alist_get_elem|].
    split; [exact Hparent|]. rewrite Hi. discriminate.
Qed.

End TrackerFacts.

